(** * Backport orchestration: a shallow embedding of [src/cli/cliService.ts]
    and [src/lib/github.ts], with the properties of the naming functions,
    the conflict-resolution loop, the per-branch pipeline and the
    multi-branch coordinator. *)

From Stdlib Require Import String Ascii List Arith PArith NArith Lia Bool.
From Stdlib Require Import DecimalString.
Import ListNotations.
Open Scope string_scope.

(** ** JavaScript strings

    A JavaScript string is a sequence of code units; here each [ascii] of a
    Rocq [string] stands for one code unit, so [String.length] is the
    JavaScript [length]. *)

Module Js.

(** [s.slice(b, e)] for non-negative [b] and [e]: the code units from [b]
    up to (not including) [e], clamped to the end of [s]. *)
Definition slice (b e : nat) (s : string) : string := substring b (e - b) s.

(** [arr.join(sep)] on an array of strings. *)
Definition join (sep : string) (l : list string) : string := String.concat sep l.

(** Template-literal rendering of a non-negative integer: its decimal
    digits. *)
Definition toString (n : N) : string :=
  NilZero.string_of_uint (N.to_uint n).

(** [s.replace(pat, rep)] with a string pattern: only the first (leftmost)
    occurrence of [pat] is replaced.  The one call site passes [''] for
    [rep], so the [$]-patterns of replacement strings play no role. *)
Fixpoint replace (pat rep s : string) : string :=
  if prefix pat s then rep ++ slice (String.length pat) (String.length s) s
  else match s with
       | EmptyString => EmptyString
       | String c s' => String c (replace pat rep s')
       end.

(** [s.includes(pat)]. *)
Fixpoint includes (pat s : string) : bool :=
  prefix pat s ||
  match s with
  | EmptyString => false
  | String _ s' => includes pat s'
  end.

(** Number of positions of [s] at which [pat] occurs. *)
Fixpoint occurrences (pat s : string) : nat :=
  (if prefix pat s then 1 else 0) +
  match s with
  | EmptyString => 0
  | String _ s' => occurrences pat s'
  end.

(** The line feed written [\n] in the source. *)
Definition LF : string := String (ascii_of_nat 10) EmptyString.

End Js.

(** ** Data model ([src/types/types]) *)

(** A commit.  [pullNumber] is [undefined] or a number, here a
    non-negative integer: the number 0 is present but falsy. *)
Record Commit := mkCommit {
  sha : string;
  message : string;
  pullNumber : option N
}.

Record GithubPullRequestPayload := mkPayload {
  title : string;
  body : string;
  head : string;
  base : string
}.

(** ** Reference naming *)

Definition getShortSha (commit : Commit) : string :=
  Js.slice 0 7 (sha commit).

(** Truthiness of [commit.pullNumber]: a number other than 0. *)
Definition truthyNumber (n : option N) : bool :=
  match n with
  | Some n => negb (N.eqb n 0)
  | None => false
  end.

(** The digits of [commit.pullNumber] in a template literal. *)
Definition pullNumberText (commit : Commit) : string :=
  match pullNumber commit with
  | Some n => Js.toString n
  | None => "undefined"
  end.

Definition getReferenceLong (commit : Commit) : string :=
  if truthyNumber (pullNumber commit)
  then "#" ++ pullNumberText commit
  else getShortSha commit.

Definition getReferenceShort (commit : Commit) : string :=
  if truthyNumber (pullNumber commit)
  then "pr-" ++ pullNumberText commit
  else "commit-" ++ getShortSha commit.

Definition getFeatureBranchName (baseBranch : string) (commits : list Commit)
  : string :=
  let refValues :=
    Js.slice 0 200 (Js.join "_" (map (fun commit => getReferenceShort commit) commits)) in
  "backport/" ++ baseBranch ++ "/" ++ refValues.

Definition getPullRequestTitle (baseBranch : string) (commits : list Commit)
  : string :=
  let commitMessages :=
    Js.slice 0 200 (Js.join " | " (map (fun commit => message commit) commits)) in
  "[" ++ baseBranch ++ "] " ++ commitMessages.

Definition getPullRequestPayload (baseBranch : string) (commits : list Commit)
  (username : string) : GithubPullRequestPayload :=
  let featureBranch := getFeatureBranchName baseBranch commits in
  let commitRefs :=
    Js.join Js.LF
      (map (fun commit =>
              let ref := getReferenceLong commit in
              " - " ++ Js.replace ("(" ++ ref ++ ")") "" (message commit)
                    ++ " (" ++ ref ++ ")")
           commits) in
  {| title := getPullRequestTitle baseBranch commits;
     body := "Backports the following commits to " ++ baseBranch ++ ":"
             ++ Js.LF ++ commitRefs;
     head := username ++ ":" ++ featureBranch;
     base := baseBranch |}.

(** ** Errors, values and the outside world *)

#[local] Set Warnings "-register-all".

(** JSON values, for the structured error body of the hosting API. *)
Inductive Json :=
| JNull
| JBool (b : bool)
| JNum (n : nat)
| JStr (s : string)
| JArr (l : list Json)
| JObj (fields : list (string * Json)).

(** An object as its properties in insertion order. *)
Definition JsObject := list (string * Json).

(** [{ ...o, k: v }]: an existing property keeps its place and takes the new
    value, a new one goes last. *)
Fixpoint obj_set (k : string) (v : Json) (o : JsObject) : JsObject :=
  match o with
  | [] => [(k, v)]
  | (k', v') :: o' =>
      if String.eqb k' k then (k, v) :: o' else (k', v') :: obj_set k v o'
  end.

(** A thrown value: an error object with the properties the code reads.
    [cmd] is set by the command runner on a failed command; [response] and
    [config_url] ([e.config.url]) are set by the HTTP client, [response]
    holding the [data] of the error response when there is one. *)
Module Error.
Record t := mk {
  name : string;
  message : string;
  cmd : option string;
  response : option (option JsObject);
  config_url : string
}.
End Error.
Definition JsError : Type := Error.t.

(** Modelled from the spec: the class [HandledError] of [src/lib/errors]
    (not among the sources), the error of the expected, operator-facing
    failures; [handleErrors] recognises it by the name ['HandledError']. *)
Definition HandledError (message : string) : JsError :=
  Error.mk "HandledError" message None None "".

(** The error the runtime raises on [e.cmd.includes(...)] when [e.cmd] is
    [undefined]. *)
Definition TypeError_includes : JsError :=
  Error.mk "TypeError" "Cannot read property 'includes' of undefined"
           None None "".

Module GithubIssue.
Record t := mk { html_url : string; number : N }.
End GithubIssue.

Module PullRequest.
Record t := mk { html_url : string; number : N }.
End PullRequest.

(** The body of a POST request. *)
Inductive PostBody :=
| PayloadBody (payload : GithubPullRequestPayload)
| LabelsBody (labels : list string).

(** What the program does to the outside world, in order. *)
Inductive Event :=
| Log (msg : string)
| ConsoleError (msg : string)
| ConsoleErrorObject (e : JsError)
| SpinnerStart (text : option string)
| SpinnerSucceed
| SpinnerStop
| SpinnerText (text : string)
| SpinnerFail
| ResetBranch (owner repoName : string)
| CreateAndCheckoutBranch (owner repoName baseBranch featureBranch : string)
| Cherrypick (owner repoName sha : string)
| Push (owner repoName username featureBranch : string)
| ConfirmConflictResolved
| IsIndexDirty (owner repoName : string)
| AxiosPost (url : string) (body : PostBody).

Definition History := list Event.

(** How a promise of a collaborator settles. *)
Inductive Settled (A : Type) :=
| Fulfilled (a : A)
| Rejected (e : JsError).
Arguments Fulfilled {A} a.
Arguments Rejected {A} e.

(** The collaborators ([src/lib/git], [src/lib/prompts], [src/lib/env],
    the HTTP client and the JSON printer).  Each answer may depend on
    everything that happened before the call. *)
Record Env := mkEnv {
  accessToken : string;
  JSON_stringify : JsObject -> string;
  getRepoPath : string -> string -> string;
  resetBranch : History -> string -> string -> Settled unit;
  createAndCheckoutBranch :
    History -> string -> string -> string -> string -> Settled unit;
  cherrypick : History -> string -> string -> string -> Settled unit;
  push : History -> string -> string -> string -> string -> Settled unit;
  isIndexDirty : History -> string -> string -> Settled bool;
  confirmConflictResolved : History -> Settled bool;
  axios_post : History -> string -> PostBody -> Settled GithubIssue.t
}.

(** ** Computations

    A computation reads the history so far and yields the events it adds and
    its result: a value, a thrown error, or no result within the fuel given
    to the one recursive function. *)

Inductive Result (A : Type) :=
| Ret (a : A)
| Throw (e : JsError)
| OutOfFuel.
Arguments Ret {A} a.
Arguments Throw {A} e.
Arguments OutOfFuel {A}.

Definition M (A : Type) := History -> list Event * Result A.

Definition ret {A} (a : A) : M A := fun _ => ([], Ret a).

Definition throw {A} (e : JsError) : M A := fun _ => ([], Throw e).

Definition bind {A B} (m : M A) (k : A -> M B) : M B :=
  fun h =>
    match m h with
    | (ev, Ret a) => let (ev', r) := k a (h ++ ev)%list in ((ev ++ ev')%list, r)
    | (ev, Throw e) => (ev, Throw e)
    | (ev, OutOfFuel) => (ev, OutOfFuel)
    end.

(** [try { m } catch (e) { handler(e) }] *)
Definition try_catch {A} (m : M A) (handler : JsError -> M A) : M A :=
  fun h =>
    match m h with
    | (ev, Throw e) =>
        let (ev', r) := handler e (h ++ ev)%list in ((ev ++ ev')%list, r)
    | res => res
    end.

Definition emit (ev : Event) : M unit := fun _ => ([ev], Ret tt).

(** A call to a collaborator: the call is recorded and settles as the
    collaborator says. *)
Definition call {A} (ev : Event) (answer : History -> Settled A) : M A :=
  fun h =>
    match answer h with
    | Fulfilled a => ([ev], Ret a)
    | Rejected e => ([ev], Throw e)
    end.

Declare Scope js_scope.
Delimit Scope js_scope with js.
Notation "x <- c1 ;; c2" := (bind c1 (fun x => c2))
  (at level 61, c1 at next level, right associativity) : js_scope.
Notation "c1 ;; c2" := (bind c1 (fun _ => c2))
  (at level 61, right associativity) : js_scope.
Open Scope js_scope.

(** Truthiness of a string, and of a string that may be [undefined]. *)
Definition truthy (s : string) : bool := negb (String.eqb s "").

Definition truthy_opt (s : option string) : bool :=
  match s with
  | Some s => truthy s
  | None => false
  end.

(** ** The program *)

Section Program.

Variable env : Env.

(** [logger.log] *)
Definition log (msg : string) : M unit := emit (Log msg).

(** *** [src/lib/github.ts] *)

Definition getError (e : JsError) : JsError :=
  match Error.response e with
  | Some (Some data) =>
      HandledError
        (JSON_stringify env
           (obj_set "axiosUrl" (JStr (Error.config_url e)) data))
  | _ => e
  end.

Definition createPullRequest (owner repoName : string)
  (payload : GithubPullRequestPayload) : M PullRequest.t :=
  try_catch
    (let url := "https://api.github.com/repos/" ++ owner ++ "/" ++ repoName
                ++ "/pulls?access_token=" ++ accessToken env in
     res <- call (AxiosPost url (PayloadBody payload))
                 (fun h => axios_post env h url (PayloadBody payload)) ;;
     ret (PullRequest.mk (GithubIssue.html_url res) (GithubIssue.number res)))
    (fun e => throw (getError e)).

Definition addLabels (owner repoName : string) (pullNumber : N)
  (labels : list string) : M GithubIssue.t :=
  try_catch
    (let url := "https://api.github.com/repos/" ++ owner ++ "/" ++ repoName
                ++ "/issues/" ++ Js.toString pullNumber
                ++ "/labels?access_token=" ++ accessToken env in
     call (AxiosPost url (LabelsBody labels))
          (fun h => axios_post env h url (LabelsBody labels)))
    (fun e => throw (getError e)).

(** *** [src/cli/cliService.ts] *)

Definition withSpinner {T} (text errorText : option string) (fn : M T)
  : M T :=
  emit (SpinnerStart text) ;;
  try_catch
    (res <- fn ;;
     (if truthy_opt text then emit SpinnerSucceed else emit SpinnerStop) ;;
     ret res)
    (fun e =>
       (match errorText with
        | Some t => if truthy t then emit (SpinnerText t) else ret tt
        | None => ret tt
        end) ;;
       emit SpinnerFail ;;
       throw e).

(** [items.reduce(async (p, item) => { await p; return handler(item); },
    Promise.resolve())]; [undefined] is what the initial promise holds. *)
Definition sequentially {T A} (undefined : A) (items : list T)
  (handler : T -> M A) : M A :=
  fold_left (fun p item => _ <- p ;; handler item) items (ret undefined).

Fixpoint confirmResolvedRecursive (fuel : nat) (owner repoName : string)
  : M unit :=
  match fuel with
  | O => fun _ => ([], OutOfFuel)
  | S fuel' =>
      res <- call ConfirmConflictResolved (confirmConflictResolved env) ;;
      if negb res then throw (HandledError "Application was aborted.")
      else
        isDirty <- call (IsIndexDirty owner repoName)
                        (fun h => isIndexDirty env h owner repoName) ;;
        if isDirty then confirmResolvedRecursive fuel' owner repoName
        else ret tt
  end.

Definition cherrypickAndConfirm (fuel : nat) (owner repoName sha : string)
  : M unit :=
  try_catch
    (withSpinner
       (Some "Cherry-picking commit")
       (Some ("Cherry-picking failed. Please resolve conflicts in: "
              ++ getRepoPath env owner repoName))
       (call (Cherrypick owner repoName sha)
             (fun h => cherrypick env h owner repoName sha)))
    (fun e =>
       match Error.cmd e with
       | None => throw TypeError_includes
       | Some cmd =>
           let hasConflict := Js.includes "git cherry-pick" cmd in
           if negb hasConflict then throw e
           else confirmResolvedRecursive fuel owner repoName
       end).

Definition doBackportVersion (fuel : nat) (owner repoName : string)
  (commits : list Commit) (baseBranch username : string)
  (labels : list string) : M PullRequest.t :=
  let featureBranch := getFeatureBranchName baseBranch commits in
  let refValues :=
    Js.join ", " (map (fun commit => getReferenceLong commit) commits) in
  log ("Backporting " ++ refValues ++ " to " ++ baseBranch) ;;
  withSpinner (Some "Pulling latest changes") None
    (call (ResetBranch owner repoName)
          (fun h => resetBranch env h owner repoName) ;;
     call (CreateAndCheckoutBranch owner repoName baseBranch featureBranch)
          (fun h => createAndCheckoutBranch env h owner repoName
                      baseBranch featureBranch)) ;;
  sequentially tt commits
    (fun commit => cherrypickAndConfirm fuel owner repoName (sha commit)) ;;
  withSpinner
    (Some ("Pushing branch " ++ username ++ ":" ++ featureBranch)) None
    (call (Push owner repoName username featureBranch)
          (fun h => push env h owner repoName username featureBranch)) ;;
  withSpinner (Some "Creating pull request") None
    (let payload := getPullRequestPayload baseBranch commits username in
     pullRequest <- createPullRequest owner repoName payload ;;
     (if Nat.ltb 0 (List.length labels)
      then _ <- addLabels owner repoName
                  (PullRequest.number pullRequest) labels ;; ret tt
      else ret tt) ;;
     ret pullRequest).

Definition handleErrors (e : JsError) : M unit :=
  if String.eqb (Error.name e) "HandledError"
  then emit (ConsoleError (Error.message e))
  else emit (ConsoleErrorObject e) ;; throw e.

(** The handler of each branch has no [return]: it resolves to
    [undefined], here [None], and so does the whole run. *)
Definition doBackportVersions (fuel : nat) (owner repoName : string)
  (commits : list Commit) (branches : list string) (username : string)
  (labels : list string) : M (option PullRequest.t) :=
  sequentially None branches
    (fun baseBranch =>
       try_catch
         (pullRequest <- doBackportVersion fuel owner repoName commits
                           baseBranch username labels ;;
          log ("View pull request: " ++ PullRequest.html_url pullRequest
               ++ Js.LF) ;;
          ret None)
         (fun e => handleErrors e ;; ret None)).

End Program.

(** ** Vocabulary of the properties *)

(** Every code unit of [s] satisfies [p]. *)
Fixpoint allChars (p : ascii -> bool) (s : string) : bool :=
  match s with
  | EmptyString => true
  | String c s' => p c && allChars p s'
  end.

Definition isDigit (c : ascii) : bool :=
  let n := nat_of_ascii c in (48 <=? n)%nat && (n <=? 57)%nat.

(** A lowercase hexadecimal digit: [0-9a-f]. *)
Definition isLowerHex (c : ascii) : bool :=
  let n := nat_of_ascii c in
  isDigit c || ((97 <=? n)%nat && (n <=? 102)%nat).

Definition notSpace (c : ascii) : bool := negb (Ascii.eqb c " "%char).

(** The commits cherry-picked by a run, as the shas passed, in order. *)
Fixpoint cherrypicks (evs : list Event) : list string :=
  match evs with
  | [] => []
  | Cherrypick _ _ sha :: evs' => sha :: cherrypicks evs'
  | _ :: evs' => cherrypicks evs'
  end.

(** A push or a request to the hosting API. *)
Definition isRemote (ev : Event) : bool :=
  match ev with
  | Push _ _ _ _ | AxiosPost _ _ => true
  | _ => false
  end.

Definition isPrompt (ev : Event) : bool :=
  match ev with
  | ConfirmConflictResolved => true
  | _ => false
  end.

(** [n] rounds of "confirmed, but still dirty". *)
Fixpoint dirtyRounds (owner repoName : string) (n : nat) : list Event :=
  match n with
  | O => []
  | S n' =>
      ConfirmConflictResolved :: IsIndexDirty owner repoName
        :: dirtyRounds owner repoName n'
  end.

(** The handlers of [items] one after the other, each awaiting the one
    before: what [sequentially] amounts to. *)
Fixpoint forEach {T A} (undefined : A) (items : list T) (handler : T -> M A)
  : M A :=
  match items with
  | [] => ret undefined
  | item :: items' =>
      a <- handler item ;; forEach a items' handler
  end.

(** The events of the first step of a branch's pipeline when it succeeds. *)
Definition synced (owner repoName : string) (commits : list Commit)
  (baseBranch : string) : list Event :=
  [ Log ("Backporting "
         ++ Js.join ", " (map (fun commit => getReferenceLong commit) commits)
         ++ " to " ++ baseBranch);
    SpinnerStart (Some "Pulling latest changes");
    ResetBranch owner repoName;
    CreateAndCheckoutBranch owner repoName baseBranch
      (getFeatureBranchName baseBranch commits);
    SpinnerSucceed ].

(** The events of a cherry-pick that fails. *)
Definition pickFailed (env : Env) (owner repoName sha : string)
  : list Event :=
  [ SpinnerStart (Some "Cherry-picking commit");
    Cherrypick owner repoName sha;
    SpinnerText ("Cherry-picking failed. Please resolve conflicts in: "
                 ++ getRepoPath env owner repoName);
    SpinnerFail ].

(** What a failing spinner shows before it fails. *)
Definition failureText (errorText : option string) : list Event :=
  match errorText with
  | Some t => if truthy t then [SpinnerText t] else []
  | None => []
  end.

Definition notPick (ev : Event) : bool :=
  match ev with
  | Cherrypick _ _ _ => false
  | _ => true
  end.

Definition notRemote (ev : Event) : bool := negb (isRemote ev).

(** Every event a computation adds satisfies [q], whatever came before. *)
Definition emitsOnly {A} (q : Event -> bool) (m : M A) : Prop :=
  forall h, Forall (fun ev => q ev = true) (fst (m h)).

(** A run cherry-picks the commits of [shas] in order: it picks a prefix
    of them, and all of them when it pushes, reaches the hosting API or
    returns. *)
Definition inOrder {A} (shas : list string) (run : list Event * Result A)
  : Prop :=
  (exists k, cherrypicks (fst run) = firstn k shas) /\
  (filter isRemote (fst run) <> [] -> cherrypicks (fst run) = shas) /\
  (forall a, snd run = Ret a -> cherrypicks (fst run) = shas).

(** ** Concrete collaborators, for running the program *)

Module Sample.

(** The double quote. *)
Definition dquote : ascii := ascii_of_nat 34.

(** [JSON.stringify(v, null, 4)] on the values above (strings are escaped
    for the quote and the backslash only). *)
Fixpoint escape (s : string) : string :=
  match s with
  | EmptyString => EmptyString
  | String c s' =>
      if Ascii.eqb c dquote then String "\"%char (String c (escape s'))
      else if Ascii.eqb c "\"%char then String c (String c (escape s'))
      else String c (escape s')
  end.

Definition quote (s : string) : string :=
  String dquote (escape s ++ String dquote EmptyString).

Fixpoint stringify (indent : string) (v : Json) : string :=
  let inner := indent ++ "    " in
  match v with
  | JNull => "null"
  | JBool true => "true"
  | JBool false => "false"
  | JNum n => NilZero.string_of_uint (Nat.to_uint n)
  | JStr s => quote s
  | JArr [] => "[]"
  | JArr l =>
      "[" ++ Js.LF
      ++ Js.join ("," ++ Js.LF) (map (fun x => inner ++ stringify inner x) l)
      ++ Js.LF ++ indent ++ "]"
  | JObj [] => "{}"
  | JObj fields =>
      "{" ++ Js.LF
      ++ Js.join ("," ++ Js.LF)
           (map (fun kv => let '(k, x) := kv in
                           inner ++ quote k ++ ": " ++ stringify inner x)
                fields)
      ++ Js.LF ++ indent ++ "}"
  end.

(** The base branch checked out last. *)
Fixpoint currentBase (h : History) : option string :=
  match h with
  | [] => None
  | ev :: h' =>
      match currentBase h', ev with
      | Some b, _ => Some b
      | None, CreateAndCheckoutBranch _ _ b _ => Some b
      | None, _ => None
      end
  end.

Definition onBase (b : string) (h : History) : bool :=
  match currentBase h with
  | Some b' => String.eqb b b'
  | None => false
  end.

Definition isDirtyCheck (ev : Event) : bool :=
  match ev with IsIndexDirty _ _ => true | _ => false end.

(** Collaborators that always succeed, but for the four given. *)
Definition collaborators
  (cherry : History -> string -> Settled unit)
  (confirm dirty : History -> Settled bool)
  (post : History -> string -> PostBody -> Settled GithubIssue.t) : Env :=
  {| accessToken := "t0k3n";
     JSON_stringify := fun o => stringify "" (JObj o);
     getRepoPath := fun owner repoName =>
       "/home/me/.backport/repositories/" ++ owner ++ "/" ++ repoName;
     resetBranch := fun _ _ _ => Fulfilled tt;
     createAndCheckoutBranch := fun _ _ _ _ _ => Fulfilled tt;
     cherrypick := fun h _ _ sha => cherry h sha;
     push := fun _ _ _ _ _ => Fulfilled tt;
     isIndexDirty := fun h _ _ => dirty h;
     confirmConflictResolved := confirm;
     axios_post := post |}.

Definition created (h : History) (url : string) (body : PostBody)
  : Settled GithubIssue.t :=
  Fulfilled (GithubIssue.mk "https://github.com/elastic/kibana/pull/77" 77).

Definition commit10 : Commit :=
  mkCommit "abc1234def5678" "Fix bug (#10)" (Some 10%N).

Definition commitNoPull : Commit :=
  mkCommit "deadbeefcafe0123" "Tidy up" None.

(** The error of a failed [git cherry-pick]. *)
Definition conflictError : JsError :=
  Error.mk "Error" "Command failed: git cherry-pick abc1234def5678"
           (Some "git cherry-pick abc1234def5678") None "".

(** The error of another failed command. *)
Definition fetchError : JsError :=
  Error.mk "Error" "Command failed: git fetch origin"
           (Some "git fetch origin") None "".

(** A network failure: no [cmd], no [response]. *)
Definition networkError : JsError :=
  Error.mk "Error" "getaddrinfo ENOTFOUND github.com" None None "".

(** An error response of the hosting API with a structured body. *)
Definition apiError : JsError :=
  Error.mk "Error" "Request failed with status code 422" None
    (Some (Some [("message", JStr "Validation Failed")]))
    "https://api.github.com/repos/elastic/kibana/pulls?access_token=t0k3n".

(** Everything succeeds. *)
Definition happy : Env :=
  collaborators (fun _ _ => Fulfilled tt) (fun _ => Fulfilled true)
                (fun _ => Fulfilled false) created.

(** The hosting API refuses the pull request onto [6.x]. *)
Definition refused6x : Env :=
  collaborators (fun _ _ => Fulfilled tt) (fun _ => Fulfilled true)
                (fun _ => Fulfilled false)
                (fun h url body =>
                   match body with
                   | PayloadBody p =>
                       if String.eqb (base p) "6.x" then Rejected apiError
                       else created h url body
                   | LabelsBody _ => created h url body
                   end).

(** Cherry-picking conflicts on [6.x], and the operator says no. *)
Definition denied6x : Env :=
  collaborators (fun h _ => if onBase "6.x" h then Rejected conflictError
                            else Fulfilled tt)
                (fun _ => Fulfilled false)
                (fun _ => Fulfilled false) created.

(** Cherry-picking conflicts; the operator always says yes, and the index
    is dirty at the first two checks. *)
Definition dirtyTwice : Env :=
  collaborators (fun _ _ => Rejected conflictError)
                (fun _ => Fulfilled true)
                (fun h => Fulfilled
                            (Nat.ltb (List.length (filter isDirtyCheck h)) 2))
                created.

(** Cherry-picking fails on another command. *)
Definition fetchFails : Env :=
  collaborators (fun _ _ => Rejected fetchError)
                (fun _ => Fulfilled true)
                (fun _ => Fulfilled false) created.

(** Cherry-picking fails for a reason that carries no [cmd]. *)
Definition offline : Env :=
  collaborators (fun _ _ => Rejected networkError)
                (fun _ => Fulfilled true)
                (fun _ => Fulfilled false) created.

Definition commitThird : Commit :=
  mkCommit "0123456789abcdef0123" "Third change" None.

(** The cherry-pick of [commitNoPull] conflicts, and the operator says
    no. *)
Definition secondPickDenied : Env :=
  collaborators (fun _ picked => if String.eqb picked (sha commitNoPull)
                              then Rejected conflictError
                              else Fulfilled tt)
                (fun _ => Fulfilled false)
                (fun _ => Fulfilled false) created.

(** Cherry-picking conflicts on [6.x]; the operator says yes at the first
    prompt and no from then on, and the index stays dirty. *)
Definition deniedOnRetry6x : Env :=
  collaborators (fun h _ => if onBase "6.x" h then Rejected conflictError
                            else Fulfilled tt)
                (fun h => Fulfilled
                            (Nat.eqb (List.length (filter isPrompt h)) 0))
                (fun _ => Fulfilled true) created.

End Sample.

(** ** Further vocabulary *)

Definition isReset (ev : Event) : bool :=
  match ev with
  | ResetBranch _ _ => true
  | _ => false
  end.

Definition notReset (ev : Event) : bool := negb (isReset ev).

Definition isPush (ev : Event) : bool :=
  match ev with
  | Push _ _ _ _ => true
  | _ => false
  end.

(** The pushes and the requests to the hosting API among [events], each
    with the history it was made in; [h] is the history before [events]. *)
Fixpoint remoteCalls (h : History) (events : list Event)
  : list (History * Event) :=
  match events with
  | [] => []
  | ev :: events' =>
      let rest := remoteCalls (h ++ [ev])%list events' in
      if isRemote ev then (h, ev) :: rest else rest
  end.

(** What one branch's pipeline may have pushed and asked of the hosting
    API, read with its result.  Nothing, and no pull request is returned;
    the push alone, which was rejected with the error thrown; the push and
    the request for the pull request, which was rejected, or was answered
    when there are no labels; or, with labels, these and the request that
    attaches the labels to the number in the answer to the request before
    it.  An answered run returns the url and the number of that answer; a
    rejected request throws what [getError] makes of its error. *)
Definition published (env : Env) (owner repoName : string)
  (commits : list Commit) (baseBranch username : string)
  (labels : list string) (calls : list (History * Event))
  (result : Result PullRequest.t) : Prop :=
  let featureBranch := getFeatureBranchName baseBranch commits in
  let pushed := Push owner repoName username featureBranch in
  let pullsUrl :=
    "https://api.github.com/repos/" ++ owner ++ "/" ++ repoName
    ++ "/pulls?access_token=" ++ accessToken env in
  let payload :=
    PayloadBody (getPullRequestPayload baseBranch commits username) in
  let labelsUrl n :=
    "https://api.github.com/repos/" ++ owner ++ "/" ++ repoName
    ++ "/issues/" ++ Js.toString n
    ++ "/labels?access_token=" ++ accessToken env in
  (calls = [] /\ forall pullRequest, result <> Ret pullRequest) \/
  (exists h1 e,
     calls = [(h1, pushed)] /\
     push env h1 owner repoName username featureBranch = Rejected e /\
     result = Throw e) \/
  (exists h1 h2 e,
     calls = [(h1, pushed); (h2, AxiosPost pullsUrl payload)] /\
     push env h1 owner repoName username featureBranch = Fulfilled tt /\
     axios_post env h2 pullsUrl payload = Rejected e /\
     result = Throw (getError env e)) \/
  (exists h1 h2 issue,
     calls = [(h1, pushed); (h2, AxiosPost pullsUrl payload)] /\
     push env h1 owner repoName username featureBranch = Fulfilled tt /\
     axios_post env h2 pullsUrl payload = Fulfilled issue /\
     labels = [] /\
     result = Ret (PullRequest.mk (GithubIssue.html_url issue)
                     (GithubIssue.number issue))) \/
  (exists h1 h2 h3 issue,
     let labelling :=
       AxiosPost (labelsUrl (GithubIssue.number issue)) (LabelsBody labels) in
     calls = [(h1, pushed); (h2, AxiosPost pullsUrl payload); (h3, labelling)] /\
     push env h1 owner repoName username featureBranch = Fulfilled tt /\
     axios_post env h2 pullsUrl payload = Fulfilled issue /\
     labels <> [] /\
     ((exists e,
         axios_post env h3 (labelsUrl (GithubIssue.number issue))
           (LabelsBody labels) = Rejected e /\
         result = Throw (getError env e)) \/
      (exists answer,
         axios_post env h3 (labelsUrl (GithubIssue.number issue))
           (LabelsBody labels) = Fulfilled answer /\
         result = Ret (PullRequest.mk (GithubIssue.html_url issue)
                         (GithubIssue.number issue))))).

(** ** Text helpers of the commit selection *)

Module Text.

Definition LFchar : ascii := ascii_of_nat 10.

Definition notLF (c : ascii) : bool := negb (Ascii.eqb c LFchar).

(** The white space and line terminators that [trim] removes, among the
    code units below 256: TAB, LF, VT, FF, CR, SP and NBSP. *)
Definition isWhiteSpace (c : ascii) : bool :=
  let n := nat_of_ascii c in
  ((9 <=? n)%nat && (n <=? 13)%nat) || (n =? 32)%nat || (n =? 160)%nat.

(** [s.split('\n')[0]] *)
Fixpoint firstLine (s : string) : string :=
  match s with
  | EmptyString => EmptyString
  | String c s' =>
      if Ascii.eqb c LFchar then EmptyString else String c (firstLine s')
  end.

Fixpoint trimStart (s : string) : string :=
  match s with
  | EmptyString => EmptyString
  | String c s' => if isWhiteSpace c then trimStart s' else s
  end.

Fixpoint trimEnd (s : string) : string :=
  match s with
  | EmptyString => EmptyString
  | String c s' =>
      match trimEnd s' with
      | EmptyString => if isWhiteSpace c then EmptyString
                       else String c EmptyString
      | t => String c t
      end
  end.

(** [s.trim()] *)
Definition trim (s : string) : string := trimEnd (trimStart s).

Definition startsWith (p : ascii -> bool) (s : string) : bool :=
  match s with
  | EmptyString => false
  | String c _ => p c
  end.

Fixpoint endsWith (p : ascii -> bool) (s : string) : bool :=
  match s with
  | EmptyString => false
  | String c EmptyString => p c
  | String _ s' => endsWith p s'
  end.

End Text.

(** Node's [querystring], on code units below 256. *)
Module Querystring.

Definition hexDigit (n : nat) : ascii :=
  nth n (list_ascii_of_string "0123456789ABCDEF") "0"%char.

Definition percent (n : nat) : string :=
  String "%" (String (hexDigit (n / 16)) (String (hexDigit (n mod 16)) "")).

Definition isAlphaNum (c : ascii) : bool :=
  let n := nat_of_ascii c in
  ((48 <=? n)%nat && (n <=? 57)%nat)
  || ((65 <=? n)%nat && (n <=? 90)%nat)
  || ((97 <=? n)%nat && (n <=? 122)%nat).

(** The characters [querystring.escape] leaves as they are. *)
Definition unreserved (c : ascii) : bool :=
  isAlphaNum c
  || existsb (Ascii.eqb c) (list_ascii_of_string "-_.!~*'()").

(** One code unit, as the bytes of its UTF-8 encoding when it is
    escaped. *)
Definition escapeChar (c : ascii) : string :=
  let n := nat_of_ascii c in
  if unreserved c then String c ""
  else if (n <? 128)%nat then percent n
  else percent (192 + n / 64) ++ percent (128 + n mod 64).

Fixpoint escape (s : string) : string :=
  match s with
  | EmptyString => EmptyString
  | String c s' => escapeChar c ++ escape s'
  end.

(** [querystring.stringify] of an object whose values are strings (a
    number being given by its digits). *)
Definition stringify (query : list (string * string)) : string :=
  Js.join "&" (map (fun kv => escape (fst kv) ++ "=" ++ escape (snd kv)) query).

End Querystring.

(** ** The collaborators of the commit selection and of the setup *)

Module GithubCommit.
Record t := mk { sha : string; message : string }.
End GithubCommit.

Module GithubPullRequest.
Record t := mk { merged : bool; merge_commit_sha : string; title : string }.
End GithubPullRequest.

(** What these functions do to the outside world. *)
Inductive IoEvent :=
| Ora (text : option string)
| OraText (text : string)
| OraSucceed
| OraStop
| OraFail
| OraStopAndPersist (symbol text : string)
| AxiosGet (url : string) (accept : option string)
| VerifyGithubSshAuth
| RepoExists (owner repoName : string)
| SetupRepo (owner repoName username : string)
| DeleteRepo (owner repoName : string)
| ListCommits (commits : list Commit) (isMultipleChoice : bool).

(** The collaborators: [chalk], the GET requests of the HTTP client by
    what their [data] holds (of a search, its [items]), [src/lib/git] and
    [src/lib/prompts].  [setupRepo] reports its progress before it settles.
    [settlesFirst] says which of several rejected requests in flight was
    rejected first. *)
Record Host := mkHost {
  chalk_green : string -> string;
  chalk_bold : string -> string;
  chalk_cyan : string -> string;
  chalk_red : string -> string;
  get_commits : list IoEvent -> string -> Settled (list GithubCommit.t);
  get_commit_search : list IoEvent -> string -> Settled (list GithubCommit.t);
  get_pull : list IoEvent -> string -> Settled GithubPullRequest.t;
  get_issue_search : list IoEvent -> string -> Settled (list GithubIssue.t);
  settlesFirst : list IoEvent -> nat;
  verifyGithubSshAuth : list IoEvent -> Settled unit;
  repoExists : list IoEvent -> string -> string -> Settled bool;
  setupRepo :
    list IoEvent -> string -> string -> string -> list string * Settled unit;
  deleteRepo : list IoEvent -> string -> string -> Settled unit;
  listCommits : list IoEvent -> list Commit -> bool -> Settled (list Commit)
}.

(** A computation of this part: from the events so far to the events it
    adds and the way its promise settles. *)
Definition IO (A : Type) := list IoEvent -> list IoEvent * Settled A.

Definition ioret {A} (a : A) : IO A := fun _ => ([], Fulfilled a).

Definition iothrow {A} (e : JsError) : IO A := fun _ => ([], Rejected e).

Definition iobind {A B} (m : IO A) (k : A -> IO B) : IO B :=
  fun h =>
    match m h with
    | (ev, Fulfilled a) =>
        let (ev', r) := k a (h ++ ev)%list in ((ev ++ ev')%list, r)
    | (ev, Rejected e) => (ev, Rejected e)
    end.

Definition iotry {A} (m : IO A) (handler : JsError -> IO A) : IO A :=
  fun h =>
    match m h with
    | (ev, Rejected e) =>
        let (ev', r) := handler e (h ++ ev)%list in ((ev ++ ev')%list, r)
    | res => res
    end.

Definition ioemit (ev : IoEvent) : IO unit := fun _ => ([ev], Fulfilled tt).

Definition iocall {A} (ev : IoEvent) (answer : list IoEvent -> Settled A)
  : IO A :=
  fun h => ([ev], answer h).

Declare Scope io_scope.
Delimit Scope io_scope with io.
Notation "x <~ c1 ;; c2" := (iobind c1 (fun x => c2))
  (at level 61, c1 at next level, right associativity) : io_scope.
Open Scope io_scope.

(** [Promise.all]: the values in order when every promise is fulfilled,
    otherwise the reason of the promise rejected first, [winner] being its
    rank among the rejected ones. *)
Fixpoint rejections {A} (rs : list (Settled A)) : list JsError :=
  match rs with
  | [] => []
  | Fulfilled _ :: rs' => rejections rs'
  | Rejected e :: rs' => e :: rejections rs'
  end.

Fixpoint fulfilments {A} (rs : list (Settled A)) : list A :=
  match rs with
  | [] => []
  | Fulfilled a :: rs' => a :: fulfilments rs'
  | Rejected _ :: rs' => fulfilments rs'
  end.

Definition promiseAll {A} (winner : nat) (rs : list (Settled A))
  : Settled (list A) :=
  match rejections rs with
  | [] => Fulfilled (fulfilments rs)
  | e :: es => Rejected (nth winner (e :: es) e)
  end.

(** ** [src/lib/github.ts]: reading commits *)

Module Github.

Section WithHost.

Variable env : Env.
Variable host : Host.

Definition getCommitMessage (message : string) : string :=
  Text.trim (Text.firstLine message).

Definition getPullNumberBySha (owner repoName commitSha : string)
  : IO (option N) :=
  iotry
    (let url := "https://api.github.com/search/issues?q=repo:" ++ owner
                ++ "/" ++ repoName ++ "+" ++ commitSha
                ++ "+base:master&access_token=" ++ accessToken env in
     items <~ iocall (AxiosGet url None)
                     (fun h => get_issue_search host h url) ;;
     ioret (option_map GithubIssue.number (hd_error items)))
    (fun e => iothrow (getError env e)).

(** The promises of [res.data.map(async commit => ...)]: every lookup is
    requested, in the order of the commits, before any of them is
    awaited. *)
Fixpoint lookups (owner repoName : string) (data : list GithubCommit.t)
  (h : list IoEvent) : list IoEvent * list (Settled Commit) :=
  match data with
  | [] => ([], [])
  | commit :: data' =>
      let sha := GithubCommit.sha commit in
      let (ev, r) := getPullNumberBySha owner repoName sha h in
      let promise :=
        match r with
        | Fulfilled pullNumber =>
            Fulfilled
              (mkCommit sha (getCommitMessage (GithubCommit.message commit))
                        pullNumber)
        | Rejected e => Rejected e
        end in
      let (evs, promises) := lookups owner repoName data' (h ++ ev)%list in
      ((ev ++ evs)%list, promise :: promises)
  end.

(** The catch of [getCommitsByAuthor] covers the awaited listing only:
    [Promise.all] is returned, not awaited, inside the [try]. *)
Definition getCommitsByAuthor (owner repoName : string)
  (author : option string) : IO (list Commit) :=
  let query :=
    if truthy_opt author
    then [("access_token", accessToken env); ("per_page", "5");
          ("author", match author with Some a => a | None => "" end)]
    else [("access_token", accessToken env); ("per_page", "20")] in
  data <~ iotry
            (let url := "https://api.github.com/repos/" ++ owner ++ "/"
                        ++ repoName ++ "/commits?"
                        ++ Querystring.stringify query in
             iocall (AxiosGet url None) (fun h => get_commits host h url))
            (fun e => iothrow (getError env e)) ;;
  fun h =>
    let (evs, promises) := lookups owner repoName data h in
    (evs, promiseAll (settlesFirst host (h ++ evs)%list) promises).

Definition getCommitBySha (owner repoName sha : string) : IO Commit :=
  iotry
    (let url := "https://api.github.com/search/commits?q=hash:" ++ sha
                ++ "%20repo:" ++ owner ++ "/" ++ repoName
                ++ "&per_page=1&access_token=" ++ accessToken env in
     items <~ iocall
                (AxiosGet url (Some "application/vnd.github.cloak-preview"))
                (fun h => get_commit_search host h url) ;;
     match items with
     | [] => iothrow (HandledError ("No commit found for SHA: " ++ sha))
     | commitRes :: _ =>
         let fullSha := GithubCommit.sha commitRes in
         pullNumber <~ getPullNumberBySha owner repoName fullSha ;;
         ioret (mkCommit fullSha
                  (getCommitMessage (GithubCommit.message commitRes))
                  pullNumber)
     end)
    (fun e => iothrow (getError env e)).

Definition getCommitByPullNumber (owner repoName : string)
  (pullNumber : N) : IO Commit :=
  iotry
    (let url := "https://api.github.com/repos/" ++ owner ++ "/" ++ repoName
                ++ "/pulls/" ++ Js.toString pullNumber
                ++ "?access_token=" ++ accessToken env in
     data <~ iocall (AxiosGet url None) (fun h => get_pull host h url) ;;
     if negb (GithubPullRequest.merged data)
     then iothrow (HandledError
                     ("Pull request #" ++ Js.toString pullNumber
                      ++ " has not been merged to master"))
     else ioret (mkCommit (GithubPullRequest.merge_commit_sha data)
                   (GithubPullRequest.title data) (Some pullNumber)))
    (fun e => iothrow (getError env e)).

End WithHost.

End Github.

(** ** [src/cli/cliService.ts]: selecting commits, setting up *)

Module Cli.

Section WithHost.

Variable env : Env.
Variable host : Host.

Definition selected (commit : Commit) : IoEvent :=
  OraStopAndPersist (chalk_green host "?")
    (chalk_bold host "Select commit" ++ " "
     ++ chalk_cyan host (message commit)).

Definition getCommitBySha (owner repoName sha : string) : IO Commit :=
  _ <~ ioemit (Ora None) ;;
  iotry
    (commit <~ Github.getCommitBySha env host owner repoName sha ;;
     _ <~ ioemit (selected commit) ;;
     ioret commit)
    (fun e => _ <~ ioemit OraStop ;; iothrow e).

Definition getCommitByPullNumber (owner repoName : string)
  (pullNumber : N) : IO Commit :=
  _ <~ ioemit (Ora None) ;;
  iotry
    (commit <~ Github.getCommitByPullNumber env host owner repoName
                 pullNumber ;;
     _ <~ ioemit (selected commit) ;;
     ioret commit)
    (fun e => _ <~ ioemit OraStop ;; iothrow e).

(** The prompt is returned, not awaited, inside the [try]: the catch
    covers what comes before it. *)
Definition getCommitsByPrompt (owner repoName : string)
  (author : option string) (multipleCommits : bool) : IO (list Commit) :=
  _ <~ ioemit (Ora (Some "Loading commits...")) ;;
  commits <~ iotry
               (commits <~ Github.getCommitsByAuthor env host owner repoName
                             author ;;
                match commits with
                | [] =>
                    _ <~ ioemit
                           (OraStopAndPersist (chalk_green host "?")
                              (chalk_bold host "Select commit" ++ " ")) ;;
                    iothrow
                      (HandledError
                         (chalk_red host
                            (if truthy_opt author
                             then "There are no commits by you in this repository"
                             else "There are no commits in this repository")))
                | _ => _ <~ ioemit OraStop ;; ioret commits
                end)
               (fun e => _ <~ ioemit OraFail ;; iothrow e) ;;
  iocall (ListCommits commits multipleCommits)
         (fun h => listCommits host h commits multipleCommits).

(** [setupRepo] with its progress callback: each progress report sets the
    text of the spinner. *)
Definition cloning (owner repoName username : string) : IO unit :=
  fun h =>
    let (progress, r) := setupRepo host h owner repoName username in
    (SetupRepo owner repoName username
       :: map (fun p => OraText (p ++ "% "
                                 ++ "Cloning repository (only first time)"))
              progress,
     r).

Definition maybeSetupRepo (owner repoName username : string) : IO unit :=
  _ <~ iocall VerifyGithubSshAuth (verifyGithubSshAuth host) ;;
  existing <~ iocall (RepoExists owner repoName)
                     (fun h => repoExists host h owner repoName) ;;
  if (existing : bool) then ioret tt
  else
    let text := "Cloning repository (only first time)" in
    _ <~ ioemit (Ora (Some ("0% " ++ text))) ;;
    iotry
      (_ <~ cloning owner repoName username ;;
       ioemit OraSucceed)
      (fun e =>
         _ <~ ioemit OraStop ;;
         _ <~ iocall (DeleteRepo owner repoName)
                     (fun h => deleteRepo host h owner repoName) ;;
         iothrow e).

End WithHost.

End Cli.

(** ** Vocabulary of the commit selection *)

(** The requests of [src/lib/github.ts], by their urls. *)
Definition commitsUrl (env : Env) (owner repoName : string)
  (author : option string) : string :=
  "https://api.github.com/repos/" ++ owner ++ "/" ++ repoName
  ++ "/commits?access_token=" ++ Querystring.escape (accessToken env)
  ++ "&per_page="
  ++ (if truthy_opt author
      then "5&author="
           ++ Querystring.escape (match author with Some a => a | None => "" end)
      else "20").

Definition issueSearchUrl (env : Env) (owner repoName commitSha : string)
  : string :=
  "https://api.github.com/search/issues?q=repo:" ++ owner ++ "/" ++ repoName
  ++ "+" ++ commitSha ++ "+base:master&access_token=" ++ accessToken env.

Definition commitSearchUrl (env : Env) (owner repoName sha : string)
  : string :=
  "https://api.github.com/search/commits?q=hash:" ++ sha ++ "%20repo:"
  ++ owner ++ "/" ++ repoName ++ "&per_page=1&access_token="
  ++ accessToken env.

Definition pullUrl (env : Env) (owner repoName : string)
  (pullNumber : N) : string :=
  "https://api.github.com/repos/" ++ owner ++ "/" ++ repoName ++ "/pulls/"
  ++ Js.toString pullNumber ++ "?access_token=" ++ accessToken env.

(** A character that cannot end or start a parameter of a query. *)
Definition querySafe (c : ascii) : bool :=
  Querystring.unreserved c || Ascii.eqb c "%"%char.

(** The commit made of a commit of the hosting API and of the answer to the
    search for its pull request. *)
Definition commitOf (commit : GithubCommit.t) (items : list GithubIssue.t)
  : Commit :=
  mkCommit (GithubCommit.sha commit)
    (Github.getCommitMessage (GithubCommit.message commit))
    (option_map GithubIssue.number (hd_error items)).

Definition isSetup (ev : IoEvent) : bool :=
  match ev with SetupRepo _ _ _ => true | _ => false end.

Definition isDelete (ev : IoEvent) : bool :=
  match ev with DeleteRepo _ _ => true | _ => false end.

(** ** Concrete collaborators of the commit selection *)

Module SampleHost.

(** The pipeline's collaborators with the access token [t0k3n]. *)
Definition testEnv : Env :=
  Sample.collaborators (fun _ _ => Fulfilled tt) (fun _ => Fulfilled true)
    (fun _ => Fulfilled false) Sample.created.

Definition notFound (url : string) : JsError :=
  Error.mk "Error" "Request failed with status code 404" None
    (Some (Some [("message", JStr "Not Found")])) url.

(** Answers by url, as a mock of the HTTP client gives them: [table] holds
    the urls that are answered, any other url is not found. *)
Fixpoint answer {A} (table : list (string * A)) (url : string) : Settled A :=
  match table with
  | [] => Rejected (notFound url)
  | (u, a) :: table' =>
      if String.eqb u url then Fulfilled a else answer table' url
  end.

Definition host (commits search : list (string * list GithubCommit.t))
  (pulls : list (string * GithubPullRequest.t))
  (issues : list (string * list GithubIssue.t))
  (existing : bool) (setup : list string * Settled unit)
  (deleted : Settled unit) (chosen : Settled (list Commit)) : Host :=
  {| chalk_green := fun s => "<green>" ++ s ++ "</green>";
     chalk_bold := fun s => "<bold>" ++ s ++ "</bold>";
     chalk_cyan := fun s => "<cyan>" ++ s ++ "</cyan>";
     chalk_red := fun s => "<red>" ++ s ++ "</red>";
     get_commits := fun _ url => answer commits url;
     get_commit_search := fun _ url => answer search url;
     get_pull := fun _ url => answer pulls url;
     get_issue_search := fun _ url => answer issues url;
     settlesFirst := fun _ => 0;
     verifyGithubSshAuth := fun _ => Fulfilled tt;
     repoExists := fun _ _ _ => Fulfilled existing;
     setupRepo := fun _ _ _ _ => setup;
     deleteRepo := fun _ _ _ => deleted;
     listCommits := fun _ _ _ => chosen |}.

Definition commitsOfSqren : string :=
  "https://api.github.com/repos/elastic/kibana/commits?access_token=t0k3n&per_page=5&author=sqren".

Definition issuesOf (sha : string) : string :=
  "https://api.github.com/search/issues?q=repo:elastic/kibana+" ++ sha
  ++ "+base:master&access_token=t0k3n".

Definition first : GithubCommit.t :=
  GithubCommit.mk "abc1234def5678"
    ("Fix bug (#10)  " ++ Js.LF ++ Js.LF ++ "Details of the fix").

Definition second : GithubCommit.t :=
  GithubCommit.mk "deadbeefcafe0123" "Tidy up".

Definition pull10 : GithubIssue.t :=
  GithubIssue.mk "https://github.com/elastic/kibana/pull/10" 10.

(** Two commits by the author, the first of a pull request. *)
Definition twoCommits : Host :=
  host [(commitsOfSqren, [first; second])] [] []
       [(issuesOf "abc1234def5678", [pull10]);
        (issuesOf "deadbeefcafe0123", [])]
       true ([], Fulfilled tt) (Fulfilled tt)
       (Fulfilled [Sample.commit10]).


(** No commit by the author. *)
Definition noCommits : Host :=
  host [(commitsOfSqren, [])] [] [] []
       true ([], Fulfilled tt) (Fulfilled tt) (Fulfilled []).

Definition searchOf (sha : string) : string :=
  "https://api.github.com/search/commits?q=hash:" ++ sha
  ++ "%20repo:elastic/kibana&per_page=1&access_token=t0k3n".

(** The search by hash finds the first commit, or nothing. *)
Definition found : Host :=
  host [] [(searchOf "abc1234", [first]); (searchOf "0000000", [])] []
       [(issuesOf "abc1234def5678", [pull10])]
       true ([], Fulfilled tt) (Fulfilled tt) (Fulfilled []).

Definition pullOf (n : string) : string :=
  "https://api.github.com/repos/elastic/kibana/pulls/" ++ n
  ++ "?access_token=t0k3n".

(** Pull request 10 is merged, pull request 11 is not. *)
Definition pulls : Host :=
  host [] []
       [(pullOf "10",
         GithubPullRequest.mk true "abc1234def5678" "Fix bug (#10)");
        (pullOf "11", GithubPullRequest.mk false "" "Work in progress")]
       [] true ([], Fulfilled tt) (Fulfilled tt) (Fulfilled []).

Definition diskFull : JsError :=
  Error.mk "Error" "ENOSPC: no space left on device" None None "".

(** There is no local repository yet, and cloning fails half way. *)
Definition cloneFails : Host :=
  host [] [] [] [] false (["10"; "50"], Rejected diskFull) (Fulfilled tt)
       (Fulfilled []).

(** There is no local repository yet, and cloning succeeds. *)
Definition cloneSucceeds : Host :=
  host [] [] [] [] false (["50"; "100"], Fulfilled tt) (Fulfilled tt)
       (Fulfilled []).

End SampleHost.

(** * Properties *)

(** ** Strings *)

Section StringFacts.

Lemma length_app (a b : string) :
  String.length (a ++ b) = String.length a + String.length b.
Proof. induction a as [|c a IH]; simpl; [reflexivity | now rewrite IH]. Qed.

Lemma app_assoc_s (a b c : string) : (a ++ b) ++ c = a ++ (b ++ c).
Proof. induction a as [|x a IH]; simpl; [reflexivity | now rewrite IH]. Qed.

Lemma substring_0_length (n : nat) (s : string) :
  String.length (substring 0 n s) = Nat.min n (String.length s).
Proof.
  revert n; induction s as [|c s IH]; intros [|n]; simpl; try reflexivity.
  now rewrite IH.
Qed.

Lemma substring_0_prefix (n : nat) (s : string) :
  prefix (substring 0 n s) s = true.
Proof.
  revert n; induction s as [|c s IH]; intros [|n]; simpl; try reflexivity.
  destruct (ascii_dec c c) as [_|Hc]; [apply IH | now elim Hc].
Qed.

Lemma substring_0_chars (n : nat) (s : string) :
  list_ascii_of_string (substring 0 n s)
  = firstn n (list_ascii_of_string s).
Proof.
  revert n; induction s as [|c s IH]; intros [|n]; simpl; try reflexivity.
  now rewrite IH.
Qed.

Lemma substring_0_all (n : nat) (s : string) :
  String.length s <= n -> substring 0 n s = s.
Proof.
  revert n; induction s as [|c s IH]; intros [|n] H; simpl in *;
    try reflexivity; try lia.
  rewrite IH by lia; reflexivity.
Qed.

Lemma substring_skip (a b : string) (m : nat) :
  substring (String.length a) m (a ++ b) = substring 0 m b.
Proof. induction a as [|c a IH]; simpl; [reflexivity | exact IH]. Qed.

Lemma allChars_substring (p : ascii -> bool) (n : nat) (s : string) :
  allChars p s = true -> allChars p (substring 0 n s) = true.
Proof.
  revert n; induction s as [|c s IH]; intros [|n] H; simpl in *;
    try reflexivity.
  apply andb_true_iff in H as [Hc Hs].
  rewrite Hc; simpl; now apply IH.
Qed.

Lemma allChars_app (p : ascii -> bool) (a b : string) :
  allChars p (a ++ b) = allChars p a && allChars p b.
Proof.
  induction a as [|c a IH]; simpl; [reflexivity|].
  now rewrite IH, andb_assoc.
Qed.

Lemma prefix_app (pat b : string) : prefix pat (pat ++ b) = true.
Proof.
  induction pat as [|c pat IH]; simpl; [now destruct b|].
  destruct (ascii_dec c c) as [_|Hc]; [exact IH | now elim Hc].
Qed.

Lemma prefix_nil (s : string) : prefix "" s = true.
Proof. now destruct s. Qed.

(** A match that fits in [x] does not depend on what follows [x]. *)
Lemma prefix_app_long (pat x b : string) :
  String.length pat <= String.length x ->
  prefix pat (x ++ b) = prefix pat x.
Proof.
  revert x; induction pat as [|c pat IH]; intros x H.
  - now rewrite !prefix_nil.
  - destruct x as [|d x]; simpl in *; [lia|].
    destruct (ascii_dec c d); [apply IH; lia | reflexivity].
Qed.

Lemma slice_after (pat b : string) :
  Js.slice (String.length pat) (String.length (pat ++ b)) (pat ++ b) = b.
Proof.
  unfold Js.slice. rewrite substring_skip, length_app.
  apply substring_0_all. lia.
Qed.

Lemma replace_absent (pat s : string) :
  Js.includes pat s = false -> Js.replace pat "" s = s.
Proof.
  induction s as [|c s IH]; simpl; intros H;
    apply orb_false_iff in H as [Hp Hr]; rewrite Hp; [reflexivity|].
  now rewrite IH.
Qed.

Lemma occurrences_last (pat a : string) :
  1 <= Js.occurrences pat (a ++ pat).
Proof.
  induction a as [|c a IH]; simpl.
  - destruct pat as [|d pat]; simpl; [lia|].
    destruct (ascii_dec d d) as [_|Hd]; [|now elim Hd].
    assert (H : prefix pat pat = true).
    { clear. induction pat as [|c pat IH]; simpl; [reflexivity|].
      destruct (ascii_dec c c) as [_|Hc]; [exact IH | now elim Hc]. }
    rewrite H; lia.
  - lia.
Qed.

(** [replace] removes the leftmost occurrence. *)
Lemma replace_first (pat a b : string) :
  Js.occurrences pat (a ++ pat) = 1 ->
  Js.replace pat "" (a ++ pat ++ b) = a ++ b.
Proof.
  induction a as [|c a IH]; intros H.
  - cbn [append]. destruct (pat ++ b) as [|d s] eqn:E.
    + destruct pat; [|discriminate]. simpl in E; subst; reflexivity.
    + cbn [Js.replace]. rewrite <- E, prefix_app, slice_after. reflexivity.
  - cbn [append Js.replace Js.occurrences] in *.
    pose proof (occurrences_last pat a) as Hl.
    destruct (prefix pat (String c (a ++ pat))) eqn:Hp; [lia|].
    assert (Hq : prefix pat (String c (a ++ pat ++ b)) = false).
    { rewrite <- Hp, <- app_assoc_s.
      apply (prefix_app_long pat (String c (a ++ pat)) b).
      simpl; rewrite length_app; lia. }
    rewrite Hq, IH by lia. reflexivity.
Qed.

Lemma prefix_refl (pat : string) : prefix pat pat = true.
Proof.
  induction pat as [|c pat IH]; simpl; [reflexivity|].
  destruct (ascii_dec c c) as [_|Hc]; [exact IH | now elim Hc].
Qed.

Lemma prefix_length (pat s : string) :
  prefix pat s = true -> String.length pat <= String.length s.
Proof.
  revert s; induction pat as [|c pat IH]; intros [|d s] H; simpl in *;
    try lia; try discriminate.
  destruct (ascii_dec c d); [|discriminate].
  apply IH in H; lia.
Qed.

Lemma occurrences_short (pat s : string) :
  String.length s < String.length pat -> Js.occurrences pat s = 0.
Proof.
  induction s as [|c s IH]; intros H.
  - destruct pat; simpl in *; [lia | reflexivity].
  - cbn [Js.occurrences].
    destruct (prefix pat (String c s)) eqn:Hp.
    + apply prefix_length in Hp; lia.
    + simpl in H. rewrite IH by lia. reflexivity.
Qed.

(** A pattern without a space never matches across a space. *)
Lemma prefix_no_space (pat y z : string) :
  allChars notSpace pat = true ->
  prefix pat (y ++ String " " z) = prefix pat y.
Proof.
  revert y; induction pat as [|d pat IH]; intros y H.
  - now rewrite !prefix_nil.
  - simpl in H. apply andb_true_iff in H as [Hd Hp].
    destruct y as [|e y]; simpl.
    + destruct (ascii_dec d " ") as [->|_]; [discriminate | reflexivity].
    + destruct (ascii_dec d e); [now apply IH | reflexivity].
Qed.

Lemma occurrences_after_space (c : ascii) (pat x : string) :
  allChars notSpace (String c pat) = true ->
  Js.occurrences (String c pat) (x ++ String " " (String c pat))
  = Js.occurrences (String c pat) x + 1.
Proof.
  intros H. induction x as [|e x IH].
  - change ("" ++ String " " (String c pat))
      with (String " " (String c pat)).
    cbn [Js.occurrences]. rewrite prefix_refl.
    rewrite (occurrences_short (String c pat) pat) by (simpl; lia).
    simpl in H. apply andb_true_iff in H as [Hc _].
    simpl. destruct (ascii_dec c " ") as [->|_]; [discriminate|reflexivity].
  - change (String e x ++ String " " (String c pat))
      with (String e (x ++ String " " (String c pat))).
    cbn [Js.occurrences]. rewrite IH.
    change (String e (x ++ String " " (String c pat)))
      with (String e x ++ String " " (String c pat)).
    rewrite prefix_no_space by exact H. lia.
Qed.

Lemma digits_no_space (d : Decimal.uint) :
  allChars notSpace (NilZero.string_of_uint d) = true.
Proof.
  assert (H : forall u, allChars notSpace (NilEmpty.string_of_uint u) = true)
    by (induction u; [reflexivity | assumption ..]).
  destruct d; [reflexivity | apply H ..].
Qed.

(** The bullet of a commit holds the parenthesized reference once more
    than the text it is appended to. *)
Lemma bullet_occurrences (ref m : string) :
  allChars notSpace ref = true ->
  Js.occurrences ("(" ++ ref ++ ")") (" - " ++ m ++ " (" ++ ref ++ ")")
  = Js.occurrences ("(" ++ ref ++ ")") m + 1.
Proof.
  intros H.
  change (" - " ++ m ++ " (" ++ ref ++ ")")
    with (String " " (String "-" (String " "
            (m ++ String " " ("(" ++ ref ++ ")"))))).
  change ("(" ++ ref ++ ")") with (String "(" (ref ++ ")")).
  cbn [Js.occurrences prefix].
  destruct (ascii_dec "(" " ") as [E|_]; [discriminate|].
  destruct (ascii_dec "(" "-") as [E|_]; [discriminate|].
  rewrite occurrences_after_space; [reflexivity|].
  simpl. rewrite allChars_app, H. reflexivity.
Qed.

End StringFacts.

(** ** Reference naming *)

Example toString_42 : Js.toString 42 = "42".
Proof. reflexivity. Qed.

Example featureBranchName_7x :
  getFeatureBranchName "7.x" [Sample.commit10] = "backport/7.x/pr-10".
Proof. reflexivity. Qed.

Example pullRequestTitle_7x :
  getPullRequestTitle "7.x" [Sample.commit10] = "[7.x] Fix bug (#10)".
Proof. reflexivity. Qed.

Lemma pull_reference_no_space (n : N) :
  allChars notSpace ("#" ++ Js.toString n) = true.
Proof. simpl. apply digits_no_space. Qed.

Lemma lowerHex_no_space (s : string) :
  allChars isLowerHex s = true -> allChars notSpace s = true.
Proof.
  induction s as [|c s IH]; [reflexivity|]. simpl. intros H.
  apply andb_true_iff in H as [Hc Hs]. rewrite (IH Hs), andb_true_r.
  unfold notSpace. destruct (Ascii.eqb_spec c " ") as [->|_];
    [discriminate | reflexivity].
Qed.

(** The two ways of the test [commit.pullNumber ? _ : _]. *)
Lemma pullNumber_truthy (commit : Commit) (n : N) :
  pullNumber commit = Some n -> n <> 0%N ->
  truthyNumber (pullNumber commit) = true /\
  pullNumberText commit = Js.toString n.
Proof.
  intros H Hn. unfold pullNumberText. rewrite H. split; [|reflexivity].
  simpl. now apply negb_true_iff, N.eqb_neq.
Qed.

Lemma pullNumber_falsy (commit : Commit) :
  pullNumber commit = None \/ pullNumber commit = Some 0%N ->
  truthyNumber (pullNumber commit) = false.
Proof. intros [-> | ->]; reflexivity. Qed.

Lemma reference_no_space (commit : Commit) :
  truthyNumber (pullNumber commit) = true \/
  allChars isLowerHex (sha commit) = true ->
  allChars notSpace (getReferenceLong commit) = true.
Proof.
  unfold getReferenceLong, pullNumberText, getShortSha, Js.slice.
  destruct (pullNumber commit) as [n|]; cbn [truthyNumber].
  - destruct (negb (N.eqb n 0)).
    + intros _. apply pull_reference_no_space.
    + intros [H|H]; [discriminate|].
      now apply lowerHex_no_space, allChars_substring.
  - intros [H|H]; [discriminate|].
    now apply lowerHex_no_space, allChars_substring.
Qed.

(** C7, as the source has it.  For a commit whose pull number is present
    and not 0 the short reference is [#] followed by the number in decimal.
    For a commit without a pull number, and for one whose pull number is 0,
    it is the first seven code units of the sha: a prefix of the sha, seven
    long when the sha has at least seven, and in lowercase hexadecimal when
    the sha is. *)
Theorem getReferenceLong_spec (commit : Commit) :
  (forall n, pullNumber commit = Some n -> n <> 0%N ->
             getReferenceLong commit = "#" ++ Js.toString n) /\
  (pullNumber commit = None \/ pullNumber commit = Some 0%N ->
   getReferenceLong commit = Js.slice 0 7 (sha commit) /\
   prefix (getReferenceLong commit) (sha commit) = true /\
   (7 <= String.length (sha commit) ->
    String.length (getReferenceLong commit) = 7) /\
   (allChars isLowerHex (sha commit) = true ->
    allChars isLowerHex (getReferenceLong commit) = true)).
Proof.
  unfold getReferenceLong. split.
  - intros n H Hn. destruct (pullNumber_truthy commit n H Hn) as [-> ->].
    reflexivity.
  - intros H. rewrite (pullNumber_falsy commit H).
    unfold getShortSha, Js.slice. change (7 - 0) with 7.
    split; [reflexivity|]. split; [apply substring_0_prefix|]. split.
    + intros Hlen. rewrite substring_0_length. lia.
    + apply allChars_substring.
Qed.

Lemma getReferenceLong_spec_witness :
  getReferenceLong Sample.commit10 = "#10" /\
  getReferenceLong Sample.commitNoPull = "deadbee" /\
  String.length (getReferenceLong Sample.commitNoPull) = 7 /\
  allChars isLowerHex (getReferenceLong Sample.commitNoPull) = true.
Proof.
  destruct (getReferenceLong_spec Sample.commit10) as [Hpull _].
  destruct (getReferenceLong_spec Sample.commitNoPull) as [_ Hsha].
  destruct (Hsha (or_introl eq_refl)) as (Href & _ & Hlen & Hhex).
  split; [|split; [|split]].
  - apply (Hpull 10%N eq_refl). discriminate.
  - exact Href.
  - apply Hlen. simpl. lia.
  - apply Hhex. reflexivity.
Defined.

(** C7, as claimed, fails: a pull number that is present but 0 is falsy,
    and the reference is the prefix of the sha, not [#0]. *)
Lemma getReferenceLong_pull_number_zero :
  pullNumber (mkCommit "deadbeefcafe0123" "Tidy up" (Some 0%N)) = Some 0%N /\
  getReferenceLong (mkCommit "deadbeefcafe0123" "Tidy up" (Some 0%N))
  = "deadbee" /\
  "#" ++ Js.toString 0 = "#0" /\
  getReferenceLong (mkCommit "deadbeefcafe0123" "Tidy up" (Some 0%N))
  <> "#" ++ Js.toString 0.
Proof.
  split; [reflexivity|]. split; [reflexivity|]. split; [reflexivity|].
  discriminate.
Qed.

(** C6, as the source has it.  The feature branch name is
    [backport/<baseBranch>/<refs>], where [refs] is the first 200 code
    units of the short slugs joined with [_]; a slug is [pr-<pullNumber>]
    when the commit has a pull number that is not 0, and
    [commit-<first seven of the sha>] when it has none or has 0.  The name
    is a function of the base branch and the commits alone. *)
Theorem getFeatureBranchName_spec (baseBranch : string)
  (commits : list Commit) :
  exists refs,
    getFeatureBranchName baseBranch commits
    = "backport/" ++ baseBranch ++ "/" ++ refs /\
    list_ascii_of_string refs
    = firstn 200
        (list_ascii_of_string (Js.join "_" (map getReferenceShort commits))) /\
    String.length refs <= 200 /\
    (forall commit n,
       In commit commits -> pullNumber commit = Some n -> n <> 0%N ->
       getReferenceShort commit = "pr-" ++ Js.toString n) /\
    (forall commit,
       In commit commits ->
       pullNumber commit = None \/ pullNumber commit = Some 0%N ->
       getReferenceShort commit = "commit-" ++ Js.slice 0 7 (sha commit)).
Proof.
  exists (Js.slice 0 200 (Js.join "_" (map getReferenceShort commits))).
  unfold Js.slice. change (200 - 0) with 200.
  split; [reflexivity|]. split; [apply substring_0_chars|].
  split; [rewrite substring_0_length; lia|]. split.
  - intros commit n _ H Hn. unfold getReferenceShort.
    destruct (pullNumber_truthy commit n H Hn) as [-> ->]. reflexivity.
  - intros commit _ H. unfold getReferenceShort, getShortSha.
    now rewrite (pullNumber_falsy commit H).
Qed.

Lemma getFeatureBranchName_spec_witness :
  getReferenceShort Sample.commit10 = "pr-10" /\
  getReferenceShort Sample.commitNoPull = "commit-deadbee" /\
  exists refs,
    getFeatureBranchName "7.x" [Sample.commit10; Sample.commitNoPull]
    = "backport/7.x/" ++ refs /\ String.length refs <= 200.
Proof.
  destruct (getFeatureBranchName_spec "7.x"
              [Sample.commit10; Sample.commitNoPull])
    as (refs & Hname & _ & Hlen & Hpull & Hsha).
  split; [|split].
  - apply (Hpull Sample.commit10 10%N); [left; reflexivity | reflexivity|].
    discriminate.
  - apply (Hsha Sample.commitNoPull); [right; left|left]; reflexivity.
  - exists refs. split; [exact Hname | exact Hlen].
Defined.

(** C6, as claimed, fails: the slug of a commit whose pull number is present
    but 0 is made of its sha, and so is the branch name. *)
Lemma getFeatureBranchName_pull_number_zero :
  getReferenceShort (mkCommit "deadbeefcafe0123" "Tidy up" (Some 0%N))
  = "commit-deadbee" /\
  getFeatureBranchName "7.x"
    [mkCommit "deadbeefcafe0123" "Tidy up" (Some 0%N)]
  = "backport/7.x/commit-deadbee" /\
  getFeatureBranchName "7.x"
    [mkCommit "deadbeefcafe0123" "Tidy up" (Some 0%N)]
  <> "backport/7.x/" ++ "pr-" ++ Js.toString 0.
Proof. split; [reflexivity|]. split; [reflexivity | discriminate]. Qed.

(** The slugs of seventy commits are cut at 200 code units. *)
Example featureBranchName_truncated :
  String.length
    (getFeatureBranchName "7.x" (repeat Sample.commitNoPull 70))
  = String.length "backport/7.x/" + 200.
Proof. vm_compute. reflexivity. Qed.

Lemma occurrences_whole (pat : string) : Js.occurrences pat pat = 1.
Proof.
  destruct pat as [|c pat]; [reflexivity|].
  cbn [Js.occurrences]. rewrite prefix_refl.
  rewrite occurrences_short by (simpl; lia). reflexivity.
Qed.

Lemma prefix_split (pat s : string) :
  prefix pat s = true -> exists b, s = pat ++ b.
Proof.
  revert s; induction pat as [|c pat IH]; intros s H.
  - now exists s.
  - destruct s as [|d s]; simpl in H; [discriminate|].
    destruct (ascii_dec c d) as [->|]; [|discriminate].
    destruct (IH s H) as [b ->]. now exists b.
Qed.

(** What [replace] removes from a string that includes the pattern: its
    leftmost occurrence. *)
Lemma replace_included (pat s : string) :
  Js.includes pat s = true ->
  exists a b,
    s = a ++ pat ++ b /\ Js.occurrences pat (a ++ pat) = 1 /\
    Js.replace pat "" s = a ++ b.
Proof.
  induction s as [|c s IH]; intros H.
  - cbn in H. rewrite orb_false_r in H.
    destruct pat; [|discriminate]. now exists "", "".
  - cbn [Js.includes] in H.
    destruct (prefix pat (String c s)) eqn:Hp.
    + destruct (prefix_split _ _ Hp) as [b Hb].
      exists "", b. cbn [append]. split; [exact Hb|].
      split; [apply occurrences_whole|].
      rewrite Hb. apply (replace_first pat "" b). apply occurrences_whole.
    + cbn [orb] in H. destruct (IH H) as (a & b & Hs & Hocc & Hrep).
      exists (String c a), b. cbn [append]. split; [now rewrite <- Hs|].
      assert (Hfirst : Js.occurrences pat (String c (a ++ pat)) = 1).
      { cbn [Js.occurrences].
        assert (Hq : prefix pat (String c (a ++ pat)) = false).
        { rewrite <- Hp, Hs, <- app_assoc_s. symmetry.
          apply (prefix_app_long pat (String c (a ++ pat)) b).
          pose proof (occurrences_last pat a).
          simpl. rewrite length_app. lia. }
        rewrite Hq, Hocc. reflexivity. }
      split; [exact Hfirst|].
      rewrite Hs. apply (replace_first pat (String c a) b). exact Hfirst.
Qed.

(** C5, as the source has it.  The body is the header line followed by one
    bullet per commit, in the order of the commits.  A bullet is [" - "],
    the stripped message, a space and [(<reference>)], where the stripped
    message is the message itself when it does not hold [(<reference>)]
    and otherwise the message without the leftmost occurrence of it.  When
    the reference has no space, as every [#<number>] reference and every
    prefix of a sha in lowercase hexadecimal, the bullet holds
    [(<reference>)] once more than the stripped message does: exactly once
    if and only if the stripped message holds none. *)
Theorem pullRequestBody_bullets (baseBranch : string)
  (commits : list Commit) (username : string) :
  exists bullets,
    body (getPullRequestPayload baseBranch commits username)
    = "Backports the following commits to " ++ baseBranch ++ ":" ++ Js.LF
      ++ Js.join Js.LF bullets /\
    Forall2
      (fun commit bullet =>
         let pat := "(" ++ getReferenceLong commit ++ ")" in
         exists stripped,
           bullet = " - " ++ stripped ++ " " ++ pat /\
           (Js.includes pat (message commit) = false ->
            stripped = message commit) /\
           (Js.includes pat (message commit) = true ->
            exists a b,
              message commit = a ++ pat ++ b /\
              Js.occurrences pat (a ++ pat) = 1 /\
              stripped = a ++ b) /\
           (forall a b, message commit = a ++ pat ++ b ->
                        Js.occurrences pat (a ++ pat) = 1 ->
                        stripped = a ++ b) /\
           (allChars notSpace (getReferenceLong commit) = true \/
            truthyNumber (pullNumber commit) = true \/
            allChars isLowerHex (sha commit) = true ->
            Js.occurrences pat bullet = Js.occurrences pat stripped + 1 /\
            (Js.occurrences pat bullet = 1 <->
             Js.occurrences pat stripped = 0)))
      commits bullets.
Proof.
  eexists. split; [reflexivity|].
  induction commits as [|commit commits IH]; constructor; [|exact IH].
  cbv zeta.
  exists (Js.replace ("(" ++ getReferenceLong commit ++ ")") ""
                     (message commit)).
  split; [reflexivity|]. split; [apply replace_absent|].
  split; [apply replace_included|].
  split; [intros a b -> H; now apply replace_first|].
  intros H.
  assert (Hs : allChars notSpace (getReferenceLong commit) = true).
  { destruct H as [H|H]; [exact H|]. now apply reference_no_space. }
  rewrite (bullet_occurrences _ _ Hs). split; [reflexivity | lia].
Qed.

Lemma pullRequestBody_bullets_witness :
  exists bullet,
    body (getPullRequestPayload "7.x"
            [mkCommit "abc1234def5678" "Fix bug (#42)" (Some 42%N)]
            "me")
    = "Backports the following commits to 7.x:" ++ Js.LF ++ bullet /\
    bullet = " - Fix bug  (#42)" /\
    Js.occurrences "(#42)" bullet = 1.
Proof.
  destruct (pullRequestBody_bullets "7.x"
              [mkCommit "abc1234def5678" "Fix bug (#42)" (Some 42%N)]
              "me") as (bullets & Hbody & Hall).
  inversion Hall as [|c bullet cs bs Hc Hrest]; subst.
  inversion Hrest; subst.
  destruct Hc as (stripped & Hb & _ & _ & Hfirst & Hcount).
  exists bullet. split; [exact Hbody|].
  assert (Hs : stripped = "Fix bug ")
    by (apply (Hfirst "Fix bug " ""); reflexivity).
  split.
  - rewrite Hb, Hs. reflexivity.
  - destruct (Hcount (or_intror (or_introl eq_refl))) as [_ Honce].
    apply Honce. rewrite Hs. reflexivity.
Defined.

(** C5, as claimed, fails: a message that holds the reference twice keeps
    one of them, and the bullet holds the reference twice; so does the
    bullet of a message that holds it once when removing it joins another
    one. *)
Lemma pullRequestBody_duplicate_reference :
  body (getPullRequestPayload "7.x"
          [mkCommit "abc1234def5678" "Fix (#42) (#42)" (Some 42%N)]
          "me")
  = "Backports the following commits to 7.x:" ++ Js.LF
    ++ " - Fix  (#42) (#42)" /\
  Js.occurrences "(#42)" " - Fix  (#42) (#42)" = 2 /\
  Js.includes "(#42)" (Js.replace "(#42)" "" "Fix (#42) (#42)") = true /\
  Js.occurrences "(#42)" "((#42)#42)" = 1 /\
  body (getPullRequestPayload "7.x"
          [mkCommit "abc1234def5678" "((#42)#42)" (Some 42%N)] "me")
  = "Backports the following commits to 7.x:" ++ Js.LF
    ++ " - (#42) (#42)" /\
  Js.occurrences "(#42)" " - (#42) (#42)" = 2.
Proof. repeat split. Qed.

(** The count of C5 needs a reference without a space: with one, the
    appended reference can overlap the message. *)
Example bullet_count_with_space :
  let commit := mkCommit "a) (a" "(a)" None in
  let pat := "(" ++ getReferenceLong commit ++ ")" in
  pat = "(a) (a)" /\
  Js.includes pat (message commit) = false /\
  body (getPullRequestPayload "7.x" [commit] "me")
  = "Backports the following commits to 7.x:" ++ Js.LF
    ++ " - (a) (a) (a)" /\
  Js.occurrences pat " - (a) (a) (a)" = 2.
Proof. repeat split. Qed.

(** ** Computations *)

Section MonadFacts.

Context {A B : Type}.

Lemma bind_Ret (m : M A) (k : A -> M B) h ev a :
  m h = (ev, Ret a) ->
  bind m k h
  = ((ev ++ fst (k a (h ++ ev)%list))%list, snd (k a (h ++ ev)%list)).
Proof. unfold bind. intros ->. now destruct (k a (h ++ ev)%list). Qed.

Lemma bind_Throw (m : M A) (k : A -> M B) h ev e :
  m h = (ev, Throw e) -> bind m k h = (ev, Throw e).
Proof. unfold bind. now intros ->. Qed.

Lemma bind_OutOfFuel (m : M A) (k : A -> M B) h ev :
  m h = (ev, OutOfFuel) -> bind m k h = (ev, OutOfFuel).
Proof. unfold bind. now intros ->. Qed.

Lemma try_catch_Ret (m : M A) (handler : JsError -> M A) h ev a :
  m h = (ev, Ret a) -> try_catch m handler h = (ev, Ret a).
Proof. unfold try_catch. now intros ->. Qed.

Lemma try_catch_Throw (m : M A) (handler : JsError -> M A) h ev e :
  m h = (ev, Throw e) ->
  try_catch m handler h
  = ((ev ++ fst (handler e (h ++ ev)%list))%list,
     snd (handler e (h ++ ev)%list)).
Proof.
  unfold try_catch. intros ->. now destruct (handler e (h ++ ev)%list).
Qed.

Lemma try_catch_OutOfFuel (m : M A) (handler : JsError -> M A) h ev :
  m h = (ev, OutOfFuel) -> try_catch m handler h = (ev, OutOfFuel).
Proof. unfold try_catch. now intros ->. Qed.

Lemma bind_ext (m m' : M A) (k k' : A -> M B) h :
  m h = m' h -> (forall a h', k a h' = k' a h') ->
  bind m k h = bind m' k' h.
Proof.
  unfold bind. intros <- Hk. destruct (m h) as [ev [a|e|]]; try reflexivity.
  now rewrite Hk.
Qed.

End MonadFacts.

Lemma bind_assoc {A B C} (m : M A) (k : A -> M B) (k' : B -> M C) h :
  bind (bind m k) k' h = bind m (fun a => bind (k a) k') h.
Proof.
  unfold bind. destruct (m h) as [ev [a|e|]]; try reflexivity.
  destruct (k a (h ++ ev)%list) as [ev1 [b|e|]]; try reflexivity.
  rewrite <- app_assoc.
  destruct (k' b (h ++ ev ++ ev1)%list) as [ev2 r].
  now rewrite app_assoc.
Qed.

Lemma bind_ret_r {A} (m : M A) h : bind m ret h = m h.
Proof.
  unfold bind, ret. destruct (m h) as [ev [a|e|]]; try reflexivity.
  now rewrite app_nil_r.
Qed.

Lemma bind_ret_l {A B} (a : A) (k : A -> M B) h : bind (ret a) k h = k a h.
Proof.
  unfold bind, ret. rewrite app_nil_r. now destruct (k a h).
Qed.

(** ** [sequentially] *)

Section Sequentially.

Context {T A : Type} (handler : T -> M A).

Lemma fold_awaits (items : list T) (p : M A) h :
  fold_left (fun p item => _ <- p ;; handler item) items p h
  = bind p (fun a => forEach a items handler) h.
Proof.
  revert p h; induction items as [|item items IH]; intros p h; simpl.
  - symmetry. apply (bind_ret_r p h).
  - rewrite IH, bind_assoc. reflexivity.
Qed.

(** [sequentially] runs the handlers in the order of the items, each after
    the one before has returned, and stops at the first that does not. *)
Lemma sequentially_forEach (undefined : A) (items : list T) h :
  sequentially undefined items handler h
  = forEach undefined items handler h.
Proof.
  unfold sequentially. rewrite fold_awaits.
  exact (bind_ret_l undefined (fun a => forEach a items handler) h).
Qed.

Lemma forEach_app (undefined : A) (xs ys : list T) h :
  forEach undefined (xs ++ ys) handler h
  = bind (forEach undefined xs handler)
         (fun a => forEach a ys handler) h.
Proof.
  revert undefined h; induction xs as [|x xs IH]; intros u h; simpl.
  - symmetry. exact (bind_ret_l u (fun a => forEach a ys handler) h).
  - rewrite bind_assoc. apply bind_ext; [reflexivity|].
    intros a h'. apply IH.
Qed.

End Sequentially.

(** ** The spinner *)

Section Spinner.

Context {T : Type} (text errorText : option string) (fn : M T).

Lemma withSpinner_Ret h ev a :
  fn (h ++ [SpinnerStart text])%list = (ev, Ret a) ->
  withSpinner text errorText fn h
  = (SpinnerStart text
       :: (ev ++ [if truthy_opt text then SpinnerSucceed else SpinnerStop])%list,
     Ret a).
Proof.
  intros H. unfold withSpinner, bind, try_catch, emit, ret. rewrite H.
  destruct (truthy_opt text); reflexivity.
Qed.

Lemma withSpinner_Throw h ev e :
  fn (h ++ [SpinnerStart text])%list = (ev, Throw e) ->
  withSpinner text errorText fn h
  = (SpinnerStart text :: (ev ++ failureText errorText ++ [SpinnerFail])%list,
     Throw e).
Proof.
  intros H. unfold withSpinner, bind, try_catch, emit, ret, throw.
  rewrite H. unfold failureText.
  destruct errorText as [t|]; [destruct (truthy t)|]; reflexivity.
Qed.

Lemma withSpinner_OutOfFuel h ev :
  fn (h ++ [SpinnerStart text])%list = (ev, OutOfFuel) ->
  withSpinner text errorText fn h = (SpinnerStart text :: ev, OutOfFuel).
Proof.
  intros H. unfold withSpinner, bind, try_catch, emit, ret. rewrite H.
  reflexivity.
Qed.

End Spinner.

(** ** The conflict-resolution loop *)

Section ConflictLoop.

Variable env : Env.
Variables owner repoName : string.

Lemma confirm_denied fuel h :
  confirmConflictResolved env h = Fulfilled false ->
  confirmResolvedRecursive env (S fuel) owner repoName h
  = ([ConfirmConflictResolved],
     Throw (HandledError "Application was aborted.")).
Proof.
  intros H. cbn [confirmResolvedRecursive]. unfold bind, call. rewrite H.
  reflexivity.
Qed.

Lemma confirm_clean fuel h :
  confirmConflictResolved env h = Fulfilled true ->
  isIndexDirty env (h ++ [ConfirmConflictResolved])%list owner repoName
  = Fulfilled false ->
  confirmResolvedRecursive env (S fuel) owner repoName h
  = ([ConfirmConflictResolved; IsIndexDirty owner repoName], Ret tt).
Proof.
  intros Hc Hd. cbn [confirmResolvedRecursive]. unfold bind, call.
  rewrite Hc. cbn. rewrite Hd. reflexivity.
Qed.

Lemma confirm_dirty fuel h :
  confirmConflictResolved env h = Fulfilled true ->
  isIndexDirty env (h ++ [ConfirmConflictResolved])%list owner repoName
  = Fulfilled true ->
  confirmResolvedRecursive env (S fuel) owner repoName h
  = let again :=
      confirmResolvedRecursive env fuel owner repoName
        (h ++ [ConfirmConflictResolved; IsIndexDirty owner repoName])%list in
    (ConfirmConflictResolved :: IsIndexDirty owner repoName :: fst again,
     snd again).
Proof.
  intros Hc Hd. cbn [confirmResolvedRecursive]. unfold bind at 1, call at 1.
  rewrite Hc. cbn [negb]. unfold bind at 1, call at 1. rewrite Hd.
  rewrite <- app_assoc. cbn [app].
  destruct (confirmResolvedRecursive env fuel owner repoName _) as [ev r].
  reflexivity.
Qed.

(** The loop only prompts and checks the index. *)
Lemma loop_events fuel h :
  Forall (fun ev => ev = ConfirmConflictResolved
                    \/ ev = IsIndexDirty owner repoName)
         (fst (confirmResolvedRecursive env fuel owner repoName h)).
Proof.
  revert h; induction fuel as [|fuel IH]; intros h; [constructor|].
  cbn [confirmResolvedRecursive]. unfold bind at 1, call at 1.
  destruct (confirmConflictResolved env h) as [[|]|e]; cbn;
    [| repeat (constructor; [now left|]); constructor ..].
  unfold bind, call.
  destruct (isIndexDirty env _ owner repoName) as [[|]|e]; cbn;
    [| constructor; [now left|]; constructor; [now right|]; constructor ..].
  specialize (IH ((h ++ [ConfirmConflictResolved])
                    ++ [IsIndexDirty owner repoName])%list).
  destruct (confirmResolvedRecursive env fuel owner repoName _) as [ev r].
  cbn in *. constructor; [now left|]; constructor; [now right|]. exact IH.
Qed.

Lemma dirtyRounds_snoc n :
  dirtyRounds owner repoName (S n)
  = ([ConfirmConflictResolved; IsIndexDirty owner repoName]
       ++ dirtyRounds owner repoName n)%list.
Proof. reflexivity. Qed.

(** After [n] rounds of "confirmed, but still dirty" the loop is where it
    would be had it started there. *)
Lemma loop_after_dirty_rounds n : forall fuel h,
  (forall k, k < n ->
     confirmConflictResolved env (h ++ dirtyRounds owner repoName k)%list
     = Fulfilled true /\
     isIndexDirty env
       (h ++ dirtyRounds owner repoName k ++ [ConfirmConflictResolved])%list
       owner repoName
     = Fulfilled true) ->
  confirmResolvedRecursive env (n + fuel) owner repoName h
  = let rest :=
      confirmResolvedRecursive env fuel owner repoName
        (h ++ dirtyRounds owner repoName n)%list in
    ((dirtyRounds owner repoName n ++ fst rest)%list, snd rest).
Proof.
  induction n as [|n IH]; intros fuel h H.
  - cbn. rewrite app_nil_r.
    now destruct (confirmResolvedRecursive env fuel owner repoName h).
  - destruct (H 0 ltac:(lia)) as [Hc Hd]. cbn in Hc, Hd.
    rewrite app_nil_r in Hc.
    change (S n + fuel) with (S (n + fuel)).
    rewrite (confirm_dirty _ _ Hc Hd). cbv zeta.
    rewrite IH.
    + cbv zeta. rewrite <- app_assoc. reflexivity.
    + intros k Hk. specialize (H (S k) ltac:(lia)).
      rewrite dirtyRounds_snoc in H. rewrite <- !app_assoc. exact H.
Qed.

End ConflictLoop.

Lemma cherrypicks_app (a b : list Event) :
  cherrypicks (a ++ b) = (cherrypicks a ++ cherrypicks b)%list.
Proof.
  induction a as [|ev a IH]; [reflexivity|].
  destruct ev; simpl; now rewrite ?IH.
Qed.

Lemma loop_no_cherrypick env fuel owner repoName h :
  cherrypicks (fst (confirmResolvedRecursive env fuel owner repoName h)) = [].
Proof.
  pose proof (loop_events env owner repoName fuel h) as H.
  induction H as [|ev evs [-> | ->] _ IH]; simpl; auto.
Qed.

Lemma loop_not_remote env fuel owner repoName h :
  filter isRemote (fst (confirmResolvedRecursive env fuel owner repoName h))
  = [].
Proof.
  pose proof (loop_events env owner repoName fuel h) as H.
  induction H as [|ev evs [-> | ->] _ IH]; simpl; auto.
Qed.

Lemma prompts_dirtyRounds owner repoName n :
  List.length (filter isPrompt (dirtyRounds owner repoName n)) = n.
Proof. induction n as [|n IH]; simpl; [reflexivity | now rewrite IH]. Qed.

(** C4. Suppose the operator confirms and the index is found dirty [n]
    times in a row.  Then the loop needs more than [n] rounds: with fuel for
    [n] rounds or fewer it has no result yet.  With more fuel it returns at
    round [n + 1]: it succeeds when the operator confirms and the index is
    clean, and fails with the abort error when the operator declines; either
    way it has prompted exactly [n + 1] times.  The loop never invokes
    cherry-pick. *)
Theorem confirmResolvedRecursive_terminates (env : Env)
  (owner repoName : string) (h : History) (n : nat) :
  (forall k, k < n ->
     confirmConflictResolved env (h ++ dirtyRounds owner repoName k)%list
     = Fulfilled true /\
     isIndexDirty env
       (h ++ dirtyRounds owner repoName k ++ [ConfirmConflictResolved])%list
       owner repoName
     = Fulfilled true) ->
  let start := (h ++ dirtyRounds owner repoName n)%list in
  let run fuel := confirmResolvedRecursive env fuel owner repoName h in
  (forall fuel, cherrypicks (fst (run fuel)) = []) /\
  (forall fuel, fuel <= n -> snd (run fuel) = OutOfFuel) /\
  (forall fuel, n < fuel ->
     confirmConflictResolved env start = Fulfilled true ->
     isIndexDirty env (start ++ [ConfirmConflictResolved])%list owner repoName
     = Fulfilled false ->
     run fuel
     = ((dirtyRounds owner repoName n
           ++ [ConfirmConflictResolved; IsIndexDirty owner repoName])%list,
        Ret tt) /\
     List.length (filter isPrompt (fst (run fuel))) = S n) /\
  (forall fuel, n < fuel ->
     confirmConflictResolved env start = Fulfilled false ->
     run fuel
     = ((dirtyRounds owner repoName n ++ [ConfirmConflictResolved])%list,
        Throw (HandledError "Application was aborted.")) /\
     List.length (filter isPrompt (fst (run fuel))) = S n).
Proof.
  intros H start run. subst start run. cbv beta.
  split; [intros fuel; apply loop_no_cherrypick|].
  split; [|split].
  - intros fuel Hf.
    replace fuel with (fuel + 0) by lia.
    rewrite loop_after_dirty_rounds by (intros k Hk; apply H; lia).
    reflexivity.
  - intros fuel Hf Hc Hd.
    replace fuel with (n + S (fuel - S n)) by lia.
    rewrite (loop_after_dirty_rounds env owner repoName n _ h H). cbv zeta.
    rewrite (confirm_clean env owner repoName _ _ Hc Hd). cbn [fst snd].
    split; [reflexivity|].
    rewrite filter_app, List.length_app, prompts_dirtyRounds. simpl. lia.
  - intros fuel Hf Hc.
    replace fuel with (n + S (fuel - S n)) by lia.
    rewrite (loop_after_dirty_rounds env owner repoName n _ h H). cbv zeta.
    rewrite (confirm_denied env owner repoName _ _ Hc). cbn [fst snd].
    split; [reflexivity|].
    rewrite filter_app, List.length_app, prompts_dirtyRounds. simpl. lia.
Qed.

Lemma confirmResolvedRecursive_terminates_witness :
  (confirmResolvedRecursive Sample.dirtyTwice 3 "elastic" "kibana" []
   = ([ConfirmConflictResolved; IsIndexDirty "elastic" "kibana";
       ConfirmConflictResolved; IsIndexDirty "elastic" "kibana";
       ConfirmConflictResolved; IsIndexDirty "elastic" "kibana"],
      Ret tt) /\
   snd (confirmResolvedRecursive Sample.dirtyTwice 2 "elastic" "kibana" [])
   = OutOfFuel) /\
  (confirmResolvedRecursive Sample.happy 1 "elastic" "kibana" []
   = ([ConfirmConflictResolved; IsIndexDirty "elastic" "kibana"], Ret tt) /\
   List.length
     (filter isPrompt
        (fst (confirmResolvedRecursive Sample.happy 1 "elastic" "kibana" [])))
   = 1) /\
  confirmResolvedRecursive Sample.denied6x 1 "elastic" "kibana" []
  = ([ConfirmConflictResolved],
     Throw (HandledError "Application was aborted.")).
Proof.
  split; [|split].
  - assert (H : forall k, k < 2 ->
       confirmConflictResolved Sample.dirtyTwice
         ([] ++ dirtyRounds "elastic" "kibana" k)%list = Fulfilled true /\
       isIndexDirty Sample.dirtyTwice
         ([] ++ dirtyRounds "elastic" "kibana" k
             ++ [ConfirmConflictResolved])%list "elastic" "kibana"
       = Fulfilled true).
    { intros k Hk. destruct k as [|[|k]]; [split; reflexivity ..|lia]. }
    destruct (confirmResolvedRecursive_terminates
                Sample.dirtyTwice "elastic" "kibana" [] 2 H)
      as (_ & Hout & Hclean & _).
    split.
    + exact (proj1 (Hclean 3 ltac:(lia) eq_refl eq_refl)).
    + exact (Hout 2 ltac:(lia)).
  - destruct (confirmResolvedRecursive_terminates
                Sample.happy "elastic" "kibana" [] 0
                ltac:(intros k Hk; lia))
      as (_ & _ & Hclean & _).
    exact (Hclean 1 ltac:(lia) eq_refl eq_refl).
  - destruct (confirmResolvedRecursive_terminates
                Sample.denied6x "elastic" "kibana" [] 0
                ltac:(intros k Hk; lia))
      as (_ & _ & _ & Hdenied).
    exact (proj1 (Hdenied 1 ltac:(lia) eq_refl)).
Defined.

(** ** Cherry-picking one commit *)

Section Cherrypick.

Variable env : Env.
Variables (fuel : nat) (owner repoName sha : string).

Let picking (h : History) : History :=
  (h ++ [SpinnerStart (Some "Cherry-picking commit")])%list.

Lemma pick_clean h :
  cherrypick env (picking h) owner repoName sha = Fulfilled tt ->
  cherrypickAndConfirm env fuel owner repoName sha h
  = ([SpinnerStart (Some "Cherry-picking commit");
      Cherrypick owner repoName sha; SpinnerSucceed], Ret tt).
Proof.
  intros H. unfold cherrypickAndConfirm.
  apply try_catch_Ret.
  rewrite (withSpinner_Ret _ _ _ h [Cherrypick owner repoName sha] tt);
    [reflexivity|].
  unfold call. fold (picking h). rewrite H. reflexivity.
Qed.

Lemma pick_spinner_fails h e :
  cherrypick env (picking h) owner repoName sha = Rejected e ->
  withSpinner (Some "Cherry-picking commit")
    (Some ("Cherry-picking failed. Please resolve conflicts in: "
           ++ getRepoPath env owner repoName))
    (call (Cherrypick owner repoName sha)
          (fun h => cherrypick env h owner repoName sha)) h
  = (pickFailed env owner repoName sha, Throw e).
Proof.
  intros H.
  rewrite (withSpinner_Throw _ _ _ h [Cherrypick owner repoName sha] e);
    [reflexivity|].
  unfold call. fold (picking h). rewrite H. reflexivity.
Qed.

(** The failed command is the cherry-pick: the loop is entered. *)
Lemma pick_conflict h e cmd :
  cherrypick env (picking h) owner repoName sha = Rejected e ->
  Error.cmd e = Some cmd ->
  Js.includes "git cherry-pick" cmd = true ->
  cherrypickAndConfirm env fuel owner repoName sha h
  = let loop :=
      confirmResolvedRecursive env fuel owner repoName
        (h ++ pickFailed env owner repoName sha)%list in
    ((pickFailed env owner repoName sha ++ fst loop)%list, snd loop).
Proof.
  intros H Hcmd Hinc. unfold cherrypickAndConfirm.
  erewrite try_catch_Throw by (apply pick_spinner_fails; exact H).
  rewrite Hcmd. cbv zeta. rewrite Hinc. reflexivity.
Qed.

(** Another command failed: its error goes to the caller as it is. *)
Lemma pick_other_command h e cmd :
  cherrypick env (picking h) owner repoName sha = Rejected e ->
  Error.cmd e = Some cmd ->
  Js.includes "git cherry-pick" cmd = false ->
  cherrypickAndConfirm env fuel owner repoName sha h
  = (pickFailed env owner repoName sha, Throw e).
Proof.
  intros H Hcmd Hinc. unfold cherrypickAndConfirm.
  erewrite try_catch_Throw by (apply pick_spinner_fails; exact H).
  rewrite Hcmd. cbv zeta. rewrite Hinc. reflexivity.
Qed.

(** The error has no [cmd]: reading [e.cmd.includes] raises. *)
Lemma pick_no_cmd h e :
  cherrypick env (picking h) owner repoName sha = Rejected e ->
  Error.cmd e = None ->
  cherrypickAndConfirm env fuel owner repoName sha h
  = (pickFailed env owner repoName sha, Throw TypeError_includes).
Proof.
  intros H Hcmd. unfold cherrypickAndConfirm.
  erewrite try_catch_Throw by (apply pick_spinner_fails; exact H).
  rewrite Hcmd. reflexivity.
Qed.

(** Whatever happens, the commit is cherry-picked once, and nothing is
    pushed or sent to the hosting API. *)
Lemma pick_events h :
  let evs := fst (cherrypickAndConfirm env fuel owner repoName sha h) in
  cherrypicks evs = [sha] /\ filter isRemote evs = [].
Proof.
  cbv zeta.
  destruct (cherrypick env (picking h) owner repoName sha) as [[]|e] eqn:H.
  - rewrite (pick_clean h H). split; reflexivity.
  - destruct (Error.cmd e) as [cmd|] eqn:Hcmd.
    + destruct (Js.includes "git cherry-pick" cmd) eqn:Hinc.
      * rewrite (pick_conflict h e cmd H Hcmd Hinc). cbn [fst].
        rewrite cherrypicks_app, filter_app, loop_no_cherrypick,
          loop_not_remote.
        split; reflexivity.
      * rewrite (pick_other_command h e cmd H Hcmd Hinc).
        split; reflexivity.
    + rewrite (pick_no_cmd h e H Hcmd). split; reflexivity.
Qed.

End Cherrypick.

(** X1. When the error of the cherry-pick step carries a [cmd], the loop is
    entered exactly when the [cmd] includes [git cherry-pick]; otherwise the
    error reaches the caller unchanged, and no prompt is shown. *)
Theorem cherrypickAndConfirm_classifies_by_cmd (env : Env) (fuel : nat)
  (owner repoName sha : string) (h : History) (e : JsError) (cmd : string) :
  cherrypick env (h ++ [SpinnerStart (Some "Cherry-picking commit")])%list
             owner repoName sha
  = Rejected e ->
  Error.cmd e = Some cmd ->
  let run := cherrypickAndConfirm env fuel owner repoName sha h in
  let failed := pickFailed env owner repoName sha in
  (Js.includes "git cherry-pick" cmd = true ->
   let loop :=
     confirmResolvedRecursive env fuel owner repoName (h ++ failed)%list in
   run = ((failed ++ fst loop)%list, snd loop)) /\
  (Js.includes "git cherry-pick" cmd = false ->
   run = (failed, Throw e) /\ filter isPrompt (fst run) = []).
Proof.
  intros H Hcmd. cbv zeta. split; intros Hinc.
  - exact (pick_conflict env fuel owner repoName sha h e cmd H Hcmd Hinc).
  - rewrite (pick_other_command env fuel owner repoName sha h e cmd H Hcmd
               Hinc).
    split; reflexivity.
Qed.

Lemma cherrypickAndConfirm_classifies_by_cmd_witness :
  snd (cherrypickAndConfirm Sample.fetchFails 1 "elastic" "kibana"
         "abc1234def5678" [])
  = Throw Sample.fetchError /\
  cherrypickAndConfirm Sample.dirtyTwice 3 "elastic" "kibana"
    "abc1234def5678" []
  = ((pickFailed Sample.dirtyTwice "elastic" "kibana" "abc1234def5678"
        ++ dirtyRounds "elastic" "kibana" 3)%list,
     Ret tt).
Proof.
  split.
  - destruct (cherrypickAndConfirm_classifies_by_cmd Sample.fetchFails 1
                "elastic" "kibana" "abc1234def5678" [] Sample.fetchError
                "git fetch origin" eq_refl eq_refl) as [_ Hother].
    destruct (Hother eq_refl) as [Hrun _]. rewrite Hrun. reflexivity.
  - destruct (cherrypickAndConfirm_classifies_by_cmd Sample.dirtyTwice 3
                "elastic" "kibana" "abc1234def5678" []
                Sample.conflictError "git cherry-pick abc1234def5678"
                eq_refl eq_refl) as [Hloop _].
    rewrite (Hloop eq_refl). reflexivity.
Defined.

(** C10. When the cherry-pick is rejected with an error that has no [cmd],
    the classifier raises a [TypeError] of its own, whatever the error was:
    the original error is not what the caller receives. *)
Theorem cherrypickAndConfirm_no_cmd (env : Env) (fuel : nat)
  (owner repoName sha : string) (h : History) (e : JsError) :
  cherrypick env (h ++ [SpinnerStart (Some "Cherry-picking commit")])%list
             owner repoName sha
  = Rejected e ->
  Error.cmd e = None ->
  cherrypickAndConfirm env fuel owner repoName sha h
  = (pickFailed env owner repoName sha, Throw TypeError_includes) /\
  Error.name TypeError_includes = "TypeError" /\
  (Error.name e <> "TypeError" ->
   snd (cherrypickAndConfirm env fuel owner repoName sha h) <> Throw e).
Proof.
  intros H Hcmd.
  rewrite (pick_no_cmd env fuel owner repoName sha h e H Hcmd).
  split; [reflexivity|]. split; [reflexivity|].
  intros Hname Heq. cbn in Heq. injection Heq as <-. now apply Hname.
Qed.

Lemma cherrypickAndConfirm_no_cmd_witness :
  cherrypickAndConfirm Sample.offline 1 "elastic" "kibana" "abc1234def5678" []
  = (pickFailed Sample.offline "elastic" "kibana" "abc1234def5678",
     Throw TypeError_includes) /\
  snd (cherrypickAndConfirm Sample.offline 1 "elastic" "kibana"
         "abc1234def5678" [])
  <> Throw Sample.networkError.
Proof.
  destruct (cherrypickAndConfirm_no_cmd Sample.offline 1 "elastic" "kibana"
              "abc1234def5678" [] Sample.networkError eq_refl eq_refl)
    as (Hrun & _ & Hneq).
  split; [exact Hrun|].
  apply Hneq. cbn. discriminate.
Defined.

(** C3, at a failing input.  The cherry-pick step fails on a network
    error, which has no [cmd]: the caller receives a [TypeError], not the
    network error, and the coordinator reports that [TypeError]. *)
Theorem cherrypickAndConfirm_replaces_network_error :
  cherrypickAndConfirm Sample.offline 1 "elastic" "kibana" "abc1234def5678" []
  = ([SpinnerStart (Some "Cherry-picking commit");
      Cherrypick "elastic" "kibana" "abc1234def5678";
      SpinnerText
        "Cherry-picking failed. Please resolve conflicts in: /home/me/.backport/repositories/elastic/kibana";
      SpinnerFail],
     Throw TypeError_includes) /\
  TypeError_includes <> Sample.networkError /\
  snd (doBackportVersions Sample.offline 1 "elastic" "kibana"
         [Sample.commit10] ["6.x"; "7.x"] "me" [] [])
  = Throw TypeError_includes.
Proof.
  split; [reflexivity|]. split; [discriminate|]. vm_compute. reflexivity.
Qed.

(** ** What a computation can emit *)

Section Emits.

Variable q : Event -> bool.

Lemma emitsOnly_ret {A} (a : A) : emitsOnly q (ret a).
Proof. intros h. constructor. Qed.

Lemma emitsOnly_throw {A} (e : JsError) : emitsOnly q (@throw A e).
Proof. intros h. constructor. Qed.

Lemma emitsOnly_emit (ev : Event) : q ev = true -> emitsOnly q (emit ev).
Proof. intros H h. now repeat constructor. Qed.

Lemma emitsOnly_call {A} (ev : Event) (answer : History -> Settled A) :
  q ev = true -> emitsOnly q (call ev answer).
Proof.
  intros H h. unfold call. destruct (answer h); now repeat constructor.
Qed.

Lemma emitsOnly_bind {A B} (m : M A) (k : A -> M B) :
  emitsOnly q m -> (forall a, emitsOnly q (k a)) -> emitsOnly q (bind m k).
Proof.
  intros Hm Hk h. unfold bind. specialize (Hm h).
  destruct (m h) as [ev [a|e|]]; cbn in *; try exact Hm.
  specialize (Hk a (h ++ ev)%list).
  destruct (k a (h ++ ev)%list) as [ev' r]. cbn in *.
  apply Forall_app. now split.
Qed.

Lemma emitsOnly_try_catch {A} (m : M A) (handler : JsError -> M A) :
  emitsOnly q m -> (forall e, emitsOnly q (handler e)) ->
  emitsOnly q (try_catch m handler).
Proof.
  intros Hm Hk h. unfold try_catch. specialize (Hm h).
  destruct (m h) as [ev [a|e|]]; cbn in *; try exact Hm.
  specialize (Hk e (h ++ ev)%list).
  destruct (handler e (h ++ ev)%list) as [ev' r]. cbn in *.
  apply Forall_app. now split.
Qed.

Hypothesis spinner :
  forall ev,
    match ev with
    | SpinnerStart _ | SpinnerSucceed | SpinnerStop | SpinnerText _
    | SpinnerFail => q ev = true
    | _ => True
    end.

Lemma emitsOnly_withSpinner {T} text errorText (fn : M T) :
  emitsOnly q fn -> emitsOnly q (withSpinner text errorText fn).
Proof.
  intros H. unfold withSpinner.
  apply emitsOnly_bind; [apply emitsOnly_emit, (spinner (SpinnerStart text))|].
  intros _. apply emitsOnly_try_catch.
  - apply emitsOnly_bind; [exact H|]. intros res.
    apply emitsOnly_bind; [|intros _; apply emitsOnly_ret].
    destruct (truthy_opt text); apply emitsOnly_emit;
      [apply (spinner SpinnerSucceed) | apply (spinner SpinnerStop)].
  - intros e. apply emitsOnly_bind.
    + destruct errorText as [t|]; [destruct (truthy t)|];
        [apply emitsOnly_emit, (spinner (SpinnerText t))
        | apply emitsOnly_ret ..].
    + intros _. apply emitsOnly_bind; [|intros _; apply emitsOnly_throw].
      apply emitsOnly_emit, (spinner SpinnerFail).
Qed.

End Emits.

Lemma spinner_notPick ev :
  match ev with
  | SpinnerStart _ | SpinnerSucceed | SpinnerStop | SpinnerText _
  | SpinnerFail => notPick ev = true
  | _ => True
  end.
Proof. now destruct ev. Qed.

Lemma spinner_notRemote ev :
  match ev with
  | SpinnerStart _ | SpinnerSucceed | SpinnerStop | SpinnerText _
  | SpinnerFail => notRemote ev = true
  | _ => True
  end.
Proof. now destruct ev. Qed.

Lemma notPick_cherrypicks (evs : list Event) :
  Forall (fun ev => notPick ev = true) evs -> cherrypicks evs = [].
Proof.
  induction 1 as [|ev evs H _ IH]; [reflexivity|].
  destruct ev; try discriminate; exact IH.
Qed.

Lemma notRemote_filter (evs : list Event) :
  Forall (fun ev => notRemote ev = true) evs -> filter isRemote evs = [].
Proof.
  induction 1 as [|ev evs H _ IH]; [reflexivity|].
  unfold notRemote in H. simpl. destruct (isRemote ev); [discriminate|].
  exact IH.
Qed.

Ltac emits :=
  unfold createPullRequest, addLabels, log;
  repeat first
    [ apply emitsOnly_ret
    | apply emitsOnly_throw
    | apply emitsOnly_emit; reflexivity
    | apply emitsOnly_call; reflexivity
    | apply emitsOnly_withSpinner;
      [first [exact spinner_notPick | exact spinner_notRemote] |]
    | apply emitsOnly_bind; [|intros ?]
    | apply emitsOnly_try_catch; [|intros ?]
    | match goal with
      | |- emitsOnly _ (if ?b then _ else _) => destruct b
      end ].

Lemma bind_fst {A B} (m : M A) (k : A -> M B) h :
  fst (bind m k h)
  = (fst (m h)
       ++ match snd (m h) with
          | Ret a => fst (k a (h ++ fst (m h))%list)
          | _ => []
          end)%list.
Proof.
  unfold bind. destruct (m h) as [ev [a|e|]]; cbn; rewrite ?app_nil_r;
    try reflexivity.
  now destruct (k a (h ++ ev)%list).
Qed.

Lemma bind_snd_Ret {A B} (m : M A) (k : A -> M B) h b :
  snd (bind m k h) = Ret b ->
  exists a, snd (m h) = Ret a /\ snd (k a (h ++ fst (m h))%list) = Ret b.
Proof.
  unfold bind. destruct (m h) as [ev [a|e|]]; cbn; try discriminate.
  destruct (k a (h ++ ev)%list) as [ev' r] eqn:E. cbn. intros ->.
  exists a. now rewrite E.
Qed.

(** ** The pipeline of one branch *)

Section Pipeline.

Variable env : Env.
Variables (fuel : nat) (owner repoName : string).

Let pick (commit : Commit) : M unit :=
  cherrypickAndConfirm env fuel owner repoName (sha commit).

(** The commits are cherry-picked in the order of the list, up to the
    first whose handler does not return. *)
Lemma picks_events (commits : list Commit) : forall u h,
  let run := forEach u commits pick h in
  filter isRemote (fst run) = [] /\
  (exists k, cherrypicks (fst run) = map sha (firstn k commits)) /\
  (forall a, snd run = Ret a -> cherrypicks (fst run) = map sha commits).
Proof.
  induction commits as [|c commits IH]; intros u h; cbv zeta.
  - cbn. split; [reflexivity|]. split; [now exists 0 | reflexivity].
  - cbn [forEach].
    destruct (pick_events env fuel owner repoName (sha c) h) as [Hp Hr].
    fold (pick c) in Hp, Hr.
    rewrite bind_fst, cherrypicks_app, filter_app, Hp, Hr.
    destruct (snd (pick c h)) as [a|e|] eqn:E.
    + destruct (IH a (h ++ fst (pick c h))%list) as (Hr' & [k Hk] & Hall).
      split; [exact Hr'|]. split.
      * exists (S k). cbn. now rewrite Hk.
      * intros b Hb. apply bind_snd_Ret in Hb as (a' & Ha' & Hb).
        rewrite E in Ha'. injection Ha' as <-.
        cbn. now rewrite (Hall b Hb).
    + split; [reflexivity|]. split; [now exists 1|].
      intros b Hb. apply bind_snd_Ret in Hb as (a' & Ha' & _).
      rewrite E in Ha'. discriminate.
    + split; [reflexivity|]. split; [now exists 1|].
      intros b Hb. apply bind_snd_Ret in Hb as (a' & Ha' & _).
      rewrite E in Ha'. discriminate.
Qed.

(** A commit whose handler throws ends the series. *)
Lemma picks_fail (pre post : list Commit) (c : Commit) u h es a ec e :
  forEach u pre pick h = (es, Ret a) ->
  pick c (h ++ es)%list = (ec, Throw e) ->
  forEach u (pre ++ c :: post) pick h = ((es ++ ec)%list, Throw e).
Proof.
  intros Hpre Hc. rewrite forEach_app.
  rewrite (bind_Ret _ _ h es a Hpre). cbn [forEach].
  rewrite (bind_Throw _ _ (h ++ es)%list ec e Hc). reflexivity.
Qed.

End Pipeline.

Lemma bind_snd {A B} (m : M A) (k : A -> M B) h :
  snd (bind m k h)
  = match snd (m h) with
    | Ret a => snd (k a (h ++ fst (m h))%list)
    | Throw e => Throw e
    | OutOfFuel => OutOfFuel
    end.
Proof.
  unfold bind. destruct (m h) as [ev [a|e|]]; cbn; try reflexivity.
  now destruct (k a (h ++ ev)%list).
Qed.

Section Stages.

Context {A : Type} (shas : list string).

(** A stage that neither cherry-picks nor reaches a remote, before a run
    that picks in order. *)
Lemma quiet_then (Q : M unit) (R : M A) :
  emitsOnly notPick Q -> emitsOnly notRemote Q ->
  (forall h, inOrder shas (R h)) ->
  forall h, inOrder shas (bind Q (fun _ => R) h).
Proof.
  intros Hp Hr HR h. unfold inOrder.
  rewrite bind_fst, bind_snd, cherrypicks_app, filter_app.
  rewrite (notPick_cherrypicks _ (Hp h)), (notRemote_filter _ (Hr h)).
  cbn [app].
  destruct (snd (Q h)) as [[]|e|]; [apply HR| |].
  all: split; [now exists 0|]; split;
    [intros H; now elim H | discriminate].
Qed.

(** The series of cherry-picks, before a stage that does not pick. *)
Lemma picks_then (P : M unit) (R : M A) :
  (forall h, filter isRemote (fst (P h)) = [] /\
             (exists k, cherrypicks (fst (P h)) = firstn k shas) /\
             (forall a, snd (P h) = Ret a -> cherrypicks (fst (P h)) = shas)) ->
  emitsOnly notPick R ->
  forall h, inOrder shas (bind P (fun _ => R) h).
Proof.
  intros HP HR h. unfold inOrder.
  destruct (HP h) as (Hrem & [k Hk] & Hall).
  rewrite bind_fst, bind_snd, cherrypicks_app, filter_app, Hrem.
  destruct (snd (P h)) as [[]|e|].
  - rewrite (notPick_cherrypicks _ (HR _)), app_nil_r, (Hall tt eq_refl).
    split; [|split; reflexivity].
    exists (List.length shas). now rewrite firstn_all.
  - rewrite !app_nil_r.
    split; [now exists k|]; split; [intros H; now elim H | discriminate].
  - rewrite !app_nil_r.
    split; [now exists k|]; split; [intros H; now elim H | discriminate].
Qed.

End Stages.

Section Branch.

Variable env : Env.
Variables (fuel : nat) (owner repoName : string) (commits : list Commit).
Variables (baseBranch username : string) (labels : list string).

Lemma pipeline_in_order h :
  inOrder (map sha commits)
    (doBackportVersion env fuel owner repoName commits baseBranch username
       labels h).
Proof.
  unfold doBackportVersion. cbv zeta.
  apply quiet_then; [emits | emits |]. clear h.
  apply quiet_then; [emits | emits |].
  apply picks_then; [|emits].
  intros h. rewrite sequentially_forEach.
  destruct (picks_events env fuel owner repoName commits tt h)
    as (Hr & [k Hk] & Hall).
  split; [exact Hr|]. split; [|exact Hall].
  exists k. now rewrite firstn_map.
Qed.

(** The first step of the pipeline, when both commands succeed. *)
Lemma pipeline_synced h :
  resetBranch env (h ++ firstn 2 (synced owner repoName commits baseBranch))%list
              owner repoName
  = Fulfilled tt ->
  createAndCheckoutBranch env
    (h ++ firstn 3 (synced owner repoName commits baseBranch))%list
    owner repoName baseBranch (getFeatureBranchName baseBranch commits)
  = Fulfilled tt ->
  forall (rest : M PullRequest.t),
    bind (log ("Backporting "
               ++ Js.join ", " (map (fun commit => getReferenceLong commit)
                                    commits)
               ++ " to " ++ baseBranch))
      (fun _ =>
         bind (withSpinner (Some "Pulling latest changes") None
                 (call (ResetBranch owner repoName)
                       (fun h => resetBranch env h owner repoName) ;;
                  call (CreateAndCheckoutBranch owner repoName baseBranch
                          (getFeatureBranchName baseBranch commits))
                       (fun h => createAndCheckoutBranch env h owner
                                   repoName baseBranch
                                   (getFeatureBranchName baseBranch commits))))
              (fun _ => rest)) h
    = let after :=
        rest (h ++ synced owner repoName commits baseBranch)%list in
      ((synced owner repoName commits baseBranch ++ fst after)%list,
       snd after).
Proof.
  cbn [firstn synced]. intros Hreset Hcheckout rest.
  erewrite bind_Ret by reflexivity.
  erewrite bind_Ret.
  2:{ apply (withSpinner_Ret _ _ _ _
               [ResetBranch owner repoName;
                CreateAndCheckoutBranch owner repoName baseBranch
                  (getFeatureBranchName baseBranch commits)] tt).
      unfold bind, call. rewrite <- !app_assoc. cbn [app].
      rewrite Hreset. rewrite <- !app_assoc. cbn [app].
      rewrite Hcheckout. reflexivity. }
  cbv zeta. cbn [fst snd truthy_opt truthy String.eqb negb app].
  rewrite <- !app_assoc. cbn [app]. reflexivity.
Qed.

End Branch.

(** When the commits before [c] have been picked and the handler of [c]
    throws, the pipeline throws the same error there. *)
Lemma pipeline_fails_at_commit (env : Env) (fuel : nat)
  (owner repoName : string) (commits : list Commit)
  (baseBranch username : string) (labels : list string) (h : History)
  (pre : list Commit) (c : Commit) (post : list Commit)
  (es ec : list Event) (e : JsError) :
  let start := synced owner repoName commits baseBranch in
  commits = (pre ++ c :: post)%list ->
  resetBranch env (h ++ firstn 2 start)%list owner repoName = Fulfilled tt ->
  createAndCheckoutBranch env (h ++ firstn 3 start)%list owner repoName
    baseBranch (getFeatureBranchName baseBranch commits)
  = Fulfilled tt ->
  sequentially tt pre
    (fun commit => cherrypickAndConfirm env fuel owner repoName (sha commit))
    (h ++ start)%list
  = (es, Ret tt) ->
  cherrypickAndConfirm env fuel owner repoName (sha c) (h ++ start ++ es)%list
  = (ec, Throw e) ->
  doBackportVersion env fuel owner repoName commits baseBranch username
    labels h
  = ((start ++ es ++ ec)%list, Throw e) /\
  cherrypicks (start ++ es ++ ec) = map sha (pre ++ [c]) /\
  filter isRemote (start ++ es ++ ec) = [].
Proof.
  intros start Hcommits Hreset Hcheckout Hpre Hc.
  split.
  - unfold doBackportVersion. cbv zeta.
    rewrite pipeline_synced by assumption. cbv zeta. fold start.
    erewrite bind_Throw; [reflexivity|].
    rewrite sequentially_forEach, Hcommits.
    rewrite sequentially_forEach in Hpre.
    apply (picks_fail env fuel owner repoName pre post c tt _ es tt ec e Hpre).
    rewrite <- app_assoc. exact Hc.
  - rewrite sequentially_forEach in Hpre.
    destruct (picks_events env fuel owner repoName pre tt (h ++ start)%list)
      as (Hr & _ & Hall).
    rewrite Hpre in Hr, Hall. cbn [fst snd] in Hr, Hall.
    destruct (pick_events env fuel owner repoName (sha c)
                (h ++ start ++ es)%list)
      as (Hp' & Hr').
    rewrite Hc in Hp', Hr'. cbn [fst] in Hp', Hr'.
    rewrite !cherrypicks_app, !filter_app, (Hall tt eq_refl), Hp', Hr, Hr'.
    rewrite map_app. split; reflexivity.
Qed.

(** C9. Within one branch's pipeline the commits are cherry-picked in the
    order of the list: the shas picked are a prefix of the shas of the
    commits, and all of them once the run pushes, reaches the hosting API or
    returns.  When the commits before [c] have been picked and the handler
    of [c] throws, the pipeline throws the same error there: the commits
    after [c] are not picked, and nothing is pushed or sent to the hosting
    API. *)
Theorem doBackportVersion_picks_in_order (env : Env) (fuel : nat)
  (owner repoName : string) (commits : list Commit)
  (baseBranch username : string) (labels : list string) (h : History) :
  let run :=
    doBackportVersion env fuel owner repoName commits baseBranch username
      labels h in
  let start := synced owner repoName commits baseBranch in
  inOrder (map sha commits) run /\
  (forall pre c post es ec e,
     commits = (pre ++ c :: post)%list ->
     resetBranch env (h ++ firstn 2 start)%list owner repoName
     = Fulfilled tt ->
     createAndCheckoutBranch env (h ++ firstn 3 start)%list owner repoName
       baseBranch (getFeatureBranchName baseBranch commits)
     = Fulfilled tt ->
     sequentially tt pre
       (fun commit => cherrypickAndConfirm env fuel owner repoName (sha commit))
       (h ++ start)%list
     = (es, Ret tt) ->
     cherrypickAndConfirm env fuel owner repoName (sha c)
       (h ++ start ++ es)%list
     = (ec, Throw e) ->
     run = ((start ++ es ++ ec)%list, Throw e) /\
     cherrypicks (fst run) = map sha (pre ++ [c]) /\
     filter isRemote (fst run) = []).
Proof.
  cbv zeta. split; [apply pipeline_in_order|].
  intros pre c post es ec e Hcommits Hreset Hcheckout Hpre Hc.
  destruct (pipeline_fails_at_commit env fuel owner repoName commits
              baseBranch username labels h pre c post es ec e
              Hcommits Hreset Hcheckout Hpre Hc) as (Hrun & Hpicks & Hremote).
  rewrite Hrun. cbn [fst]. auto.
Qed.

Lemma doBackportVersion_picks_in_order_witness :
  let run :=
    doBackportVersion Sample.secondPickDenied 1 "elastic" "kibana"
      [Sample.commit10; Sample.commitNoPull; Sample.commitThird]
      "7.x" "me" [] [] in
  snd run = Throw (HandledError "Application was aborted.") /\
  cherrypicks (fst run) = ["abc1234def5678"; "deadbeefcafe0123"] /\
  filter isRemote (fst run) = [].
Proof.
  cbv zeta.
  destruct (doBackportVersion_picks_in_order Sample.secondPickDenied 1
              "elastic" "kibana"
              [Sample.commit10; Sample.commitNoPull; Sample.commitThird]
              "7.x" "me" [] []) as [_ Hfail].
  destruct (Hfail [Sample.commit10] Sample.commitNoPull [Sample.commitThird]
              [SpinnerStart (Some "Cherry-picking commit");
               Cherrypick "elastic" "kibana" "abc1234def5678";
               SpinnerSucceed]
              (pickFailed Sample.secondPickDenied "elastic" "kibana"
                 "deadbeefcafe0123" ++ [ConfirmConflictResolved])%list
              (HandledError "Application was aborted.")
              eq_refl eq_refl eq_refl eq_refl eq_refl)
    as (Hrun & Hpicks & Hremote).
  split; [|split].
  - rewrite Hrun. reflexivity.
  - exact Hpicks.
  - exact Hremote.
Defined.

(** ** The coordinator *)

Lemma forEach_value {T A} (handler : T -> M A) (u : A) :
  (forall item h ev a, handler item h = (ev, Ret a) -> a = u) ->
  forall items h ev a, forEach u items handler h = (ev, Ret a) -> a = u.
Proof.
  intros Hh items. induction items as [|item items IH]; intros h ev a H.
  - cbn in H. now injection H as _ <-.
  - cbn [forEach] in H. unfold bind in H.
    destruct (handler item h) as [ev1 [a1|e|]] eqn:E; try discriminate.
    apply Hh in E as ->.
    destruct (forEach u items handler (h ++ ev1)%list) as [ev2 r] eqn:E2.
    injection H as _ ->. now apply IH in E2.
Qed.

Lemma bind_ext_on {A B} (m : M A) (k k' : A -> M B) h :
  (forall ev a, m h = (ev, Ret a) ->
                k a (h ++ ev)%list = k' a (h ++ ev)%list) ->
  bind m k h = bind m k' h.
Proof.
  unfold bind. intros Hk. destruct (m h) as [ev [a|e|]]; try reflexivity.
  now rewrite (Hk ev a eq_refl).
Qed.

Section Coordinator.

Variable env : Env.
Variables (fuel : nat) (owner repoName : string) (commits : list Commit).
Variables (username : string) (labels : list string).

Let pipeline (baseBranch : string) : M PullRequest.t :=
  doBackportVersion env fuel owner repoName commits baseBranch username
    labels.

Let coordinator (branches : list string) : M (option PullRequest.t) :=
  doBackportVersions env fuel owner repoName commits branches username
    labels.

(** One branch whose pipeline returns: its pull request is logged. *)
Lemma branch_returns baseBranch h ev pullRequest :
  pipeline baseBranch h = (ev, Ret pullRequest) ->
  coordinator [baseBranch] h
  = ((ev ++ [Log ("View pull request: "
                  ++ PullRequest.html_url pullRequest ++ Js.LF)])%list,
     Ret None).
Proof.
  intros H. unfold coordinator, doBackportVersions.
  rewrite sequentially_forEach. cbn [forEach].
  rewrite bind_ret_r. apply try_catch_Ret.
  fold (pipeline baseBranch). rewrite (bind_Ret _ _ h ev pullRequest H).
  reflexivity.
Qed.

(** One branch whose pipeline throws a [HandledError]: the message is
    printed and the error goes no further. *)
Lemma branch_handled baseBranch h ev e :
  pipeline baseBranch h = (ev, Throw e) ->
  Error.name e = "HandledError" ->
  coordinator [baseBranch] h
  = ((ev ++ [ConsoleError (Error.message e)])%list, Ret None).
Proof.
  intros H Hname. unfold coordinator, doBackportVersions.
  rewrite sequentially_forEach. cbn [forEach].
  rewrite bind_ret_r.
  erewrite try_catch_Throw
    by (fold (pipeline baseBranch); apply bind_Throw, H).
  unfold handleErrors. rewrite Hname. reflexivity.
Qed.

(** One branch whose pipeline throws any other error: the error is
    printed and thrown again. *)
Lemma branch_unhandled baseBranch h ev e :
  pipeline baseBranch h = (ev, Throw e) ->
  Error.name e <> "HandledError" ->
  coordinator [baseBranch] h
  = ((ev ++ [ConsoleErrorObject e])%list, Throw e).
Proof.
  intros H Hname. unfold coordinator, doBackportVersions.
  rewrite sequentially_forEach. cbn [forEach].
  rewrite bind_ret_r.
  erewrite try_catch_Throw
    by (fold (pipeline baseBranch); apply bind_Throw, H).
  unfold handleErrors.
  apply String.eqb_neq in Hname. rewrite Hname. reflexivity.
Qed.

(** The run never returns a pull request. *)
Lemma coordinator_value branches h ev v :
  coordinator branches h = (ev, Ret v) -> v = None.
Proof.
  unfold coordinator, doBackportVersions. rewrite sequentially_forEach.
  apply forEach_value. clear. intros baseBranch h ev a.
  unfold try_catch, bind.
  destruct (doBackportVersion _ _ _ _ _ _ _ _ h) as [ev1 [pr|e|]];
    cbn; try discriminate.
  - now intros [= _ <-].
  - unfold handleErrors.
    destruct (String.eqb (Error.name e) "HandledError"); cbn;
      [now intros [= _ <-] | discriminate].
Qed.

(** The branches are attempted in order, each after the one before. *)
Lemma coordinator_app pre post h :
  coordinator (pre ++ post) h
  = bind (coordinator pre) (fun _ => coordinator post) h.
Proof.
  unfold coordinator, doBackportVersions.
  rewrite sequentially_forEach, forEach_app.
  etransitivity;
    [| apply bind_ext;
       [symmetry; apply sequentially_forEach | intros a h'; reflexivity]].
  apply bind_ext_on. intros ev a H.
  rewrite sequentially_forEach.
  rewrite <- sequentially_forEach in H.
  apply coordinator_value in H as ->. reflexivity.
Qed.

(** A branch that ends without throwing is followed by the rest. *)
Lemma coordinator_continues pre baseBranch post h epre v ev :
  coordinator pre h = (epre, Ret v) ->
  coordinator [baseBranch] (h ++ epre)%list = (ev, Ret None) ->
  coordinator (pre ++ baseBranch :: post) h
  = let rest := coordinator post (h ++ epre ++ ev)%list in
    ((epre ++ ev ++ fst rest)%list, snd rest).
Proof.
  intros Hpre Hb.
  rewrite coordinator_app, (bind_Ret _ _ h epre v Hpre). cbv beta.
  change (baseBranch :: post) with ([baseBranch] ++ post)%list.
  rewrite coordinator_app, (bind_Ret _ _ _ ev None Hb). cbn [fst snd].
  rewrite <- !app_assoc. reflexivity.
Qed.

(** A branch that throws ends the run. *)
Lemma coordinator_stops pre baseBranch post h epre v ev e :
  coordinator pre h = (epre, Ret v) ->
  coordinator [baseBranch] (h ++ epre)%list = (ev, Throw e) ->
  coordinator (pre ++ baseBranch :: post) h = ((epre ++ ev)%list, Throw e).
Proof.
  intros Hpre Hb.
  rewrite coordinator_app, (bind_Ret _ _ h epre v Hpre). cbv beta.
  change (baseBranch :: post) with ([baseBranch] ++ post)%list.
  rewrite coordinator_app, (bind_Throw _ _ _ ev e Hb). reflexivity.
Qed.

End Coordinator.

(** C1, as the source has it.  Suppose the branches before [baseBranch]
    have been attempted and the pipeline of [baseBranch] throws [e].  When
    [e] is a [HandledError], its message is printed and the branches after
    it are attempted from there, their outcome being the outcome of the
    run.  Otherwise [e] is printed and thrown again, and no later branch is
    attempted.  The pull request of a branch that succeeds is logged; the
    run itself returns no pull request. *)
Theorem doBackportVersions_isolates_branches (env : Env) (fuel : nat)
  (owner repoName : string) (commits : list Commit) (username : string)
  (labels : list string) (pre : list string) (baseBranch : string)
  (post : list string) (h : History) (epre : list Event)
  (v : option PullRequest.t) (ev : list Event) (e : JsError) :
  let coordinator branches :=
    doBackportVersions env fuel owner repoName commits branches username
      labels in
  let pipeline branch :=
    doBackportVersion env fuel owner repoName commits branch username
      labels in
  coordinator pre h = (epre, Ret v) ->
  pipeline baseBranch (h ++ epre)%list = (ev, Throw e) ->
  (Error.name e = "HandledError" ->
   coordinator (pre ++ baseBranch :: post)%list h
   = let reported := (epre ++ ev ++ [ConsoleError (Error.message e)])%list in
     let rest := coordinator post (h ++ reported)%list in
     ((reported ++ fst rest)%list, snd rest)) /\
  (Error.name e <> "HandledError" ->
   coordinator (pre ++ baseBranch :: post)%list h
   = ((epre ++ ev ++ [ConsoleErrorObject e])%list, Throw e)) /\
  (forall branch h' ev' pullRequest,
     pipeline branch h' = (ev', Ret pullRequest) ->
     coordinator [branch] h'
     = ((ev' ++ [Log ("View pull request: "
                      ++ PullRequest.html_url pullRequest ++ Js.LF)])%list,
        Ret None)) /\
  (forall branches h' ev' v',
     coordinator branches h' = (ev', Ret v') -> v' = None).
Proof.
  cbv zeta. intros Hpre Hb. split; [|split; [|split]].
  - intros Hname.
    pose proof (branch_handled env fuel owner repoName commits username
                  labels baseBranch _ ev e Hb Hname) as H1.
    rewrite (coordinator_continues env fuel owner repoName commits username
               labels pre baseBranch post h epre v _ Hpre H1).
    cbv zeta. rewrite <- !app_assoc. reflexivity.
  - intros Hname.
    pose proof (branch_unhandled env fuel owner repoName commits username
                  labels baseBranch _ ev e Hb Hname) as H1.
    rewrite (coordinator_stops env fuel owner repoName commits username
               labels pre baseBranch post h epre v _ e Hpre H1).
    reflexivity.
  - intros branch h' ev' pullRequest. apply branch_returns.
  - intros branches h' ev' v'. apply coordinator_value.
Qed.

Lemma doBackportVersions_isolates_branches_witness :
  let run :=
    doBackportVersions Sample.denied6x 1 "elastic" "kibana"
      [Sample.commit10] ["5.x"; "6.x"; "7.x"] "me" [] [] in
  snd run = Ret None /\
  cherrypicks (fst run)
  = ["abc1234def5678"; "abc1234def5678"; "abc1234def5678"] /\
  map (fun ev => match ev with Push _ _ _ branch => branch | _ => "" end)
      (filter (fun ev => match ev with Push _ _ _ _ => true | _ => false end)
              (fst run))
  = ["backport/5.x/pr-10"; "backport/7.x/pr-10"].
Proof.
  cbv zeta.
  destruct (doBackportVersions_isolates_branches Sample.denied6x 1
              "elastic" "kibana" [Sample.commit10] "me" []
              ["5.x"] "6.x" ["7.x"] []
              (fst (doBackportVersions Sample.denied6x 1 "elastic" "kibana"
                      [Sample.commit10] ["5.x"] "me" [] []))
              None
              (fst (doBackportVersion Sample.denied6x 1 "elastic" "kibana"
                      [Sample.commit10] "6.x" "me" []
                      (fst (doBackportVersions Sample.denied6x 1 "elastic"
                              "kibana" [Sample.commit10] ["5.x"] "me" [] []))))
              (HandledError "Application was aborted.")
              eq_refl eq_refl) as (Hhandled & _).
  change (["5.x"; "6.x"; "7.x"]) with (["5.x"] ++ "6.x" :: ["7.x"])%list.
  rewrite (Hhandled eq_refl). cbv zeta. cbn [fst snd].
  split; [|split]; vm_compute; reflexivity.
Defined.

(** C1, as claimed, fails: the first branch fails with an expected failure
    and is reported, the second succeeds and its pull request is logged, but
    the run returns no pull request. *)
Lemma doBackportVersions_returns_no_pull_request :
  let run :=
    doBackportVersions Sample.denied6x 1 "elastic" "kibana"
      [Sample.commit10] ["6.x"; "7.x"] "me" [] [] in
  In (ConsoleError "Application was aborted.") (fst run) /\
  In (Log ("View pull request: https://github.com/elastic/kibana/pull/77"
           ++ Js.LF)) (fst run) /\
  snd run = Ret None /\
  snd run
  <> Ret (Some (PullRequest.mk "https://github.com/elastic/kibana/pull/77" 77)).
Proof.
  cbv zeta. split; [|split; [|split]].
  - vm_compute. tauto.
  - vm_compute. tauto.
  - vm_compute. reflexivity.
  - vm_compute. discriminate.
Qed.

(** C2, as the source has it.  Suppose the branches before [baseBranch]
    have been attempted, the pipeline of [baseBranch] has picked the commits
    before [c], the cherry-pick of [c] fails on the cherry-pick command, the
    operator confirms [n] times while the index is still dirty, and then
    declines the confirmation ([n] may be 0: the operator declines at
    once).  Then the pipeline of [baseBranch] throws the [HandledError]
    "Application was aborted." at that prompt: no later commit is picked
    and nothing is pushed or sent to the hosting API for this branch.  The
    coordinator prints the message and goes on with the branches after
    [baseBranch]; what the earlier branches did stays as it was. *)
Theorem abort_ends_the_branch_only (env : Env) (fuel : nat)
  (owner repoName : string) (commits : list Commit) (username : string)
  (labels : list string) (pre : list string) (baseBranch : string)
  (post : list string) (h : History) (epre : list Event)
  (v : option PullRequest.t)
  (cpre : list Commit) (c : Commit) (cpost : list Commit)
  (es : list Event) (e : JsError) (cmd : string) (n : nat) :
  let coordinator branches :=
    doBackportVersions env (n + S fuel) owner repoName commits branches
      username labels in
  let start := synced owner repoName commits baseBranch in
  let failed := pickFailed env owner repoName (sha c) in
  let hb := (h ++ epre)%list in
  let hc := ((hb ++ start ++ es) ++ failed)%list in
  coordinator pre h = (epre, Ret v) ->
  commits = (cpre ++ c :: cpost)%list ->
  resetBranch env (hb ++ firstn 2 start)%list owner repoName = Fulfilled tt ->
  createAndCheckoutBranch env (hb ++ firstn 3 start)%list owner repoName
    baseBranch (getFeatureBranchName baseBranch commits)
  = Fulfilled tt ->
  sequentially tt cpre
    (fun commit =>
       cherrypickAndConfirm env (n + S fuel) owner repoName (sha commit))
    (hb ++ start)%list
  = (es, Ret tt) ->
  cherrypick env
    ((hb ++ start ++ es) ++ [SpinnerStart (Some "Cherry-picking commit")])%list
    owner repoName (sha c)
  = Rejected e ->
  Error.cmd e = Some cmd ->
  Js.includes "git cherry-pick" cmd = true ->
  (forall k, k < n ->
     confirmConflictResolved env (hc ++ dirtyRounds owner repoName k)%list
     = Fulfilled true /\
     isIndexDirty env
       (hc ++ dirtyRounds owner repoName k ++ [ConfirmConflictResolved])%list
       owner repoName
     = Fulfilled true) ->
  confirmConflictResolved env (hc ++ dirtyRounds owner repoName n)%list
  = Fulfilled false ->
  let attempt :=
    (start ++ es ++ failed ++ dirtyRounds owner repoName n
       ++ [ConfirmConflictResolved])%list in
  doBackportVersion env (n + S fuel) owner repoName commits baseBranch
    username labels hb
  = (attempt, Throw (HandledError "Application was aborted.")) /\
  cherrypicks attempt = map sha (cpre ++ [c]) /\
  filter isRemote attempt = [] /\
  coordinator (pre ++ baseBranch :: post)%list h
  = let reported :=
      (epre ++ attempt ++ [ConsoleError "Application was aborted."])%list in
    let rest := coordinator post (h ++ reported)%list in
    ((reported ++ fst rest)%list, snd rest).
Proof.
  cbv zeta.
  intros Hpre Hcommits Hreset Hcheckout Hpicks Hpick Hcmd Hinc Hdirty Hno.
  assert (Hc :
    cherrypickAndConfirm env (n + S fuel) owner repoName (sha c)
      ((h ++ epre) ++ synced owner repoName commits baseBranch ++ es)%list
    = ((pickFailed env owner repoName (sha c)
          ++ dirtyRounds owner repoName n
          ++ [ConfirmConflictResolved])%list,
       Throw (HandledError "Application was aborted."))).
  { rewrite (pick_conflict env (n + S fuel) owner repoName (sha c) _ e cmd
               Hpick Hcmd Hinc).
    cbv zeta.
    rewrite (loop_after_dirty_rounds env owner repoName n (S fuel) _ Hdirty).
    cbv zeta.
    rewrite (confirm_denied env owner repoName fuel _ Hno). reflexivity. }
  destruct (pipeline_fails_at_commit env (n + S fuel) owner repoName commits
              baseBranch username labels (h ++ epre)%list cpre c cpost es _ _
              Hcommits Hreset Hcheckout Hpicks Hc) as (Hrun & Hp & Hr).
  rewrite <- ?app_assoc in Hrun, Hp, Hr.
  split; [exact Hrun|]. split; [exact Hp|]. split; [exact Hr|].
  pose proof (branch_handled env (n + S fuel) owner repoName commits username
                labels baseBranch _ _ _ Hrun eq_refl) as H1.
  rewrite (coordinator_continues env (n + S fuel) owner repoName commits
             username labels pre baseBranch post h epre v _ Hpre H1).
  cbv zeta. cbn [Error.message HandledError]. rewrite <- !app_assoc.
  reflexivity.
Qed.

Lemma abort_ends_the_branch_only_witness :
  let run :=
    doBackportVersions Sample.deniedOnRetry6x 2 "elastic" "kibana"
      [Sample.commit10; Sample.commitNoPull] ["5.x"; "6.x"; "7.x"] "me" []
      [] in
  snd run = Ret None /\
  filter isPrompt (fst run)
  = [ConfirmConflictResolved; ConfirmConflictResolved] /\
  map (fun ev => match ev with Push _ _ _ branch => branch | _ => "" end)
      (filter (fun ev => match ev with Push _ _ _ _ => true | _ => false end)
              (fst run))
  = ["backport/5.x/pr-10_commit-deadbee"; "backport/7.x/pr-10_commit-deadbee"].
Proof.
  cbv zeta.
  destruct (abort_ends_the_branch_only Sample.deniedOnRetry6x 0
              "elastic" "kibana" [Sample.commit10; Sample.commitNoPull]
              "me" [] ["5.x"] "6.x" ["7.x"] []
              (fst (doBackportVersions Sample.deniedOnRetry6x 2 "elastic"
                      "kibana" [Sample.commit10; Sample.commitNoPull]
                      ["5.x"] "me" [] []))
              None [] Sample.commit10 [Sample.commitNoPull] []
              Sample.conflictError "git cherry-pick abc1234def5678" 1
              eq_refl eq_refl eq_refl eq_refl eq_refl eq_refl eq_refl eq_refl
              ltac:(intros [|k] Hk; [split; reflexivity | lia])
              eq_refl) as (_ & _ & _ & Hrun).
  change (["5.x"; "6.x"; "7.x"]) with (["5.x"] ++ "6.x" :: ["7.x"])%list.
  change (1 + 1) with 2 in Hrun. rewrite Hrun. cbv zeta. cbn [fst snd].
  split; [|split]; vm_compute; reflexivity.
Defined.

(** C2, as claimed, fails: after the operator declines on [6.x], the
    branch [7.x] is attempted all the same, and pushed. *)
Lemma abort_does_not_end_the_run :
  let run :=
    doBackportVersions Sample.denied6x 1 "elastic" "kibana"
      [Sample.commit10] ["6.x"; "7.x"] "me" [] [] in
  firstn 11 (fst run)
  = [ Log "Backporting #10 to 6.x";
      SpinnerStart (Some "Pulling latest changes");
      ResetBranch "elastic" "kibana";
      CreateAndCheckoutBranch "elastic" "kibana" "6.x" "backport/6.x/pr-10";
      SpinnerSucceed;
      SpinnerStart (Some "Cherry-picking commit");
      Cherrypick "elastic" "kibana" "abc1234def5678";
      SpinnerText
        "Cherry-picking failed. Please resolve conflicts in: /home/me/.backport/repositories/elastic/kibana";
      SpinnerFail;
      ConfirmConflictResolved;
      ConsoleError "Application was aborted." ] /\
  In (CreateAndCheckoutBranch "elastic" "kibana" "7.x" "backport/7.x/pr-10")
     (skipn 11 (fst run)) /\
  In (Cherrypick "elastic" "kibana" "abc1234def5678") (skipn 11 (fst run)) /\
  In (Push "elastic" "kibana" "me" "backport/7.x/pr-10")
     (skipn 11 (fst run)) /\
  snd run = Ret None.
Proof.
  cbv zeta. split; [|split; [|split; [|split]]].
  - vm_compute. reflexivity.
  - vm_compute. tauto.
  - vm_compute. tauto.
  - vm_compute. tauto.
  - vm_compute. reflexivity.
Qed.

(** ** Errors of the hosting API *)

Lemma obj_set_sets (k : string) (v : Json) (o : JsObject) :
  In (k, v) (obj_set k v o).
Proof.
  induction o as [|[k' v'] o IH]; simpl; [now left|].
  destruct (String.eqb k' k); [now left | now right].
Qed.

Lemma obj_set_keeps (k : string) (v : Json) (o : JsObject) k0 v0 :
  In (k0, v0) o -> k0 <> k -> In (k0, v0) (obj_set k v o).
Proof.
  intros Hin Hk. induction o as [|[k' v'] o IH]; simpl in *; [contradiction|].
  destruct (String.eqb_spec k' k) as [->|Hne].
  - destruct Hin as [[= -> ->]|Hin]; [now elim Hk | now right].
  - destruct Hin as [Hin|Hin]; [now left | right; now apply IH].
Qed.

(** C8, as the source has it.  An error that carries the data of an error
    response is turned into a [HandledError] whose message is the JSON text
    of that data with the requested url added as [axiosUrl]; [handleErrors]
    prints that message and does not throw, so the branches after the
    failing one are attempted.  An error without such data is kept as it
    is: unless it is a [HandledError] already, [handleErrors] prints it and
    throws it again.  [createPullRequest] throws what [getError] makes of the
    error of the request. *)
Theorem getError_classifies (env : Env) (e : JsError) :
  (forall data,
     Error.response e = Some (Some data) ->
     let context := obj_set "axiosUrl" (JStr (Error.config_url e)) data in
     getError env e = HandledError (JSON_stringify env context) /\
     In ("axiosUrl", JStr (Error.config_url e)) context /\
     (forall k x, In (k, x) data -> k <> "axiosUrl" -> In (k, x) context) /\
     (forall h,
        handleErrors (getError env e) h
        = ([ConsoleError (JSON_stringify env context)], Ret tt)) /\
     (forall fuel owner repoName commits username labels pre baseBranch post
             h epre v ev,
        doBackportVersions env fuel owner repoName commits pre username
          labels h
        = (epre, Ret v) ->
        doBackportVersion env fuel owner repoName commits baseBranch username
          labels (h ++ epre)%list
        = (ev, Throw (getError env e)) ->
        doBackportVersions env fuel owner repoName commits
          (pre ++ baseBranch :: post)%list username labels h
        = let reported :=
            (epre ++ ev
               ++ [ConsoleError (JSON_stringify env context)])%list in
          let rest :=
            doBackportVersions env fuel owner repoName commits post username
              labels (h ++ reported)%list in
          ((reported ++ fst rest)%list, snd rest))) /\
  (Error.response e = None \/ Error.response e = Some None ->
   getError env e = e /\
   (Error.name e <> "HandledError" ->
    forall h, handleErrors e h = ([ConsoleErrorObject e], Throw e))) /\
  (forall owner repoName payload h,
     let url := "https://api.github.com/repos/" ++ owner ++ "/" ++ repoName
                ++ "/pulls?access_token=" ++ accessToken env in
     axios_post env h url (PayloadBody payload) = Rejected e ->
     createPullRequest env owner repoName payload h
     = ([AxiosPost url (PayloadBody payload)], Throw (getError env e))).
Proof.
  split; [|split].
  - intros data Hdata context.
    assert (Hget : getError env e = HandledError (JSON_stringify env context))
      by (unfold getError; now rewrite Hdata).
    split; [exact Hget|].
    split; [apply obj_set_sets|].
    split; [intros k x; apply obj_set_keeps|].
    split; [intros h; now rewrite Hget|].
    intros fuel owner repoName commits username labels pre baseBranch post
           h epre v ev Hpre Hb.
    rewrite Hget in Hb.
    pose proof (branch_handled env fuel owner repoName commits username
                  labels baseBranch _ ev _ Hb eq_refl) as H1.
    rewrite (coordinator_continues env fuel owner repoName commits username
               labels pre baseBranch post h epre v _ Hpre H1).
    cbv zeta. cbn [Error.message HandledError]. rewrite <- !app_assoc.
    reflexivity.
  - intros Hnone.
    assert (Hget : getError env e = e)
      by (unfold getError; destruct Hnone as [-> | ->]; reflexivity).
    split; [exact Hget|].
    intros Hname h. unfold handleErrors.
    apply String.eqb_neq in Hname. rewrite Hname. reflexivity.
  - intros owner repoName payload h url Hpost.
    unfold createPullRequest. cbv zeta. fold url.
    erewrite try_catch_Throw.
    2:{ apply bind_Throw. unfold call. rewrite Hpost. reflexivity. }
    reflexivity.
Qed.

Lemma getError_classifies_witness :
  getError Sample.refused6x Sample.apiError
  = HandledError
      (JSON_stringify Sample.refused6x
         [("message", JStr "Validation Failed");
          ("axiosUrl",
           JStr "https://api.github.com/repos/elastic/kibana/pulls?access_token=t0k3n")]) /\
  getError Sample.refused6x Sample.networkError = Sample.networkError /\
  handleErrors Sample.networkError []
  = ([ConsoleErrorObject Sample.networkError], Throw Sample.networkError).
Proof.
  destruct (getError_classifies Sample.refused6x Sample.apiError)
    as (Hdata & _ & _).
  destruct (Hdata _ eq_refl) as (Hget & _).
  destruct (getError_classifies Sample.refused6x Sample.networkError)
    as (_ & Hnone & _).
  destruct (Hnone (or_introl eq_refl)) as (Hkeep & Hthrow).
  split; [exact Hget|]. split; [exact Hkeep|].
  apply Hthrow. cbn. discriminate.
Defined.

(** C8, as claimed, fails: the hosting API refuses the pull request onto
    [6.x] with a structured body; the error reaches the coordinator as a
    [HandledError], is printed, and the branch [7.x] is attempted and
    pushed.  The run does not throw. *)
Lemma api_error_response_does_not_end_the_run :
  let run :=
    doBackportVersions Sample.refused6x 1 "elastic" "kibana"
      [Sample.commit10] ["6.x"; "7.x"] "me" [] [] in
  Error.name (getError Sample.refused6x Sample.apiError) = "HandledError" /\
  In (ConsoleError (Error.message (getError Sample.refused6x Sample.apiError)))
     (fst run) /\
  map (fun ev => match ev with Push _ _ _ branch => branch | _ => "" end)
      (filter (fun ev => match ev with Push _ _ _ _ => true | _ => false end)
              (fst run))
  = ["backport/6.x/pr-10"; "backport/7.x/pr-10"] /\
  In (Log ("View pull request: https://github.com/elastic/kibana/pull/77"
           ++ Js.LF)) (fst run) /\
  snd run = Ret None.
Proof.
  cbv zeta. split; [|split; [|split; [|split]]].
  - reflexivity.
  - vm_compute. tauto.
  - vm_compute. reflexivity.
  - vm_compute. tauto.
  - vm_compute. reflexivity.
Qed.

(** * Further properties *)

(** ** [sequentially] and the spinner *)

(** X2. [sequentially] on no item resolves to [undefined] at once; on
    [item :: items] it runs the handler of [item] and then the rest, handing
    over no more than the order; and when the handlers of [pre] have
    returned and the handler of [item] throws, the run ends there with that
    error: no handler of a later item has run. *)
Theorem sequentially_runs_in_order {T A : Type} (handler : T -> M A)
  (undefined : A) :
  (forall h, sequentially undefined [] handler h = ([], Ret undefined)) /\
  (forall item items h,
     sequentially undefined (item :: items) handler h
     = bind (handler item) (fun a => sequentially a items handler) h) /\
  (forall pre item post h es a ev e,
     sequentially undefined pre handler h = (es, Ret a) ->
     handler item (h ++ es)%list = (ev, Throw e) ->
     sequentially undefined (pre ++ item :: post)%list handler h
     = ((es ++ ev)%list, Throw e)).
Proof.
  split; [reflexivity|]. split.
  - intros item items h. rewrite sequentially_forEach. cbn [forEach].
    apply bind_ext; [reflexivity|].
    intros a h'. symmetry. apply sequentially_forEach.
  - intros pre item post h es a ev e Hpre Hitem.
    rewrite sequentially_forEach in *. rewrite forEach_app.
    rewrite (bind_Ret _ _ h es a Hpre). cbn [forEach].
    rewrite (bind_Throw _ _ (h ++ es)%list ev e Hitem). reflexivity.
Qed.

Lemma sequentially_runs_in_order_witness :
  let handler commit :=
    cherrypickAndConfirm Sample.secondPickDenied 1 "elastic" "kibana"
      (sha commit) in
  snd (sequentially tt
         [Sample.commit10; Sample.commitNoPull; Sample.commitThird]
         handler [])
  = Throw (HandledError "Application was aborted.") /\
  cherrypicks
    (fst (sequentially tt
            [Sample.commit10; Sample.commitNoPull; Sample.commitThird]
            handler []))
  = ["abc1234def5678"; "deadbeefcafe0123"].
Proof.
  cbv zeta.
  destruct (sequentially_runs_in_order
              (fun commit =>
                 cherrypickAndConfirm Sample.secondPickDenied 1 "elastic"
                   "kibana" (sha commit)) tt) as (_ & _ & Hfail).
  pose proof (Hfail [Sample.commit10] Sample.commitNoPull
                [Sample.commitThird] [] _ tt _ _ eq_refl eq_refl) as H.
  change ([Sample.commit10] ++ Sample.commitNoPull :: [Sample.commitThird])%list
    with [Sample.commit10; Sample.commitNoPull; Sample.commitThird] in H.
  rewrite H. split; reflexivity.
Defined.

(** X3. The spinner does not alter control flow: [withSpinner] has the
    result of [fn], and its events are those of [fn] between the start of
    the spinner and its end, which is a success (or a plain stop when there
    is no text) when [fn] returns and a failure, after the error text if
    any, when [fn] throws. *)
Theorem withSpinner_transparent {T : Type} (text errorText : option string)
  (fn : M T) (h : History) :
  let inner := fn (h ++ [SpinnerStart text])%list in
  let run := withSpinner text errorText fn h in
  snd run = snd inner /\
  fst run
  = (SpinnerStart text :: fst inner
       ++ match snd inner with
          | Ret _ => [if truthy_opt text then SpinnerSucceed else SpinnerStop]
          | Throw _ => failureText errorText ++ [SpinnerFail]
          | OutOfFuel => []
          end)%list.
Proof.
  cbv zeta.
  destruct (fn (h ++ [SpinnerStart text])%list) as [ev [a|e|]] eqn:E.
  - rewrite (withSpinner_Ret text errorText fn h ev a E). now split.
  - rewrite (withSpinner_Throw text errorText fn h ev e E). now split.
  - rewrite (withSpinner_OutOfFuel text errorText fn h ev E). cbn.
    now rewrite app_nil_r.
Qed.

(** ** What a pipeline pushes and requests *)

Lemma filter_none (p : Event -> bool) (evs : list Event) :
  Forall (fun ev => negb (p ev) = true) evs -> filter p evs = [].
Proof.
  induction 1 as [|ev evs H _ IH]; [reflexivity|].
  simpl. destruct (p ev); [discriminate | exact IH].
Qed.

Lemma emitsOnly_loop (q : Event -> bool) env fuel owner repoName :
  q ConfirmConflictResolved = true ->
  q (IsIndexDirty owner repoName) = true ->
  emitsOnly q (confirmResolvedRecursive env fuel owner repoName).
Proof.
  intros Hc Hd h.
  pose proof (loop_events env owner repoName fuel h) as H.
  induction H as [|ev evs [-> | ->] _ IH]; constructor; auto.
Qed.

Lemma emitsOnly_pick (q : Event -> bool) env fuel owner repoName sha :
  (forall ev,
     match ev with
     | SpinnerStart _ | SpinnerSucceed | SpinnerStop | SpinnerText _
     | SpinnerFail => q ev = true
     | _ => True
     end) ->
  q (Cherrypick owner repoName sha) = true ->
  q ConfirmConflictResolved = true ->
  q (IsIndexDirty owner repoName) = true ->
  emitsOnly q (cherrypickAndConfirm env fuel owner repoName sha).
Proof.
  intros Hs Hp Hc Hd. unfold cherrypickAndConfirm.
  apply emitsOnly_try_catch.
  - apply emitsOnly_withSpinner; [exact Hs|]. now apply emitsOnly_call.
  - intros e. destruct (Error.cmd e) as [cmd|]; [|apply emitsOnly_throw].
    cbv zeta. destruct (Js.includes "git cherry-pick" cmd); cbn [negb].
    + now apply emitsOnly_loop.
    + apply emitsOnly_throw.
Qed.

Lemma emitsOnly_sequentially {T A} (q : Event -> bool) (handler : T -> M A) :
  (forall item, emitsOnly q (handler item)) ->
  forall undefined items, emitsOnly q (sequentially undefined items handler).
Proof.
  intros H u items h. rewrite sequentially_forEach.
  revert u h. induction items as [|item items IH]; intros u h.
  - constructor.
  - cbn [forEach]. apply emitsOnly_bind; [apply H|].
    intros a h'. apply IH.
Qed.

Lemma remoteCalls_app (a b : list Event) : forall h,
  remoteCalls h (a ++ b)
  = (remoteCalls h a ++ remoteCalls (h ++ a) b)%list.
Proof.
  induction a as [|ev a IH]; intros h.
  - cbn. now rewrite app_nil_r.
  - cbn [app remoteCalls]. cbv zeta. rewrite IH, <- app_assoc.
    cbn [app]. now destruct (isRemote ev).
Qed.

Lemma remoteCalls_local (evs : list Event) : forall h,
  filter isRemote evs = [] -> remoteCalls h evs = [].
Proof.
  induction evs as [|ev evs IH]; intros h; [reflexivity|].
  cbn [filter remoteCalls]. cbv zeta.
  destruct (isRemote ev); [discriminate | apply IH].
Qed.

(** A stage that reaches no remote, before another. *)
Lemma local_then {A} (P : list (History * Event) -> Result A -> Prop)
  (Q : M unit) (R : M A) :
  (forall h, filter isRemote (fst (Q h)) = []) ->
  (forall e, P [] (Throw e)) -> P [] OutOfFuel ->
  (forall h, P (remoteCalls h (fst (R h))) (snd (R h))) ->
  forall h,
    P (remoteCalls h (fst (bind Q (fun _ => R) h)))
      (snd (bind Q (fun _ => R) h)).
Proof.
  intros HQ Ht Ho HR h.
  rewrite bind_fst, bind_snd, remoteCalls_app.
  rewrite (remoteCalls_local _ h (HQ h)). cbn [app].
  destruct (snd (Q h)) as [[]|e|]; [apply HR | apply Ht | apply Ho].
Qed.

Section Publish.

Variable env : Env.
Variables (owner repoName : string) (commits : list Commit).
Variables (baseBranch username : string) (labels : list string).

Ltac flat := rewrite <- ?app_assoc; cbn [app].

(** The request for the pull request, and the request that labels it. *)
Lemma open_and_label (h : History) :
  let pullsUrl :=
    "https://api.github.com/repos/" ++ owner ++ "/" ++ repoName
    ++ "/pulls?access_token=" ++ accessToken env in
  let payload := getPullRequestPayload baseBranch commits username in
  let labelsUrl n :=
    "https://api.github.com/repos/" ++ owner ++ "/" ++ repoName
    ++ "/issues/" ++ Js.toString n
    ++ "/labels?access_token=" ++ accessToken env in
  let opened := AxiosPost pullsUrl (PayloadBody payload) in
  let ask :=
    (pullRequest <- createPullRequest env owner repoName payload ;;
     (if Nat.ltb 0 (List.length labels)
      then _ <- addLabels env owner repoName
                  (PullRequest.number pullRequest) labels ;; ret tt
      else ret tt) ;;
     ret pullRequest) h in
  match axios_post env h pullsUrl (PayloadBody payload) with
  | Rejected e => ask = ([opened], Throw (getError env e))
  | Fulfilled issue =>
      let pullRequest :=
        PullRequest.mk (GithubIssue.html_url issue)
          (GithubIssue.number issue) in
      let labelling :=
        AxiosPost (labelsUrl (GithubIssue.number issue))
          (LabelsBody labels) in
      match labels with
      | [] => ask = ([opened], Ret pullRequest)
      | _ :: _ =>
          match
            axios_post env (h ++ [opened])%list
              (labelsUrl (GithubIssue.number issue)) (LabelsBody labels)
          with
          | Rejected e => ask = ([opened; labelling], Throw (getError env e))
          | Fulfilled _ => ask = ([opened; labelling], Ret pullRequest)
          end
      end
  end.
Proof.
  cbv zeta. unfold createPullRequest, addLabels. cbv zeta.
  unfold bind, try_catch, call, ret, throw.
  destruct (axios_post env h _ _) as [issue|e]; cbn [app fst snd];
    [|reflexivity].
  destruct labels as [|label labels']; [reflexivity|].
  cbn [List.length Nat.ltb Nat.leb PullRequest.number].
  destruct (axios_post env _ _ (LabelsBody _)) as [answer|e]; reflexivity.
Qed.

(** The last two steps of the pipeline: push, then pull request and
    labels. *)
Lemma publish_shape (h : History) :
  let run :=
    bind
      (withSpinner
         (Some ("Pushing branch " ++ username ++ ":"
                ++ getFeatureBranchName baseBranch commits)) None
         (call (Push owner repoName username
                  (getFeatureBranchName baseBranch commits))
               (fun h => push env h owner repoName username
                           (getFeatureBranchName baseBranch commits))))
      (fun _ =>
         withSpinner (Some "Creating pull request") None
           (pullRequest <- createPullRequest env owner repoName
                             (getPullRequestPayload baseBranch commits
                                username) ;;
            (if Nat.ltb 0 (List.length labels)
             then _ <- addLabels env owner repoName
                         (PullRequest.number pullRequest) labels ;; ret tt
             else ret tt) ;;
            ret pullRequest)) h in
  published env owner repoName commits baseBranch username labels
    (remoteCalls h (fst run)) (snd run).
Proof.
  cbv zeta.
  set (featureBranch := getFeatureBranchName baseBranch commits).
  set (pushing := Some ("Pushing branch " ++ username ++ ":" ++ featureBranch)).
  set (creating := Some "Creating pull request").
  set (pushed := Push owner repoName username featureBranch).
  destruct (push env (h ++ [SpinnerStart pushing])%list owner repoName
              username featureBranch) as [[]|e] eqn:Hpush.
  2:{ rewrite (bind_Throw _ _ h
                 (SpinnerStart pushing
                    :: ([pushed] ++ failureText None ++ [SpinnerFail])%list)
                 e)
        by (apply withSpinner_Throw; unfold call; now rewrite Hpush).
      right; left. exists (h ++ [SpinnerStart pushing])%list, e.
      split; [reflexivity|]. split; [exact Hpush | reflexivity]. }
  rewrite (bind_Ret _ _ h
             (SpinnerStart pushing
                :: ([pushed] ++ [if truthy_opt pushing then SpinnerSucceed
                                 else SpinnerStop])%list) tt)
    by (apply withSpinner_Ret; unfold call; now rewrite Hpush).
  cbn [fst snd].
  set (done := if truthy_opt pushing then SpinnerSucceed else SpinnerStop).
  assert (Hdone : isRemote done = false)
    by (subst done; now destruct (truthy_opt pushing)).
  set (h1 := (h ++ SpinnerStart pushing :: [pushed] ++ [done])%list).
  pose proof (open_and_label (h1 ++ [SpinnerStart creating])%list) as Hask.
  cbv zeta in Hask.
  set (pullsUrl := ("https://api.github.com/repos/" ++ owner ++ "/"
                    ++ repoName ++ "/pulls?access_token="
                    ++ accessToken env)%string) in *.
  set (payload := getPullRequestPayload baseBranch commits username) in *.
  fold featureBranch in Hask. cbv beta in Hask.
  assert (Hcalls : forall evs,
            remoteCalls h
              ((SpinnerStart pushing :: [pushed] ++ [done])
                 ++ SpinnerStart creating :: evs)%list
            = ((h ++ [SpinnerStart pushing])%list, pushed)
                :: remoteCalls (h1 ++ [SpinnerStart creating])%list evs).
  { intros evs. subst h1 pushed. cbn [app remoteCalls isRemote].
    rewrite Hdone. now flat. }
  destruct (axios_post env (h1 ++ [SpinnerStart creating])%list pullsUrl
              (PayloadBody payload)) as [issue|e] eqn:Hpull.
  2:{ rewrite (withSpinner_Throw _ _ _ h1 _ _ Hask). cbn [fst snd].
      rewrite Hcalls. right; right; left.
      exists (h ++ [SpinnerStart pushing])%list,
             (h1 ++ [SpinnerStart creating])%list, e.
      split; [reflexivity|]. split; [exact Hpush|].
      split; [exact Hpull | reflexivity]. }
  destruct labels as [|label labels'] eqn:Hlabels.
  { rewrite (withSpinner_Ret _ _ _ h1 _ _ Hask). cbn [fst snd].
    rewrite Hcalls. right; right; right; left.
    exists (h ++ [SpinnerStart pushing])%list,
           (h1 ++ [SpinnerStart creating])%list, issue.
    split; [reflexivity|]. split; [exact Hpush|].
    split; [exact Hpull|]. split; reflexivity. }
  set (labelsUrl := ("https://api.github.com/repos/" ++ owner ++ "/"
                     ++ repoName ++ "/issues/"
                     ++ Js.toString (GithubIssue.number issue)
                     ++ "/labels?access_token=" ++ accessToken env)%string)
    in *.
  right; right; right; right.
  exists (h ++ [SpinnerStart pushing])%list,
         (h1 ++ [SpinnerStart creating])%list,
         ((h1 ++ [SpinnerStart creating])
            ++ [AxiosPost pullsUrl (PayloadBody payload)])%list,
         issue.
  cbv zeta. fold labelsUrl.
  destruct (axios_post env _ labelsUrl (LabelsBody (label :: labels')))
    as [answer|e] eqn:Hlabel.
  - rewrite (withSpinner_Ret _ _ _ h1 _ _ Hask). cbn [fst snd].
    rewrite Hcalls. split; [reflexivity|]. split; [exact Hpush|].
    split; [exact Hpull|]. split; [discriminate|].
    right. exists answer. split; reflexivity.
  - rewrite (withSpinner_Throw _ _ _ h1 _ _ Hask). cbn [fst snd].
    rewrite Hcalls. split; [reflexivity|]. split; [exact Hpush|].
    split; [exact Hpull|]. split; [discriminate|].
    left. exists e. split; reflexivity.
Qed.

End Publish.

(** X4. Whatever the collaborators do, one run of a branch's pipeline
    pushes at most once, and only the feature branch it checked out, to the
    operator's fork; it asks for the pull request only after a push that
    succeeded, from that same branch ([head] is
    [<username>:<feature branch>]) onto the base branch; and it attaches
    labels only when there are labels, after the pull request, to the
    number in the answer the hosting API gave to the request for the pull
    request.  The run returns only after all of these were answered, and
    what it returns is the url and the number of that answer; when the push
    is rejected its error is thrown, and when a request is rejected what
    [getError] makes of its error is thrown. *)
Theorem doBackportVersion_remote_effects (env : Env) (fuel : nat)
  (owner repoName : string) (commits : list Commit)
  (baseBranch username : string) (labels : list string) (h : History) :
  let run :=
    doBackportVersion env fuel owner repoName commits baseBranch username
      labels h in
  let payload := getPullRequestPayload baseBranch commits username in
  head payload = username ++ ":" ++ getFeatureBranchName baseBranch commits /\
  base payload = baseBranch /\
  published env owner repoName commits baseBranch username labels
    (remoteCalls h (fst run)) (snd run).
Proof.
  cbv zeta. split; [reflexivity|]. split; [reflexivity|].
  assert (Hno : forall e,
            published env owner repoName commits baseBranch username labels
              [] (Throw e))
    by (intros e; left; split; [reflexivity | discriminate]).
  assert (Hout :
            published env owner repoName commits baseBranch username labels
              [] OutOfFuel)
    by (left; split; [reflexivity | discriminate]).
  unfold doBackportVersion. cbv zeta.
  apply local_then; [|exact Hno|exact Hout|]; clear h.
  { intros h. apply notRemote_filter. revert h. emits. }
  apply local_then; [|exact Hno|exact Hout|].
  { intros h. apply notRemote_filter. revert h. emits. }
  apply local_then; [|exact Hno|exact Hout|].
  { intros h. rewrite sequentially_forEach.
    apply (picks_events env fuel owner repoName commits tt h). }
  intros h. apply publish_shape.
Qed.

(** A run with a label, read as X4 does: the labels go to pull request 77,
    the number in the answer, and the run returns that pull request. *)
Example doBackportVersion_labels_the_answer :
  let run :=
    doBackportVersion Sample.happy 1 "elastic" "kibana" [Sample.commit10]
      "6.x" "me" ["backport"] [] in
  map snd (remoteCalls [] (fst run))
  = [ Push "elastic" "kibana" "me" "backport/6.x/pr-10";
      AxiosPost
        "https://api.github.com/repos/elastic/kibana/pulls?access_token=t0k3n"
        (PayloadBody (getPullRequestPayload "6.x" [Sample.commit10] "me"));
      AxiosPost
        "https://api.github.com/repos/elastic/kibana/issues/77/labels?access_token=t0k3n"
        (LabelsBody ["backport"]) ] /\
  snd run
  = Ret (PullRequest.mk "https://github.com/elastic/kibana/pull/77" 77).
Proof. cbv zeta. split; vm_compute; reflexivity. Qed.

(** X5. The title of the pull request is [[<baseBranch>] ] followed by the
    first 200 code units of the commit messages joined with [ | ]: it is at
    most 203 code units longer than the base branch, and for one commit
    whose message has at most 200 it is [[<baseBranch>] <message>]. *)
Theorem getPullRequestTitle_spec (baseBranch : string)
  (commits : list Commit) (username : string) :
  exists digest,
    title (getPullRequestPayload baseBranch commits username)
    = "[" ++ baseBranch ++ "] " ++ digest /\
    list_ascii_of_string digest
    = firstn 200
        (list_ascii_of_string (Js.join " | " (map message commits))) /\
    String.length (getPullRequestTitle baseBranch commits)
    <= String.length baseBranch + 203 /\
    (forall commit,
       commits = [commit] -> String.length (message commit) <= 200 ->
       getPullRequestTitle baseBranch commits
       = "[" ++ baseBranch ++ "] " ++ message commit).
Proof.
  exists (Js.slice 0 200 (Js.join " | " (map message commits))).
  unfold Js.slice. change (200 - 0) with 200.
  split; [reflexivity|]. split; [apply substring_0_chars|]. split.
  - unfold getPullRequestTitle, Js.slice. cbv zeta. change (200 - 0) with 200.
    rewrite !length_app, substring_0_length.
    change (String.length "[") with 1. change (String.length "] ") with 2.
    lia.
  - intros commit -> Hlen. unfold getPullRequestTitle, Js.slice. cbv zeta.
    change (200 - 0) with 200. cbn [map Js.join concat].
    now rewrite substring_0_all.
Qed.

Lemma getPullRequestTitle_spec_witness :
  getPullRequestTitle "7.x" [Sample.commit10] = "[7.x] Fix bug (#10)".
Proof.
  destruct (getPullRequestTitle_spec "7.x" [Sample.commit10] "me")
    as (digest & _ & _ & _ & Hone).
  apply (Hone Sample.commit10 eq_refl). cbn. lia.
Defined.

(** ** What a whole run does *)

Lemma spinner_notReset ev :
  match ev with
  | SpinnerStart _ | SpinnerSucceed | SpinnerStop | SpinnerText _
  | SpinnerFail => notReset ev = true
  | _ => True
  end.
Proof. now destruct ev. Qed.

(** Events counted in a stage stay counted when a stage without any
    follows. *)
Lemma count_then {A B} (p : Event -> bool) (m : M A) (k : A -> M B)
  (n : nat) :
  (forall h, List.length (filter p (fst (m h))) = n) ->
  (forall a, emitsOnly (fun ev => negb (p ev)) (k a)) ->
  forall h, List.length (filter p (fst (bind m k h))) = n.
Proof.
  intros Hm Hk h. rewrite bind_fst, filter_app, List.length_app, Hm.
  destruct (snd (m h)) as [a|e|]; cbn [List.length filter]; try lia.
  rewrite (filter_none p _ (Hk a _)). cbn. lia.
Qed.

Section Attempts.

Variable env : Env.
Variables (fuel : nat) (owner repoName : string) (commits : list Commit).
Variables (username : string) (labels : list string).

(** Each attempt at a branch resets the local mirror exactly once. *)
Lemma pipeline_resets baseBranch h :
  List.length
    (filter isReset
       (fst (doBackportVersion env fuel owner repoName commits baseBranch
               username labels h)))
  = 1.
Proof.
  unfold doBackportVersion. cbv zeta.
  erewrite bind_Ret by reflexivity. cbn [fst app filter isReset].
  apply count_then.
  - intros h'. unfold withSpinner, bind, try_catch, call, emit, ret, throw.
    match goal with
    | |- context [resetBranch env ?a ?b ?c] =>
        destruct (resetBranch env a b c)
    end; cbn; [|reflexivity].
    match goal with
    | |- context [createAndCheckoutBranch env ?a ?b ?c ?d ?e] =>
        destruct (createAndCheckoutBranch env a b c d e)
    end; reflexivity.
  - intros _. unfold createPullRequest, addLabels.
    apply emitsOnly_bind;
      [apply emitsOnly_sequentially; intros c;
       apply emitsOnly_pick; [exact spinner_notReset | reflexivity ..]|].
    intros _. apply emitsOnly_bind; [|intros _];
      (apply emitsOnly_withSpinner; [exact spinner_notReset|]).
    + now apply emitsOnly_call.
    + apply emitsOnly_bind; [|intros pr].
      * apply emitsOnly_try_catch; [|intros e; apply emitsOnly_throw].
        apply emitsOnly_bind; [now apply emitsOnly_call|].
        intros res. apply emitsOnly_ret.
      * apply emitsOnly_bind; [|intros _; apply emitsOnly_ret].
        destruct (Nat.ltb 0 (List.length labels)); [|apply emitsOnly_ret].
        apply emitsOnly_bind; [|intros _; apply emitsOnly_ret].
        apply emitsOnly_try_catch; [|intros e; apply emitsOnly_throw].
        now apply emitsOnly_call.
Qed.

(** What the handler of one branch makes of the pipeline's outcome. *)
Lemma branch_handler baseBranch h :
  let attempt :=
    doBackportVersion env fuel owner repoName commits baseBranch username
      labels h in
  try_catch
    (pullRequest <- doBackportVersion env fuel owner repoName commits
                      baseBranch username labels ;;
     log ("View pull request: " ++ PullRequest.html_url pullRequest
          ++ Js.LF) ;;
     ret None)
    (fun e => handleErrors e ;; ret None) h
  = (match snd attempt with
     | Ret pullRequest =>
         ((fst attempt
             ++ [Log ("View pull request: "
                      ++ PullRequest.html_url pullRequest ++ Js.LF)])%list,
          Ret None)
     | Throw e =>
         if String.eqb (Error.name e) "HandledError"
         then ((fst attempt ++ [ConsoleError (Error.message e)])%list,
               Ret None)
         else ((fst attempt ++ [ConsoleErrorObject e])%list, Throw e)
     | OutOfFuel => (fst attempt, OutOfFuel)
     end : list Event * Result (option PullRequest.t)).
Proof.
  cbv zeta. unfold try_catch, bind, handleErrors, log, emit, ret, throw.
  destruct (doBackportVersion env fuel owner repoName commits baseBranch
              username labels h) as [ev [pr|e|]]; cbn; try reflexivity.
  destruct (String.eqb (Error.name e) "HandledError"); reflexivity.
Qed.

End Attempts.

Section ForEachFacts.

Context {T A : Type} (handler : T -> M A).

Lemma forEach_count (p : Event -> bool) :
  (forall item h, List.length (filter p (fst (handler item h))) = 1) ->
  forall items u h,
    let run := forEach u items handler h in
    List.length (filter p (fst run)) <= List.length items /\
    (forall a, snd run = Ret a ->
               List.length (filter p (fst run)) = List.length items).
Proof.
  intros H items. induction items as [|item items IH]; intros u h; cbv zeta.
  - cbn. split; [lia | reflexivity].
  - cbn [forEach]. rewrite bind_fst, bind_snd, filter_app, List.length_app, H.
    destruct (snd (handler item h)) as [a|e|].
    + destruct (IH a (h ++ fst (handler item h))%list) as [Hle Heq].
      cbn [List.length]. split; [lia|]. intros b Hb. rewrite (Heq b Hb). lia.
    + cbn. split; [lia | discriminate].
    + cbn. split; [lia | discriminate].
Qed.

Lemma forEach_throws (P : JsError -> Prop) :
  (forall item h e, snd (handler item h) = Throw e -> P e) ->
  forall items u h e, snd (forEach u items handler h) = Throw e -> P e.
Proof.
  intros H items. induction items as [|item items IH]; intros u h e.
  - discriminate.
  - cbn [forEach]. rewrite bind_snd.
    destruct (snd (handler item h)) as [a|e'|] eqn:E.
    + apply IH.
    + intros [= <-]. exact (H item h e' E).
    + discriminate.
Qed.

End ForEachFacts.

(** X6. Whatever the collaborators do, a run over the branches never ends
    with a [HandledError]: such an error is always absorbed at the branch
    that raised it.  The local mirror is reset once for every branch
    attempted: at most once per branch of the list, and exactly once per
    branch when the run returns. *)
Theorem doBackportVersions_absorbs_handled_errors (env : Env) (fuel : nat)
  (owner repoName : string) (commits : list Commit)
  (branches : list string) (username : string) (labels : list string)
  (h : History) :
  let run :=
    doBackportVersions env fuel owner repoName commits branches username
      labels h in
  (forall e, snd run = Throw e -> Error.name e <> "HandledError") /\
  List.length (filter isReset (fst run)) <= List.length branches /\
  (forall v, snd run = Ret v ->
             List.length (filter isReset (fst run)) = List.length branches).
Proof.
  cbv zeta. unfold doBackportVersions. rewrite sequentially_forEach.
  split.
  - intros e.
    apply (forEach_throws _ (fun e => Error.name e <> "HandledError")).
    clear. intros baseBranch h e.
    rewrite branch_handler. cbv zeta.
    destruct (snd (doBackportVersion _ _ _ _ _ _ _ _ h)) as [pr|e'|];
      try discriminate.
    destruct (String.eqb (Error.name e') "HandledError") eqn:E;
      [discriminate|].
    intros [= <-]. now apply String.eqb_neq.
  - apply forEach_count. clear. intros baseBranch h.
    rewrite branch_handler. cbv zeta.
    pose proof (pipeline_resets env fuel owner repoName commits username
                  labels baseBranch h) as H.
    destruct (snd (doBackportVersion _ _ _ _ _ _ _ _ h)) as [pr|e'|];
      [| destruct (String.eqb (Error.name e') "HandledError") |];
      cbn [fst]; rewrite ?filter_app, ?List.length_app, ?H; reflexivity.
Qed.

(** ** The first line of a commit message *)

Section TextFacts.

Import Text.

Lemma firstLine_split (s : string) :
  s = firstLine s \/ exists rest, s = firstLine s ++ String LFchar rest.
Proof.
  induction s as [|c s IH]; [now left|]. simpl.
  destruct (Ascii.eqb_spec c LFchar) as [->|Hc].
  - right. now exists s.
  - destruct IH as [IH | [rest IH]].
    + left. now rewrite <- IH.
    + right. exists rest. simpl. now rewrite <- IH.
Qed.

Lemma firstLine_noLF (s : string) : allChars notLF (firstLine s) = true.
Proof.
  induction s as [|c s IH]; [reflexivity|]. simpl.
  destruct (Ascii.eqb c LFchar) eqn:E; [reflexivity|].
  simpl. unfold notLF at 1. now rewrite E.
Qed.

Lemma firstLine_id (s : string) : allChars notLF s = true -> firstLine s = s.
Proof.
  induction s as [|c s IH]; [reflexivity|]. simpl. unfold notLF at 1.
  destruct (Ascii.eqb c LFchar); [discriminate|].
  simpl. intros H. now rewrite IH.
Qed.

Lemma trimStart_split (s : string) :
  exists lead, s = lead ++ trimStart s /\ allChars isWhiteSpace lead = true.
Proof.
  induction s as [|c s (lead & IH & Hl)]; [now exists ""|]. simpl.
  destruct (isWhiteSpace c) eqn:E.
  - exists (String c lead). simpl. now rewrite <- IH, E, Hl.
  - now exists "".
Qed.

Lemma trimEnd_split (s : string) :
  exists trail, s = trimEnd s ++ trail /\ allChars isWhiteSpace trail = true.
Proof.
  induction s as [|c s (trail & IH & Ht)]; [now exists ""|]. simpl.
  destruct (trimEnd s) as [|d t] eqn:E.
  - destruct (isWhiteSpace c) eqn:Ec.
    + exists (String c trail). simpl in *. subst s. now rewrite Ec, Ht.
    + exists trail. simpl in *. now subst s.
  - exists trail. simpl in *. now rewrite <- IH.
Qed.

Lemma trimStart_starts (s : string) :
  startsWith isWhiteSpace (trimStart s) = false.
Proof.
  induction s as [|c s IH]; [reflexivity|]. simpl.
  destruct (isWhiteSpace c) eqn:E; [exact IH | exact E].
Qed.

Lemma trimEnd_ends (s : string) :
  endsWith isWhiteSpace (trimEnd s) = false.
Proof.
  induction s as [|c s IH]; [reflexivity|]. simpl.
  destruct (trimEnd s) as [|d t] eqn:E.
  - destruct (isWhiteSpace c) eqn:Ec; [reflexivity | exact Ec].
  - exact IH.
Qed.

Lemma trimEnd_starts (s : string) :
  startsWith isWhiteSpace s = false ->
  startsWith isWhiteSpace (trimEnd s) = false.
Proof.
  destruct s as [|c s]; [reflexivity|]. simpl. intros H.
  destruct (trimEnd s); [now rewrite H | exact H].
Qed.

Lemma trimStart_id (s : string) :
  startsWith isWhiteSpace s = false -> trimStart s = s.
Proof. destruct s as [|c s]; simpl; [reflexivity | now intros ->]. Qed.

Lemma trimEnd_id (s : string) :
  endsWith isWhiteSpace s = false -> trimEnd s = s.
Proof.
  induction s as [|c s IH]; [reflexivity|]. simpl.
  destruct s as [|d s'].
  - simpl. now intros ->.
  - intros H. rewrite (IH H). reflexivity.
Qed.

End TextFacts.

(** X7. The message kept for a commit is the first line of the message of
    the hosting API without the white space around it: the first line is
    everything before the first line feed, and the kept message is what is
    left of it between a run of white space on either side.  It has no line
    feed and neither starts nor ends with white space, and a message kept
    once is kept as it is. *)
Theorem getCommitMessage_spec (message : string) :
  let line := Github.getCommitMessage message in
  (message = Text.firstLine message \/
   exists rest,
     message = Text.firstLine message ++ String Text.LFchar rest) /\
  (exists lead trail,
     Text.firstLine message = lead ++ line ++ trail /\
     allChars Text.isWhiteSpace lead = true /\
     allChars Text.isWhiteSpace trail = true) /\
  allChars Text.notLF line = true /\
  Text.startsWith Text.isWhiteSpace line = false /\
  Text.endsWith Text.isWhiteSpace line = false /\
  Github.getCommitMessage line = line.
Proof.
  cbv zeta. unfold Github.getCommitMessage, Text.trim.
  destruct (trimStart_split (Text.firstLine message)) as (lead & Hl & Hlw).
  destruct (trimEnd_split (Text.trimStart (Text.firstLine message)))
    as (trail & Ht & Htw).
  assert (Hno : allChars Text.notLF
                  (Text.trimEnd (Text.trimStart (Text.firstLine message)))
                = true).
  { pose proof (firstLine_noLF message) as H.
    rewrite Hl, Ht, !allChars_app in H.
    apply andb_true_iff in H as [_ H]. now apply andb_true_iff in H as [H _]. }
  pose proof (trimEnd_starts _ (trimStart_starts (Text.firstLine message)))
    as Hs.
  pose proof (trimEnd_ends (Text.trimStart (Text.firstLine message))) as He.
  split; [apply firstLine_split|].
  split; [exists lead, trail; split; [|now split]; now rewrite <- Ht|].
  split; [exact Hno|]. split; [exact Hs|]. split; [exact He|].
  rewrite (firstLine_id _ Hno), (trimStart_id _ Hs). now apply trimEnd_id.
Qed.

Example getCommitMessage_first_line :
  Github.getCommitMessage
    ("  Fix bug (#10) " ++ Js.LF ++ Js.LF ++ "* a longer description")
  = "Fix bug (#10)".
Proof. reflexivity. Qed.

(** ** Requests of the commit selection *)

Example commits_by_author_with_pull_request :
  Github.getCommitsByAuthor SampleHost.testEnv SampleHost.twoCommits
    "elastic" "kibana" (Some "sqren") []
  = ([AxiosGet SampleHost.commitsOfSqren None;
      AxiosGet (SampleHost.issuesOf "abc1234def5678") None;
      AxiosGet (SampleHost.issuesOf "deadbeefcafe0123") None],
     Fulfilled
       [mkCommit "abc1234def5678" "Fix bug (#10)" (Some 10%N);
        mkCommit "deadbeefcafe0123" "Tidy up" None]).
Proof. vm_compute. reflexivity. Qed.

Section QuerystringFacts.

Import Querystring.

Lemma hexDigit_alnum (n : nat) : isAlphaNum (hexDigit n) = true.
Proof.
  unfold hexDigit.
  do 16 (destruct n as [|n]; [reflexivity|]).
  destruct n; reflexivity.
Qed.

Lemma percent_safe (n : nat) : allChars querySafe (percent n) = true.
Proof.
  unfold percent. cbn [allChars]. unfold querySafe at 2 3, unreserved.
  now rewrite !hexDigit_alnum.
Qed.

Lemma escapeChar_safe (c : ascii) : allChars querySafe (escapeChar c) = true.
Proof.
  unfold escapeChar. cbv zeta.
  destruct (unreserved c) eqn:E.
  - cbn. unfold querySafe. now rewrite E.
  - destruct (nat_of_ascii c <? 128)%nat.
    + apply percent_safe.
    + now rewrite allChars_app, !percent_safe.
Qed.

Lemma escape_safe (s : string) : allChars querySafe (escape s) = true.
Proof.
  induction s as [|c s IH]; [reflexivity|].
  cbn [escape]. now rewrite allChars_app, escapeChar_safe, IH.
Qed.

Lemma escape_unreserved (s : string) :
  allChars unreserved s = true -> escape s = s.
Proof.
  induction s as [|c s IH]; [reflexivity|]. cbn [allChars escape].
  intros H. apply andb_true_iff in H as [Hc Hs].
  unfold escapeChar. cbv zeta. rewrite Hc, (IH Hs). reflexivity.
Qed.

End QuerystringFacts.

(** X8. [getCommitsByAuthor] first asks for the commits of the repository
    at one url: with an author (a string that is not empty) for 5 commits
    of that author, otherwise for 20 commits and no author.  Whatever the
    author and the token are, what stands for them in the url has only
    letters, digits, [-_.!~*'()] and [%]: neither can end its parameter or
    add one; an author or token of such letters and digits stands for
    itself.  When that request fails, nothing else is requested and the
    error is thrown as [getError] classifies it. *)
Theorem getCommitsByAuthor_request (env : Env) (host : Host)
  (owner repoName : string) (author : option string) (h : list IoEvent) :
  let run := Github.getCommitsByAuthor env host owner repoName author h in
  let url := commitsUrl env owner repoName author in
  (exists later, fst run = AxiosGet url None :: later) /\
  (exists asked,
     url = "https://api.github.com/repos/" ++ owner ++ "/" ++ repoName
           ++ "/commits?access_token="
           ++ Querystring.escape (accessToken env) ++ "&per_page=" ++ asked /\
     match author with
     | Some (String c a) =>
         asked = "5&author=" ++ Querystring.escape (String c a)
     | _ => asked = "20"
     end) /\
  (forall s, allChars querySafe (Querystring.escape s) = true) /\
  (forall s, allChars Querystring.unreserved s = true ->
             Querystring.escape s = s) /\
  (forall e, get_commits host h url = Rejected e ->
             run = ([AxiosGet url None], Rejected (getError env e))).
Proof.
  cbv zeta.
  assert (Hurl :
    "https://api.github.com/repos/" ++ owner ++ "/" ++ repoName ++ "/commits?"
    ++ Querystring.stringify
         (if truthy_opt author
          then [("access_token", accessToken env); ("per_page", "5");
                ("author", match author with Some a => a | None => "" end)]
          else [("access_token", accessToken env); ("per_page", "20")])
    = commitsUrl env owner repoName author).
  { unfold commitsUrl. do 4 f_equal.
    destruct (truthy_opt author); cbn; now rewrite ?app_assoc_s. }
  unfold Github.getCommitsByAuthor. cbv zeta. rewrite Hurl.
  set (url := commitsUrl env owner repoName author).
  split; [|split; [|split; [|split]]].
  - unfold iobind, iotry, iocall.
    destruct (get_commits host h url) as [data|e]; cbn.
    + destruct (Github.lookups env host owner repoName data _) as [evs ps].
      now exists evs.
    + now exists [].
  - subst url. unfold commitsUrl.
    destruct author as [[|c a]|]; cbn [truthy_opt truthy String.eqb negb].
    + now exists "20".
    + now eexists.
    + now exists "20".
  - apply escape_safe.
  - apply escape_unreserved.
  - intros e He. unfold iobind, iotry, iocall. rewrite He. reflexivity.
Qed.

Lemma getCommitsByAuthor_request_witness :
  Querystring.escape "sqren" = "sqren" /\
  Github.getCommitsByAuthor SampleHost.testEnv SampleHost.twoCommits
    "elastic" "kibana" (Some "sq&ren=") []
  = ([AxiosGet
        "https://api.github.com/repos/elastic/kibana/commits?access_token=t0k3n&per_page=5&author=sq%26ren%3D"
        None],
     Rejected
       (getError SampleHost.testEnv
          (SampleHost.notFound
             "https://api.github.com/repos/elastic/kibana/commits?access_token=t0k3n&per_page=5&author=sq%26ren%3D"))).
Proof.
  destruct (getCommitsByAuthor_request SampleHost.testEnv
              SampleHost.twoCommits "elastic" "kibana" (Some "sq&ren=") [])
    as (_ & _ & _ & Hid & Hfail).
  split.
  - apply Hid. reflexivity.
  - apply Hfail. reflexivity.
Defined.

(** ** [Promise.all] over the lookups *)



Section Lookups.

Variable env : Env.
Variable host : Host.
Variables owner repoName : string.

Lemma getPullNumberBySha_run commitSha h :
  Github.getPullNumberBySha env host owner repoName commitSha h
  = ([AxiosGet (issueSearchUrl env owner repoName commitSha) None],
     match get_issue_search host h
             (issueSearchUrl env owner repoName commitSha) with
     | Fulfilled items =>
         Fulfilled (option_map GithubIssue.number (hd_error items))
     | Rejected e => Rejected (getError env e)
     end).
Proof.
  unfold Github.getPullNumberBySha, iotry, iobind, iocall, ioret, iothrow.
  cbv zeta. fold (issueSearchUrl env owner repoName commitSha).
  destruct (get_issue_search host h _); reflexivity.
Qed.



End Lookups.





Lemma getError_once (env : Env) (e : JsError) :
  getError env (getError env e) = getError env e.
Proof.
  unfold getError.
  destruct (Error.response e) as [[data|]|] eqn:E; cbn; now rewrite ?E.
Qed.

(** ** Classifying errors twice *)

(** X10. [getError] classifies once and for all: applied to its own result
    it changes nothing, so an error that passes two [catch] blocks of
    [src/lib/github.ts] is the error that passed the first.  Its result is
    a [HandledError] exactly when the error carried the data of a response
    or was one already. *)
Theorem getError_idempotent (env : Env) (e : JsError) :
  getError env (getError env e) = getError env e /\
  (Error.name (getError env e) = "HandledError" <->
   (exists data, Error.response e = Some (Some data)) \/
   Error.name e = "HandledError").
Proof.
  unfold getError.
  destruct (Error.response e) as [[data|]|] eqn:E; cbn; rewrite ?E.
  - split; [reflexivity|]. split; [eauto | reflexivity].
  - split; [reflexivity|]. split; [now right|].
    intros [[data Hd] | H]; [discriminate | exact H].
  - split; [reflexivity|]. split; [now right|].
    intros [[data Hd] | H]; [discriminate | exact H].
Qed.

(** ** One commit, by hash or by pull request *)

(** X11. [getCommitBySha] searches for the hash once.  When nothing is
    found it throws the [HandledError] "No commit found for SHA: <sha>" and
    asks nothing else.  Otherwise it takes the first commit found, searches
    for its pull request by its full sha, and returns that commit: the full
    sha, the first line of the message, the pull number if any.  The error
    of either request is thrown as [getError] classifies it. *)
Theorem github_getCommitBySha_spec (env : Env) (host : Host)
  (owner repoName sha : string) (h : list IoEvent) :
  let run := Github.getCommitBySha env host owner repoName sha h in
  let search :=
    AxiosGet (commitSearchUrl env owner repoName sha)
             (Some "application/vnd.github.cloak-preview") in
  (forall e,
     get_commit_search host h (commitSearchUrl env owner repoName sha)
     = Rejected e ->
     run = ([search], Rejected (getError env e))) /\
  (get_commit_search host h (commitSearchUrl env owner repoName sha)
   = Fulfilled [] ->
   run = ([search],
          Rejected (HandledError ("No commit found for SHA: " ++ sha)))) /\
  (forall commit others,
     get_commit_search host h (commitSearchUrl env owner repoName sha)
     = Fulfilled (commit :: others) ->
     let lookup :=
       issueSearchUrl env owner repoName (GithubCommit.sha commit) in
     fst run = [search; AxiosGet lookup None] /\
     (forall items,
        get_issue_search host (h ++ [search])%list lookup = Fulfilled items ->
        snd run = Fulfilled (commitOf commit items)) /\
     (forall e,
        get_issue_search host (h ++ [search])%list lookup = Rejected e ->
        snd run = Rejected (getError env e))).
Proof.
  cbv zeta. unfold Github.getCommitBySha. cbv zeta.
  fold (commitSearchUrl env owner repoName sha).
  split; [|split].
  - intros e He. unfold iotry, iobind, iocall, iothrow. rewrite He.
    reflexivity.
  - intros He. unfold iotry, iobind, iocall, iothrow. rewrite He.
    reflexivity.
  - intros commit others He.
    set (url := commitSearchUrl env owner repoName sha) in *.
    unfold iotry, iobind, iocall. rewrite He, getPullNumberBySha_run.
    set (lookup := issueSearchUrl env owner repoName (GithubCommit.sha commit)).
    unfold ioret, iothrow.
    destruct (get_issue_search host _ lookup) as [items|e] eqn:E;
      cbv beta iota zeta; cbn [app fst snd].
    + split; [reflexivity|].
      split; [now intros items' [= <-] | discriminate].
    + split; [reflexivity|]. split; [discriminate|].
      intros e' [= <-]. f_equal. apply getError_once.
Qed.

Lemma github_getCommitBySha_spec_witness :
  Github.getCommitBySha SampleHost.testEnv SampleHost.found "elastic" "kibana"
    "0000000" []
  = ([AxiosGet (SampleHost.searchOf "0000000")
        (Some "application/vnd.github.cloak-preview")],
     Rejected (HandledError "No commit found for SHA: 0000000")) /\
  snd (Github.getCommitBySha SampleHost.testEnv SampleHost.found "elastic"
         "kibana" "abc1234" [])
  = Fulfilled (mkCommit "abc1234def5678" "Fix bug (#10)" (Some 10%N)).
Proof.
  split.
  - destruct (github_getCommitBySha_spec SampleHost.testEnv SampleHost.found
                "elastic" "kibana" "0000000" []) as (_ & Hnone & _).
    exact (Hnone eq_refl).
  - destruct (github_getCommitBySha_spec SampleHost.testEnv SampleHost.found
                "elastic" "kibana" "abc1234" []) as (_ & _ & Hsome).
    destruct (Hsome SampleHost.first [] eq_refl) as (_ & Hok & _).
    exact (Hok [SampleHost.pull10] eq_refl).
Defined.

(** X12. [getCommitByPullNumber] asks for the pull request once.  When it
    is not merged it throws the [HandledError] "Pull request #<n> has not
    been merged to master".  When it is merged it returns the merge commit
    with the title as its message and [n] as its pull number; when [n] is
    not 0 the commit is referred to as [#<n>] and its branch slug is
    [pr-<n>], and when [n] is 0 both are made of the first seven code units
    of the merge commit's sha.  The error of the request is thrown as
    [getError] classifies it. *)
Theorem github_getCommitByPullNumber_spec (env : Env) (host : Host)
  (owner repoName : string) (number : N) (h : list IoEvent) :
  let run := Github.getCommitByPullNumber env host owner repoName number h in
  let url := pullUrl env owner repoName number in
  fst run = [AxiosGet url None] /\
  (forall e, get_pull host h url = Rejected e ->
             snd run = Rejected (getError env e)) /\
  (forall data,
     get_pull host h url = Fulfilled data ->
     GithubPullRequest.merged data = false ->
     snd run
     = Rejected (HandledError ("Pull request #" ++ Js.toString number
                               ++ " has not been merged to master"))) /\
  (forall data,
     get_pull host h url = Fulfilled data ->
     GithubPullRequest.merged data = true ->
     exists commit,
       snd run = Fulfilled commit /\
       sha commit = GithubPullRequest.merge_commit_sha data /\
       message commit = GithubPullRequest.title data /\
       pullNumber commit = Some number /\
       (number <> 0%N ->
        getReferenceLong commit = "#" ++ Js.toString number /\
        getReferenceShort commit = "pr-" ++ Js.toString number) /\
       (number = 0%N ->
        getReferenceLong commit
        = Js.slice 0 7 (GithubPullRequest.merge_commit_sha data) /\
        getReferenceShort commit
        = "commit-"
          ++ Js.slice 0 7 (GithubPullRequest.merge_commit_sha data))).
Proof.
  cbv zeta. unfold Github.getCommitByPullNumber. cbv zeta.
  fold (pullUrl env owner repoName number).
  unfold iotry, iobind, iocall, iothrow, ioret.
  destruct (get_pull host h _) as [data|e].
  - destruct (GithubPullRequest.merged data) eqn:Hm; cbn.
    + split; [reflexivity|]. split; [discriminate|].
      split; [intros d [= <-]; congruence|].
      intros d [= <-] _. eexists. split; [reflexivity|].
      split; [reflexivity|]. split; [reflexivity|]. split; [reflexivity|].
      unfold getReferenceLong, getReferenceShort, getShortSha. split.
      * intros Hn.
        destruct (pullNumber_truthy
                    (mkCommit (GithubPullRequest.merge_commit_sha data)
                       (GithubPullRequest.title data) (Some number))
                    number eq_refl Hn) as [-> ->].
        split; reflexivity.
      * intros ->. split; reflexivity.
    + split; [reflexivity|]. split; [discriminate|].
      split; [reflexivity|]. intros d [= <-]. congruence.
  - cbn. split; [reflexivity|]. split; [now intros e' [= <-]|].
    split; discriminate.
Qed.

Lemma github_getCommitByPullNumber_spec_witness :
  snd (Github.getCommitByPullNumber SampleHost.testEnv SampleHost.pulls
         "elastic" "kibana" 11 [])
  = Rejected (HandledError "Pull request #11 has not been merged to master") /\
  exists commit,
    snd (Github.getCommitByPullNumber SampleHost.testEnv SampleHost.pulls
           "elastic" "kibana" 10 [])
    = Fulfilled commit /\
    getReferenceLong commit = "#10" /\
    getReferenceShort commit = "pr-10".
Proof.
  split.
  - destruct (github_getCommitByPullNumber_spec SampleHost.testEnv
                SampleHost.pulls "elastic" "kibana" 11 [])
      as (_ & _ & Hopen & _).
    exact (Hopen _ eq_refl eq_refl).
  - destruct (github_getCommitByPullNumber_spec SampleHost.testEnv
                SampleHost.pulls "elastic" "kibana" 10 [])
      as (_ & _ & _ & Hmerged).
    destruct (Hmerged _ eq_refl eq_refl)
      as (commit & Hrun & _ & _ & _ & Href & _).
    exists commit. split; [exact Hrun|]. apply Href. discriminate.
Defined.

(** ** The spinner of the commit selection *)

Lemma selecting_run (host : Host) (G : IO Commit) (h : list IoEvent) :
  (_ <~ ioemit (Ora None) ;;
   iotry
     (commit <~ G ;;
      _ <~ ioemit (Cli.selected host commit) ;;
      ioret commit)
     (fun e => _ <~ ioemit OraStop ;; iothrow e)) h
  = let inner := G (h ++ [Ora None])%list in
    (Ora None
       :: (fst inner
             ++ [match snd inner with
                 | Fulfilled commit => Cli.selected host commit
                 | Rejected _ => OraStop
                 end])%list,
     snd inner).
Proof.
  cbv zeta. unfold iobind, iotry, ioemit, ioret, iothrow.
  destruct (G (h ++ [Ora None])%list) as [ev [commit|e]]; reflexivity.
Qed.

(** X13. The wrappers [getCommitBySha] and [getCommitByPullNumber] of
    [cliService] settle as the functions of [github] they wrap, and add
    nothing to what those do but a spinner: it starts before, and ends
    once, after them, showing [Select commit <message>] when a commit is
    returned and stopping silently when an error is thrown. *)
Theorem cli_getCommit_spinner (env : Env) (host : Host)
  (owner repoName : string) (h : list IoEvent) :
  let ending (inner : list IoEvent * Settled Commit) :=
    match snd inner with
    | Fulfilled commit =>
        OraStopAndPersist (chalk_green host "?")
          (chalk_bold host "Select commit" ++ " "
           ++ chalk_cyan host (message commit))
    | Rejected _ => OraStop
    end in
  (forall sha,
     let inner :=
       Github.getCommitBySha env host owner repoName sha
         (h ++ [Ora None])%list in
     Cli.getCommitBySha env host owner repoName sha h
     = (Ora None :: (fst inner ++ [ending inner])%list, snd inner)) /\
  (forall pullNumber,
     let inner :=
       Github.getCommitByPullNumber env host owner repoName pullNumber
         (h ++ [Ora None])%list in
     Cli.getCommitByPullNumber env host owner repoName pullNumber h
     = (Ora None :: (fst inner ++ [ending inner])%list, snd inner)).
Proof.
  cbv zeta. split.
  - intros sha. unfold Cli.getCommitBySha. now rewrite selecting_run.
  - intros n. unfold Cli.getCommitByPullNumber. now rewrite selecting_run.
Qed.

(** X14. [getCommitsByPrompt] shows the prompt only for a list of commits
    that is not empty, after stopping the spinner, and settles as the
    prompt does: a prompt that is rejected does not mark the spinner as
    failed.  With no commit it prints [Select commit ], marks the spinner
    as failed and throws a [HandledError] that says, in red, that there are
    no commits "by you" when an author was given and no commits otherwise.
    When the listing is rejected the spinner is marked as failed and the
    error is thrown as it is. *)
Theorem getCommitsByPrompt_spec (env : Env) (host : Host)
  (owner repoName : string) (author : option string)
  (multipleCommits : bool) (h : list IoEvent) :
  let start := Ora (Some "Loading commits...") in
  let inner :=
    Github.getCommitsByAuthor env host owner repoName author
      (h ++ [start])%list in
  Cli.getCommitsByPrompt env host owner repoName author multipleCommits h
  = match snd inner with
    | Rejected e => (start :: (fst inner ++ [OraFail])%list, Rejected e)
    | Fulfilled [] =>
        (start
           :: (fst inner
                 ++ [OraStopAndPersist (chalk_green host "?")
                       (chalk_bold host "Select commit" ++ " ");
                     OraFail])%list,
         Rejected
           (HandledError
              (chalk_red host
                 (match author with
                  | Some (String _ _) =>
                      "There are no commits by you in this repository"
                  | _ => "There are no commits in this repository"
                  end))))
    | Fulfilled commits =>
        (start
           :: (fst inner
                 ++ [OraStop; ListCommits commits multipleCommits])%list,
         listCommits host
           (h ++ start :: fst inner ++ [OraStop])%list commits
           multipleCommits)
    end.
Proof.
  cbv zeta. unfold Cli.getCommitsByPrompt.
  unfold iobind at 1 2, iotry at 1, ioemit at 1.
  unfold iobind at 1.
  destruct (Github.getCommitsByAuthor env host owner repoName author _)
    as [ev [[|commit commits]|e]].
  - unfold iobind, ioemit, iothrow. cbn [app fst snd].
    rewrite <- ?app_assoc, ?app_nil_r. cbn [app].
    destruct author as [[|c a]|]; reflexivity.
  - unfold iobind, ioemit, ioret, iocall. cbn [app fst snd].
    rewrite <- ?app_assoc, ?app_nil_r. cbn [app].
    rewrite <- ?app_assoc, ?app_nil_r. reflexivity.
  - unfold iobind, ioemit, iothrow. cbn [app fst snd].
    now rewrite <- ?app_assoc, ?app_nil_r.
Qed.

(** ** Setting up the local repository *)

Lemma existsb_none (progress : list string) :
  existsb isDelete
    (map (fun p => OraText (p ++ "% Cloning repository (only first time)"))
         progress)
  = false /\
  existsb isDelete
    (map (fun p => OraText (p ++ "% " ++ "Cloning repository (only first time)"))
         progress)
  = false.
Proof. induction progress as [|p ps [IH1 IH2]]; split; auto. Qed.

(** X15. [maybeSetupRepo] clones only when the check of authentication has
    passed and the repository was found missing, and it deletes the
    repository only after a clone that failed, in which case it throws.
    When the repository exists it does nothing more and returns.  When the
    clone succeeds the spinner, having shown each progress report, ends in
    success and nothing is deleted.  When the clone fails the spinner is
    stopped, the repository is deleted and the error of the clone is
    thrown, unless the deletion fails too: then its error is thrown
    instead. *)
Theorem maybeSetupRepo_spec (host : Host) (owner repoName username : string)
  (h : list IoEvent) :
  let run := Cli.maybeSetupRepo host owner repoName username h in
  let checked := [VerifyGithubSshAuth; RepoExists owner repoName] in
  let spinning :=
    (checked ++ [Ora (Some "0% Cloning repository (only first time)")])%list in
  let cloned progress :=
    (spinning
       ++ SetupRepo owner repoName username
       :: map (fun p => OraText (p ++ "% Cloning repository (only first time)"))
              progress)%list in
  (existsb isSetup (fst run) = true ->
   verifyGithubSshAuth host h = Fulfilled tt /\
   repoExists host (h ++ [VerifyGithubSshAuth])%list owner repoName
   = Fulfilled false) /\
  (existsb isDelete (fst run) = true ->
   existsb isSetup (fst run) = true /\ exists e, snd run = Rejected e) /\
  (verifyGithubSshAuth host h = Fulfilled tt ->
   repoExists host (h ++ [VerifyGithubSshAuth])%list owner repoName
   = Fulfilled true ->
   run = (checked, Fulfilled tt)) /\
  (forall progress outcome,
     verifyGithubSshAuth host h = Fulfilled tt ->
     repoExists host (h ++ [VerifyGithubSshAuth])%list owner repoName
     = Fulfilled false ->
     setupRepo host (h ++ spinning)%list owner repoName username
     = (progress, outcome) ->
     match outcome with
     | Fulfilled _ =>
         run = ((cloned progress ++ [OraSucceed])%list, Fulfilled tt)
     | Rejected e =>
         run
         = ((cloned progress ++ [OraStop; DeleteRepo owner repoName])%list,
            match deleteRepo host (h ++ cloned progress ++ [OraStop])%list
                    owner repoName with
            | Fulfilled _ => Rejected e
            | Rejected e' => Rejected e'
            end)
     end).
Proof.
  cbv zeta. unfold Cli.maybeSetupRepo, Cli.cloning. cbv zeta.
  unfold iobind, iotry, iocall, ioemit, ioret, iothrow.
  destruct (verifyGithubSshAuth host h) as [[]|e0].
  2:{ cbn. split; [discriminate|]. split; [discriminate|].
      split; [discriminate|]. intros; discriminate. }
  destruct (repoExists host (h ++ [VerifyGithubSshAuth])%list owner repoName)
    as [[|]|e1].
  1:{ cbn. split; [discriminate|]. split; [discriminate|].
      split; [reflexivity|]. intros; discriminate. }
  2:{ cbn. split; [discriminate|]. split; [discriminate|].
      split; [discriminate|]. intros; discriminate. }
  cbn [app fst snd]. rewrite <- !app_assoc. cbn [app].
  destruct (setupRepo host _ owner repoName username) as [progress [[]|e]]
    eqn:Hs.
  - cbn [app fst snd]. rewrite ?app_nil_r.
    split; [now split|]. split.
    + cbn. rewrite existsb_app. cbn.
      rewrite ?(proj1 (existsb_none progress)),
        ?(proj2 (existsb_none progress)).
      discriminate.
    + split; [discriminate|].
      intros progress' outcome _ _ [= <- <-]. reflexivity.
  - cbn [app fst snd]. rewrite <- ?app_assoc. cbn [app].
    rewrite <- ?app_assoc. cbn [app].
    split; [now split|].
    destruct (deleteRepo host _ owner repoName) as [[]|e'] eqn:Hd;
      cbn [app fst snd]; rewrite ?app_nil_r, <- ?app_assoc; cbn [app].
    + split; [intros _; split; [reflexivity | eauto]|].
      split; [discriminate|].
      intros progress' outcome _ _ [= <- <-].
      rewrite <- ?app_assoc. cbn [app]. rewrite <- ?app_assoc. cbn [app].
      cbn [append] in Hd |- *. rewrite Hd. reflexivity.
    + split; [intros _; split; [reflexivity | eauto]|].
      split; [discriminate|].
      intros progress' outcome _ _ [= <- <-].
      rewrite <- ?app_assoc. cbn [app]. rewrite <- ?app_assoc. cbn [app].
      cbn [append] in Hd |- *. rewrite Hd. reflexivity.
Qed.

Lemma maybeSetupRepo_spec_witness :
  Cli.maybeSetupRepo SampleHost.cloneFails "elastic" "kibana" "me" []
  = ([VerifyGithubSshAuth; RepoExists "elastic" "kibana";
      Ora (Some "0% Cloning repository (only first time)");
      SetupRepo "elastic" "kibana" "me";
      OraText "10% Cloning repository (only first time)";
      OraText "50% Cloning repository (only first time)";
      OraStop; DeleteRepo "elastic" "kibana"],
     Rejected SampleHost.diskFull) /\
  Cli.maybeSetupRepo SampleHost.cloneSucceeds "elastic" "kibana" "me" []
  = ([VerifyGithubSshAuth; RepoExists "elastic" "kibana";
      Ora (Some "0% Cloning repository (only first time)");
      SetupRepo "elastic" "kibana" "me";
      OraText "50% Cloning repository (only first time)";
      OraText "100% Cloning repository (only first time)";
      OraSucceed],
     Fulfilled tt) /\
  Cli.maybeSetupRepo SampleHost.twoCommits "elastic" "kibana" "me" []
  = ([VerifyGithubSshAuth; RepoExists "elastic" "kibana"], Fulfilled tt).
Proof.
  split; [|split].
  - destruct (maybeSetupRepo_spec SampleHost.cloneFails "elastic" "kibana"
                "me" []) as (_ & _ & _ & Hclone).
    exact (Hclone ["10"; "50"] (Rejected SampleHost.diskFull)
             eq_refl eq_refl eq_refl).
  - destruct (maybeSetupRepo_spec SampleHost.cloneSucceeds "elastic" "kibana"
                "me" []) as (_ & _ & _ & Hclone).
    exact (Hclone ["50"; "100"] (Fulfilled tt) eq_refl eq_refl eq_refl).
  - destruct (maybeSetupRepo_spec SampleHost.twoCommits "elastic" "kibana"
                "me" []) as (_ & _ & Hexists & _).
    exact (Hexists eq_refl eq_refl).
Defined.

(** ** A pipeline that succeeds *)

(** X16. When the local mirror is synced, every commit is picked, the push
    succeeds and the hosting API creates the pull request, the pipeline
    returns the url and the number the API gave: at once when there are no
    labels; with labels, after asking to attach them to that number.  When
    attaching them fails the pipeline throws what [getError] makes of that
    error, although the pull request has been created. *)
Theorem doBackportVersion_returns_pull_request (env : Env) (fuel : nat)
  (owner repoName : string) (commits : list Commit)
  (baseBranch username : string) (labels : list string) (h : History)
  (es : list Event) (issue : GithubIssue.t) :
  let run :=
    doBackportVersion env fuel owner repoName commits baseBranch username
      labels h in
  let start := synced owner repoName commits baseBranch in
  let branch := getFeatureBranchName baseBranch commits in
  let pushing :=
    [SpinnerStart (Some ("Pushing branch " ++ username ++ ":" ++ branch));
     Push owner repoName username branch; SpinnerSucceed] in
  let creating :=
    [SpinnerStart (Some "Creating pull request");
     AxiosPost ("https://api.github.com/repos/" ++ owner ++ "/" ++ repoName
                ++ "/pulls?access_token=" ++ accessToken env)
               (PayloadBody
                  (getPullRequestPayload baseBranch commits username))] in
  let labelsUrl :=
    "https://api.github.com/repos/" ++ owner ++ "/" ++ repoName ++ "/issues/"
    ++ Js.toString (GithubIssue.number issue) ++ "/labels?access_token="
    ++ accessToken env in
  let created :=
    PullRequest.mk (GithubIssue.html_url issue) (GithubIssue.number issue) in
  resetBranch env (h ++ firstn 2 start)%list owner repoName = Fulfilled tt ->
  createAndCheckoutBranch env (h ++ firstn 3 start)%list owner repoName
    baseBranch branch
  = Fulfilled tt ->
  sequentially tt commits
    (fun commit => cherrypickAndConfirm env fuel owner repoName (sha commit))
    (h ++ start)%list
  = (es, Ret tt) ->
  push env (h ++ start ++ es ++ firstn 1 pushing)%list owner repoName
    username branch
  = Fulfilled tt ->
  axios_post env (h ++ start ++ es ++ pushing ++ firstn 1 creating)%list
    ("https://api.github.com/repos/" ++ owner ++ "/" ++ repoName
     ++ "/pulls?access_token=" ++ accessToken env)
    (PayloadBody (getPullRequestPayload baseBranch commits username))
  = Fulfilled issue ->
  (labels = [] ->
   run = ((start ++ es ++ pushing ++ creating ++ [SpinnerSucceed])%list,
          Ret created)) /\
  (labels <> [] ->
   run
   = match axios_post env (h ++ start ++ es ++ pushing ++ creating)%list
             labelsUrl (LabelsBody labels) with
     | Fulfilled _ =>
         ((start ++ es ++ pushing ++ creating
             ++ [AxiosPost labelsUrl (LabelsBody labels); SpinnerSucceed])%list,
          Ret created)
     | Rejected e =>
         ((start ++ es ++ pushing ++ creating
             ++ [AxiosPost labelsUrl (LabelsBody labels); SpinnerFail])%list,
          Throw (getError env e))
     end).
Proof.
  cbv zeta. intros Hreset Hcheckout Hpicks Hpush Hpost.
  unfold doBackportVersion. cbv zeta.
  rewrite pipeline_synced by assumption. cbv zeta.
  set (start := synced owner repoName commits baseBranch) in *.
  rewrite (bind_Ret _ _ _ es tt Hpicks). cbn [fst snd].
  cbn [firstn] in Hpush, Hpost.
  unfold withSpinner, createPullRequest, addLabels.
  unfold bind, try_catch, call, emit, ret, throw.
  match goal with
  | |- context [push env ?a ?b ?c ?d ?e] =>
      replace (push env a b c d e) with (@Fulfilled unit tt)
        by (rewrite <- Hpush; f_equal;
            rewrite <- ?app_assoc; cbn [app]; reflexivity)
  end.
  cbn -[start].
  match goal with
  | |- context [axios_post env ?a ?b (PayloadBody ?c)] =>
      replace (axios_post env a b (PayloadBody c)) with (Fulfilled issue)
        by (rewrite <- Hpost; f_equal;
            rewrite <- ?app_assoc; cbn [app]; reflexivity)
  end.
  cbn -[start].
  split.
  - intros ->. cbn -[start]. rewrite <- ?app_assoc. reflexivity.
  - intros Hl. destruct labels as [|label labels']; [now elim Hl|].
    cbn -[start].
    match goal with
    | |- _ = match axios_post env ?a ?b ?c with _ => _ end =>
        destruct (axios_post env a b c) as [answer|e] eqn:Hlabels
    end.
    + match goal with
      | |- context [axios_post env ?a ?b (LabelsBody ?c)] =>
          replace (axios_post env a b (LabelsBody c)) with (Fulfilled answer)
            by (rewrite <- Hlabels; f_equal;
                rewrite <- ?app_assoc; cbn [app]; rewrite <- ?app_assoc;
                reflexivity)
      end.
      cbn -[start]. rewrite <- ?app_assoc. reflexivity.
    + match goal with
      | |- context [axios_post env ?a ?b (LabelsBody ?c)] =>
          replace (axios_post env a b (LabelsBody c))
            with (@Rejected GithubIssue.t e)
            by (rewrite <- Hlabels; f_equal;
                rewrite <- ?app_assoc; cbn [app]; rewrite <- ?app_assoc;
                reflexivity)
      end.
      cbn -[start]. rewrite <- ?app_assoc. reflexivity.
Qed.

Lemma doBackportVersion_returns_pull_request_witness :
  snd (doBackportVersion Sample.happy 1 "elastic" "kibana" [Sample.commit10]
         "7.x" "me" [] [])
  = Ret (PullRequest.mk "https://github.com/elastic/kibana/pull/77" 77) /\
  snd (doBackportVersion Sample.happy 1 "elastic" "kibana" [Sample.commit10]
         "7.x" "me" ["backport"] [])
  = Ret (PullRequest.mk "https://github.com/elastic/kibana/pull/77" 77).
Proof.
  split.
  - destruct (doBackportVersion_returns_pull_request Sample.happy 1
                "elastic" "kibana" [Sample.commit10] "7.x" "me" [] []
                [SpinnerStart (Some "Cherry-picking commit");
                 Cherrypick "elastic" "kibana" "abc1234def5678";
                 SpinnerSucceed]
                (GithubIssue.mk "https://github.com/elastic/kibana/pull/77" 77)
                eq_refl eq_refl eq_refl eq_refl eq_refl) as [Hnone _].
    rewrite (Hnone eq_refl). reflexivity.
  - destruct (doBackportVersion_returns_pull_request Sample.happy 1
                "elastic" "kibana" [Sample.commit10] "7.x" "me" ["backport"]
                []
                [SpinnerStart (Some "Cherry-picking commit");
                 Cherrypick "elastic" "kibana" "abc1234def5678";
                 SpinnerSucceed]
                (GithubIssue.mk "https://github.com/elastic/kibana/pull/77" 77)
                eq_refl eq_refl eq_refl eq_refl eq_refl) as [_ Hsome].
    rewrite Hsome by discriminate. reflexivity.
Defined.
